(** * The task runner of the Task SDK: life-cycle, XCom protocol, trigger protocol

    A shallow embedding of
    [task-sdk/src/airflow/sdk/execution_time/task_runner.py]:
    [RuntimeTaskInstance.xcom_pull], [_xcom_push], [CommsDecoder],
    [_prepare], [run], [_handle_current_task_success],
    [_handle_current_task_failed], [_handle_trigger_dag_run],
    [_run_task_state_change_callbacks], [_execute_task] and
    [_push_xcom_if_needed].

    Python code that raises and mutates process state is embedded in a
    state-and-exception monad [M] over a [world]: the requests written to
    the supervisor, the lines still to be read from it, the XCom store, a
    logical clock and the number of times the task body was entered.
    The effects of a computation that raises are kept, as in Python.
    Logging, [set_current_context], the export of the context to
    [os.environ] and the [ExecutorSafeguard] tracker are left out: the
    runner reads none of them back. *)

From Stdlib Require Import ZArith List Bool Lia.
From stdpp Require Import base option list strings gmap.

Local Open Scope Z_scope.

#[local] Set Warnings "-register-all".

(** ** Python values *)

(** The payloads that travel through XCom and the messages: the JSON-like
    fragment of Python values.  A [VDict] keeps its items in insertion
    order, keys being arbitrary values as in Python. *)
Inductive value : Type :=
| VNone
| VBool (b : bool)
| VInt (z : Z)
| VStr (s : string)
| VList (l : list value)
| VDict (items : list (value * value)).

(** [v is None] *)
Definition is_None (v : value) : bool :=
  match v with VNone => true | _ => false end.

(** [isinstance(v, str)] *)
Definition is_str (v : value) : bool :=
  match v with VStr _ => true | _ => false end.

(** [isinstance(v, Mapping)] *)
Definition is_Mapping (v : value) : bool :=
  match v with VDict _ => true | _ => false end.

(** [bool(v)] *)
Definition truthy (v : value) : bool :=
  match v with
  | VNone => false
  | VBool b => b
  | VInt z => negb (z =? 0)
  | VStr s => negb (String.eqb s "")
  | VList l => match l with [] => false | _ => true end
  | VDict l => match l with [] => false | _ => true end
  end.

(** [datetime.timedelta], in microseconds (its resolution). *)
Definition timedelta := Z.

(** [bool(d)]: a timedelta is falsy exactly when it is [timedelta(0)]. *)
Definition timedelta_bool (d : timedelta) : bool := negb (d =? 0).

(** [d.total_seconds() <= 0]: [total_seconds] is [d / 10**6] as a float,
    which has the sign of [d]. *)
Definition total_seconds_le_0 (d : timedelta) : bool := d <=? 0.

(** ** States and messages *)

Inductive TerminalTIState := SUCCESS | FAILED | SKIPPED.
Inductive IntermediateTIState := UP_FOR_RETRY | UP_FOR_RESCHEDULE | DEFERRED.

(** [IntermediateTIState | TerminalTIState] *)
Inductive TIState :=
| Terminal (s : TerminalTIState)
| Intermediate (s : IntermediateTIState).

#[global] Instance TerminalTIState_eq_dec : EqDecision TerminalTIState.
Proof. solve_decision. Defined.
#[global] Instance IntermediateTIState_eq_dec : EqDecision IntermediateTIState.
Proof. solve_decision. Defined.
#[global] Instance TIState_eq_dec : EqDecision TIState.
Proof. solve_decision. Defined.

Record AssetProfile := {
  ap_name : option string;
  ap_uri : option string;
  ap_type : string;
}.

(** The objects that may sit in a task's [outlets]. *)
Inductive lineage_object :=
| Asset (name uri : string)
| AssetNameRef (name : string)
| AssetUriRef (uri : string)
| AssetAlias (name : string)
| OtherLineage.

(** [ToSupervisor]: the requests [run] and its helpers write. *)
Inductive ToSupervisor :=
| SetRenderedFields (rendered_fields : list (string * value))
| SkipDownstreamTasks (tasks : list value)
| TriggerDagRun (dag_id run_id : string) (logical_date : option Z)
    (conf : value) (reset_dag_run : bool)
| GetDagRunState (dag_id run_id : string)
| SucceedTask (end_date : Z) (task_outlets : list AssetProfile)
    (outlet_events : list value)
| TaskState (state : TerminalTIState) (end_date : Z)
| RetryTask (end_date : Z)
| RescheduleTask (reschedule_date end_date : Z)
| DeferTask (classpath : string) (trigger_kwargs : value)
    (trigger_timeout : option timedelta) (next_method : string)
    (next_kwargs : value).

(** The requests that report the outcome of the attempt; the others are
    side requests. *)
Definition is_outcome_message (m : ToSupervisor) : bool :=
  match m with
  | SucceedTask _ _ _ | TaskState _ _ | RetryTask _ | RescheduleTask _ _
  | DeferTask _ _ _ _ _ => true
  | SetRenderedFields _ | SkipDownstreamTasks _ | TriggerDagRun _ _ _ _ _
  | GetDagRunState _ _ => false
  end.

(** The state an outcome message reports. *)
Definition reported_state (m : ToSupervisor) : option TIState :=
  match m with
  | SucceedTask _ _ _ => Some (Terminal SUCCESS)
  | TaskState s _ => Some (Terminal s)
  | RetryTask _ => Some (Intermediate UP_FOR_RETRY)
  | RescheduleTask _ _ => Some (Intermediate UP_FOR_RESCHEDULE)
  | DeferTask _ _ _ _ _ => Some (Intermediate DEFERRED)
  | _ => None
  end.

Inductive ErrorType := DAGRUN_ALREADY_EXISTS | GENERIC_ERROR.

#[global] Instance ErrorType_eq_dec : EqDecision ErrorType.
Proof. solve_decision. Defined.

(** [ToTask]: the replies the runner reads back. *)
Inductive ToTask :=
| ErrorResponse (error : ErrorType)
| DagRunStateResult (state : string)
| OKResponse.

(** ** Exceptions *)

(** [DagRunTriggerException], raised by TriggerDagRunOperator. *)
Record DagRunTrigger := {
  trigger_dag_id : string;
  dag_run_id : string;
  drte_logical_date : option Z;
  drte_conf : value;
  reset_dag_run : bool;
  skip_when_already_exists : bool;
  wait_for_completion : bool;
  poke_interval : Z;
  allowed_states : list string;
  failed_states : list string;
}.

(** [TaskDeferred]; [trigger_classpath] and [trigger_kwargs] are what
    [defer.trigger.serialize()] returns. *)
Record Deferral := {
  trigger_classpath : string;
  trigger_kwargs : value;
  defer_timeout : option timedelta;
  method_name : string;
  defer_kwargs : value;
}.

(** The classes [run] and [_run_task_state_change_callbacks] name in their
    [except] clauses, the builtins they can meet, and the classes of user
    code: [UserAirflowException n] derives from [AirflowException],
    [UserException n] from [Exception] and [UserBaseException n] from
    [BaseException], each directly. *)
Module Cls.
Inductive t :=
| BaseException
| Exception
| SystemExit
| KeyboardInterrupt
| TypeError
| AttributeError
| ValidationError
| AirflowException
| AirflowFailException
| AirflowRescheduleException
| AirflowSensorTimeout
| AirflowSkipException
| AirflowTaskTerminated
| AirflowTaskTimeout
| DagRunTriggerException
| DownstreamTasksSkipped
| TaskDeferred
| XComForMappingNotPushed
| UnmappableXComTypePushed
| UserAirflowException (name : string)
| UserException (name : string)
| UserBaseException (name : string).

#[global] Instance eq_dec : EqDecision t.
Proof. solve_decision. Defined.
End Cls.

(** A raised exception: an instance of one of the classes above, with the
    attributes the runner reads from it.  An instance of a subclass that
    is not listed behaves, for the runner, as an instance of its listed
    parent. *)
Inductive exn :=
| DownstreamTasksSkipped (tasks : value)
| DagRunTriggerException (drte : DagRunTrigger)
| TaskDeferred (defer : Deferral)
| AirflowRescheduleException (reschedule_date : Z)
| AirflowSkipException
| AirflowFailException
| AirflowSensorTimeout
| AirflowTaskTimeout
| AirflowTaskTerminated
| AirflowException
| UserAirflowException (name : string)
| SystemExit
| KeyboardInterrupt
| TypeError
| AttributeError
| ValidationError
| XComForMappingNotPushed
| UnmappableXComTypePushed
| UserException (name : string)
| UserBaseException (name : string)
| BaseException
| Exception.

Definition class_of (e : exn) : Cls.t :=
  match e with
  | DownstreamTasksSkipped _ => Cls.DownstreamTasksSkipped
  | DagRunTriggerException _ => Cls.DagRunTriggerException
  | TaskDeferred _ => Cls.TaskDeferred
  | AirflowRescheduleException _ => Cls.AirflowRescheduleException
  | AirflowSkipException => Cls.AirflowSkipException
  | AirflowFailException => Cls.AirflowFailException
  | AirflowSensorTimeout => Cls.AirflowSensorTimeout
  | AirflowTaskTimeout => Cls.AirflowTaskTimeout
  | AirflowTaskTerminated => Cls.AirflowTaskTerminated
  | AirflowException => Cls.AirflowException
  | UserAirflowException n => Cls.UserAirflowException n
  | SystemExit => Cls.SystemExit
  | KeyboardInterrupt => Cls.KeyboardInterrupt
  | TypeError => Cls.TypeError
  | AttributeError => Cls.AttributeError
  | ValidationError => Cls.ValidationError
  | XComForMappingNotPushed => Cls.XComForMappingNotPushed
  | UnmappableXComTypePushed => Cls.UnmappableXComTypePushed
  | UserException n => Cls.UserException n
  | UserBaseException n => Cls.UserBaseException n
  | BaseException => Cls.BaseException
  | Exception => Cls.Exception
  end.

(** Modelled from the spec: the class declarations of [airflow.exceptions]
    and [airflow.sdk.exceptions] are not among the sources.  The hierarchy
    is the one the outcome mapping of the specification (section 4.2) and
    the order of the [except] clauses of [run] rest on: the skip,
    reschedule, fail-without-retry, sensor-timeout, trigger-run and
    skip-downstream signals are declared task errors ([AirflowException]);
    the deferral, timeout and termination signals derive from
    [BaseException] directly, like [SystemExit] and [KeyboardInterrupt];
    the two XCom mapping errors are type errors.  [bases c] lists the
    proper ancestors of [c]. *)
Definition bases (c : Cls.t) : list Cls.t :=
  match c with
  | Cls.BaseException => []
  | Cls.Exception | Cls.SystemExit | Cls.KeyboardInterrupt
  | Cls.AirflowTaskTerminated | Cls.AirflowTaskTimeout | Cls.TaskDeferred
  | Cls.UserBaseException _ => [Cls.BaseException]
  | Cls.TypeError | Cls.AttributeError | Cls.ValidationError
  | Cls.AirflowException | Cls.UserException _ =>
      [Cls.Exception; Cls.BaseException]
  | Cls.AirflowFailException | Cls.AirflowRescheduleException
  | Cls.AirflowSensorTimeout | Cls.AirflowSkipException
  | Cls.DagRunTriggerException | Cls.DownstreamTasksSkipped
  | Cls.UserAirflowException _ =>
      [Cls.AirflowException; Cls.Exception; Cls.BaseException]
  | Cls.XComForMappingNotPushed | Cls.UnmappableXComTypePushed =>
      [Cls.TypeError; Cls.Exception; Cls.BaseException]
  end.

(** [issubclass(c, d)] *)
Definition issubclass (c d : Cls.t) : bool :=
  bool_decide (d ∈ c :: bases c).

(** [isinstance(e, d)] *)
Definition isinstance (e : exn) (d : Cls.t) : bool :=
  issubclass (class_of e) d.

(** ** The monad of the runner *)

(** An XCom is identified by (dag id, task id, run id, map index, key). *)
Definition xcom_key : Type := string * string * string * option Z * string.

Record world := {
  sent : list ToSupervisor;
    (** what was written to the request socket, oldest first *)
  inbox : list (option ToTask);
    (** the lines [stdin] still holds; [None] is a line that does not decode *)
  xcoms : gmap xcom_key (value * option nat);
    (** the XCom store: value and recorded mapped length *)
  clock : Z;
    (** [datetime.now], in microseconds *)
  body_calls : nat;
    (** how many times the task body was entered *)
}.

Inductive result (A : Type) :=
| Ok (a : A)
| Raise (e : exn).
Arguments Ok {A} a.
Arguments Raise {A} e.

Definition M (A : Type) : Type := world -> result A * world.

Definition ret {A} (a : A) : M A := fun w => (Ok a, w).

Definition raise {A} (e : exn) : M A := fun w => (Raise e, w).

Definition bind {A B} (m : M A) (k : A -> M B) : M B :=
  fun w =>
    match m w with
    | (Ok a, w') => k a w'
    | (Raise e, w') => (Raise e, w')
    end.

(** [try: m  except BaseException as e: h e] *)
Definition try_except {A} (m : M A) (h : exn -> M A) : M A :=
  fun w =>
    match m w with
    | (Ok a, w') => (Ok a, w')
    | (Raise e, w') => h e w'
    end.

Declare Scope runner_scope.
Delimit Scope runner_scope with runner.
Notation "x <- m ;; k" := (bind m (fun x => k))
  (at level 100, m at next level, right associativity) : runner_scope.
Notation "m ;;; k" := (bind m (fun _ => k))
  (at level 100, right associativity) : runner_scope.
Local Open Scope runner_scope.

(** [for x in l: f x] *)
Fixpoint for_each {A} (l : list A) (f : A -> M unit) : M unit :=
  match l with
  | [] => ret tt
  | x :: l' => f x ;;; for_each l' f
  end.

(** [datetime.now(tz=timezone.utc)] *)
Definition now : M Z := fun w => (Ok (clock w), w).

(** ** World updates *)

Definition set_sent (s : list ToSupervisor) (w : world) : world :=
  {| sent := s; inbox := inbox w; xcoms := xcoms w; clock := clock w;
     body_calls := body_calls w |}.

Definition set_inbox (i : list (option ToTask)) (w : world) : world :=
  {| sent := sent w; inbox := i; xcoms := xcoms w; clock := clock w;
     body_calls := body_calls w |}.

Definition set_xcoms (x : gmap xcom_key (value * option nat)) (w : world)
  : world :=
  {| sent := sent w; inbox := inbox w; xcoms := x; clock := clock w;
     body_calls := body_calls w |}.

Definition set_clock (c : Z) (w : world) : world :=
  {| sent := sent w; inbox := inbox w; xcoms := xcoms w; clock := c;
     body_calls := body_calls w |}.

Definition set_body_calls (n : nat) (w : world) : world :=
  {| sent := sent w; inbox := inbox w; xcoms := xcoms w; clock := clock w;
     body_calls := n |}.

(** ** [CommsDecoder] *)

Module SUPERVISOR_COMMS.

(** [get_message]: one line is read and decoded; the decoder's error is
    re-raised.  At end of input [readline] returns the empty string, which
    does not decode either.  The request socket is taken to be open, that
    is, the startup message has been read. *)
Definition get_message : M ToTask :=
  fun w =>
    match inbox w with
    | [] => (Raise ValidationError, w)
    | None :: rest => (Raise ValidationError, set_inbox rest w)
    | Some msg :: rest => (Ok msg, set_inbox rest w)
    end.

(** [send_request]: the encoded message is written to the request socket.
    The socket is taken to be open and the write to succeed; module
    [Faulty] below has the runner over writes that may fail. *)
Definition send_request (msg : ToSupervisor) : M unit :=
  fun w => (Ok tt, set_sent (sent w ++ [msg]) w).

End SUPERVISOR_COMMS.

(** The outcome messages among the requests written so far. *)
Definition outcome_messages (w : world) : list ToSupervisor :=
  filter (fun m => is_outcome_message m = true) (sent w).

(** ** The XCom store *)

Module XCom.

(** Modelled from the spec: class [XCom] of
    [airflow.sdk.execution_time.xcom] is not among the sources.  Section 3:
    at most one value per composite key, overwritten, not appended;
    section 4.3: [push] stores the value at the composite key, replacing
    any prior value, and records a length for a mapped dependency. *)
Definition set (key : string) (v : value) (dag_id task_id run_id : string)
    (map_index : option Z) (_mapped_length : option nat) : M unit :=
  fun w =>
    (Ok tt,
     set_xcoms (<[(dag_id, task_id, run_id, map_index, key) :=
                    (v, _mapped_length)]> (xcoms w)) w).

(** Modelled from the spec: [XCom.get_one] is not among the sources.  The
    value stored at the composite key, [None] when there is none. *)
Definition get_one (store : gmap xcom_key (value * option nat))
    (run_id key task_id dag_id : string) (map_index : option Z)
    (include_prior_dates : bool) : value :=
  match store !! (dag_id, task_id, run_id, map_index, key) with
  | Some (v, _) => v
  | None => VNone
  end.

(** [k] is an artifact of the task instance under [key], at whatever map
    index. *)
Definition stored_under (key dag_id task_id run_id : string) (k : xcom_key)
  : bool :=
  let '(d, t, r, _, x) := k in
  String.eqb d dag_id && String.eqb t task_id && String.eqb r run_id
  && String.eqb x key.

(** Modelled from the spec: [XCom.delete] is not among the sources.
    Section 4.2: the keys the server marked stale are cleared.  [run]
    passes no map index: what the task instance stored under the key is
    removed at every map index. *)
Definition delete (key dag_id task_id run_id : string) : M unit :=
  fun w =>
    (Ok tt,
     set_xcoms
       (filter (fun kv => stored_under key dag_id task_id run_id (fst kv)
                          = false) (xcoms w)) w).

End XCom.

(** ** Tasks and task instances *)

(** What the task body does when it is entered: how long it runs and how
    it ends. *)
Record body := {
  elapsed : timedelta;
  outcome : result value;
}.

(** [BaseOperator], as far as the runner reads it.  User code is given by
    how it ends: [rendering] stands for [get_hostname],
    [prepare_for_execution], [get_template_env], [render_templates] and
    [_serialize_rendered_fields], which either raise or yield the
    serialized rendered fields. *)
Record BaseOperator := {
  do_xcom_push : bool;
  multiple_outputs : bool;
  is_mapped : bool;
  iter_mapped_dependants : list string;
  execution_timeout : option timedelta;
  outlets : list lineage_object;
  _pre_execute_hook : option (result unit);
  _post_execute_hook : option (value -> result unit);
  on_execute_callback : list (result unit);
  execute : body;
  resume_execution : string -> value -> body;
  rendering : result (list (string * value));
  on_task_instance_running : result unit;
}.

(** [TIRunContext], as far as the runner reads it. *)
Record TIRunContext := {
  should_retry : bool;
  xcom_keys_to_clear : list string;
  next_method : option string;
  next_kwargs : option value;
}.

Record RuntimeTaskInstance := {
  dag_id : string;
  task_id : string;
  run_id : string;
  map_index : Z;
  task : BaseOperator;
  _ti_context_from_server : option TIRunContext;
}.

(** [Context]: [outlet_events] holds what [_serialize_outlet_events]
    yields for [context["outlet_events"]]. *)
Record Context := {
  outlet_events : list value;
}.

(** ** [RuntimeTaskInstance.xcom_pull] *)

(** [task_ids: str | Iterable[str] | None] *)
Inductive task_ids_arg :=
| TaskIdsNone
| TaskIdsStr (s : string)
| TaskIdsIter (l : list string).

(** [map_indexes: int | Iterable[int] | None | ArgNotSet], and a value of
    another type. *)
Inductive map_indexes_arg :=
| NOTSET
| MapIndexNone
| MapIndexInt (i : Z)
| MapIndexIter (l : list (option Z))
| MapIndexOther.

Section XComPull.

(** [XCom.get_one(run_id=, key=, task_id=, dag_id=, map_index=,
    include_prior_dates=)] *)
Variable get_one : string -> string -> string -> string -> option Z -> bool
                   -> value.

Definition resolve_task_ids (self : RuntimeTaskInstance)
    (task_ids : task_ids_arg) : list string :=
  match task_ids with
  | TaskIdsNone => [task_id self]
  | TaskIdsStr s => [s]
  | TaskIdsIter l => l
  end.

Definition resolve_map_indexes (self : RuntimeTaskInstance)
    (map_indexes : map_indexes_arg) : result (list (option Z)) :=
  match map_indexes with
  | NOTSET => Ok [Some (map_index self)]
  | MapIndexNone => Ok [None]
  | MapIndexInt i => Ok [Some i]
  | MapIndexIter l => Ok l
  | MapIndexOther => Raise TypeError
  end.

(** One turn of the loop: the value appended to [xcoms]. *)
Definition pull_one (dag_id run_id key : string) (include_prior_dates : bool)
    (default : value) (p : string * option Z) : value :=
  let v := get_one run_id key (fst p) dag_id (snd p) include_prior_dates in
  if is_None v then default else v.

Definition xcom_pull_from (self : RuntimeTaskInstance)
    (task_ids : task_ids_arg) (dag_id' : option string) (key : string)
    (include_prior_dates : bool) (map_indexes : map_indexes_arg)
    (default : value) (run_id' : option string) : result value :=
  let dag_id := match dag_id' with None => dag_id self | Some d => d end in
  let run_id := match run_id' with None => run_id self | Some r => r end in
  let task_ids := resolve_task_ids self task_ids in
  match resolve_map_indexes self map_indexes with
  | Raise e => Raise e
  | Ok map_indexes_iterable =>
      let xcoms :=
        map (pull_one dag_id run_id key include_prior_dates default)
            (list_prod task_ids map_indexes_iterable) in
      match xcoms with
      | [x] => Ok x
      | _ => Ok (VList xcoms)
      end
  end.

End XComPull.

(** [self.xcom_pull(...)], reading the store of the world. *)
Definition xcom_pull (self : RuntimeTaskInstance) (task_ids : task_ids_arg)
    (dag_id' : option string) (key : string) (include_prior_dates : bool)
    (map_indexes : map_indexes_arg) (default : value)
    (run_id' : option string) : M value :=
  fun w =>
    (xcom_pull_from (XCom.get_one (xcoms w)) self task_ids dag_id' key
       include_prior_dates map_indexes default run_id', w).

Definition _xcom_push (ti : RuntimeTaskInstance) (key : string) (v : value)
    (mapped_length : option nat) : M unit :=
  XCom.set key v (dag_id ti) (task_id ti) (run_id ti) (Some (map_index ti))
    mapped_length.

(** [self.xcom_push(key, value)] *)
Definition xcom_push (self : RuntimeTaskInstance) (key : string) (v : value)
  : M unit :=
  _xcom_push self key v None.

(** ** User code, callbacks and preparation *)

(** Calling a piece of user code that ends as [r]. *)
Definition call_user {A} (r : result A) : M A := fun w => (r, w).

(** [try: m  except Exception: log.exception(...)] *)
Definition best_effort (m : M unit) : M unit :=
  try_except m
    (fun e => if isinstance e Cls.Exception then ret tt else raise e).

Definition _run_task_state_change_callbacks (callbacks : list (result unit))
  : M unit :=
  for_each callbacks (fun callback => best_effort (call_user callback)).

Definition _prepare (ti : RuntimeTaskInstance) (context : Context)
  : M (option ToSupervisor) :=
  rendered_fields <- call_user (rendering (task ti)) ;;
  (match rendered_fields with
   | [] => ret tt
   | _ => SUPERVISOR_COMMS.send_request (SetRenderedFields rendered_fields)
   end) ;;;
  best_effort (call_user (on_task_instance_running (task ti))) ;;;
  (* No error, carry on and execute the task *)
  ret None.

(** ** [_execute_task] *)

(** [ctx.run(execute, context=context)] *)
Definition call_body (b : body) : M value :=
  fun w =>
    (outcome b,
     set_clock (clock w + elapsed b) (set_body_calls (S (body_calls w)) w)).

(** Modelled from the spec: the context manager [timeout] of
    [airflow.utils.timeout] is not among the sources.  Section 4.2: the
    body runs under a deadline that raises Timeout if exceeded. *)
Definition call_body_with_timeout (timeout_seconds : timedelta) (b : body)
  : M value :=
  fun w =>
    let w' := set_body_calls (S (body_calls w)) w in
    if timeout_seconds <? elapsed b
    then (Raise AirflowTaskTimeout, set_clock (clock w + timeout_seconds) w')
    else (outcome b, set_clock (clock w + elapsed b) w').

(** [bool(task.execution_timeout)] for a [timedelta | None] *)
Definition execution_timeout_bool (t : option timedelta) : bool :=
  match t with
  | None => false
  | Some d => timedelta_bool d
  end.

(** [next_kwargs or {}] *)
Definition or_empty_dict (v : option value) : value :=
  match v with
  | None => VDict []
  | Some v => if truthy v then v else VDict []
  end.

(** [BaseSerialization.deserialize] is not among the sources: the run
    context carries [next_kwargs] as the decoded value, and a stored value
    that cannot be decoded is outside the model. *)
Definition _execute_task (context : Context) (ti : RuntimeTaskInstance)
  : M value :=
  let task := task ti in
  let execute :=
    match _ti_context_from_server ti with
    | Some c =>
        match next_method c with
        | Some m =>
            if negb (String.eqb m "")
            then resume_execution task m (or_empty_dict (next_kwargs c))
            else execute task
        | None => execute task
        end
    | None => execute task
    end in
  (match _pre_execute_hook task with
   | Some pre_execute_hook => call_user pre_execute_hook
   | None => ret tt
   end) ;;;
  _run_task_state_change_callbacks (on_execute_callback task) ;;;
  result <-
    (if execution_timeout_bool (execution_timeout task) then
       match execution_timeout task with
       | Some timeout_seconds =>
           try_except
             ((* It's possible we're already timed out, so fast-fail if true *)
              if total_seconds_le_0 timeout_seconds
              then raise AirflowTaskTimeout
              else call_body_with_timeout timeout_seconds execute)
             (fun e => (* except AirflowTaskTimeout: raise *) raise e)
       | None => raise AttributeError
       end
     else call_body execute) ;;
  (match _post_execute_hook task with
   | Some post_execute_hook => call_user (post_execute_hook result)
   | None => ret tt
   end) ;;;
  ret result.

(** ** [_push_xcom_if_needed] *)

(** Modelled from the spec: [is_mappable_value] of
    [airflow.sdk.definitions.mappedoperator] is not among the sources.
    Section 4.3: a value can be mapped over when it is a sized, ordered
    collection; character strings are not. *)
Definition is_mappable_value (v : value) : bool :=
  match v with
  | VList _ | VDict _ => true
  | _ => false
  end.

(** [len(v)]; [TypeError] for a value without a length. *)
Definition len (v : value) : result nat :=
  match v with
  | VList l => Ok (length l)
  | VDict l => Ok (length l)
  | VStr s => Ok (String.length s)
  | _ => Raise TypeError
  end.

(** [v.items()]; [AttributeError] for a value that is no dict. *)
Definition items_of (v : value) : result (list (value * value)) :=
  match v with
  | VDict l => Ok l
  | _ => Raise AttributeError
  end.

(** [next(task.iter_mapped_dependants(), None) is not None or task.is_mapped] *)
Definition is_mapped_or_has_dependants (t : BaseOperator) : bool :=
  match iter_mapped_dependants t with
  | [] => false
  | _ :: _ => true
  end || is_mapped t.

Definition _push_xcom_if_needed (result : value) (ti : RuntimeTaskInstance)
  : M unit :=
  let xcom_value := if do_xcom_push (task ti) then result else VNone in
  let is_mapped := is_mapped_or_has_dependants (task ti) in
  if is_None xcom_value then
    if is_mapped
    then (* a downstream mapped task depends on us to push something *)
         raise XComForMappingNotPushed
    else ret tt
  else
    mapped_length <-
      (if is_mapped then
         if negb (is_mappable_value xcom_value)
         then raise UnmappableXComTypePushed
         else n <- call_user (len xcom_value) ;; ret (Some n)
       else ret None) ;;
    (if multiple_outputs (task ti) then
       if negb (is_Mapping xcom_value) then raise TypeError
       else
         ks <- call_user (items_of xcom_value) ;;
         for_each ks (fun kv =>
           if negb (is_str (fst kv)) then raise TypeError else ret tt) ;;;
         its <- call_user (items_of result) ;;
         for_each its (fun kv =>
           match fst kv with
           | VStr k => xcom_push ti k (snd kv)
           | _ => raise TypeError
           end)
     else ret tt) ;;;
    _xcom_push ti "return_value" result mapped_length.

(** ** Outcomes *)

Definition _build_asset_profiles (lineage_objects : list lineage_object)
  : list AssetProfile :=
  flat_map (fun obj =>
    match obj with
    | Asset name uri =>
        [{| ap_name := Some name; ap_uri := Some uri; ap_type := "Asset" |}]
    | AssetNameRef name =>
        [{| ap_name := Some name; ap_uri := None; ap_type := "AssetNameRef" |}]
    | AssetUriRef uri =>
        [{| ap_name := None; ap_uri := Some uri; ap_type := "AssetUriRef" |}]
    | AssetAlias name =>
        [{| ap_name := Some name; ap_uri := None; ap_type := "AssetAlias" |}]
    | OtherLineage => []
    end) lineage_objects.

Definition _handle_current_task_success (context : Context)
    (ti : RuntimeTaskInstance) : M (ToSupervisor * TIState) :=
  let task_outlets := _build_asset_profiles (outlets (task ti)) in
  end_date <- now ;;
  ret (SucceedTask end_date task_outlets (outlet_events context),
       Terminal SUCCESS).

Definition _handle_current_task_failed (ti : RuntimeTaskInstance)
  : M (ToSupervisor * TIState) :=
  end_date <- now ;;
  if match _ti_context_from_server ti with
     | Some c => should_retry c
     | None => false
     end
  then ret (RetryTask end_date, Intermediate UP_FOR_RETRY)
  else ret (TaskState FAILED end_date, Terminal FAILED).

(** ** [_handle_trigger_dag_run] *)

(** [state in states] *)
Definition state_in (state : string) (states : list string) : bool :=
  existsb (String.eqb state) states.

(** What the [while True] loop ends with. *)
Inductive poll_end :=
| PollFailed (end_date : Z)  (* the [return msg, state] inside the loop *)
| PollAllowed                (* the [break] *).

(** The [while True] loop of [_handle_trigger_dag_run].  Every turn reads
    one line, so the loop is a recursion on the lines [stdin] holds; it
    threads the requests written and the clock. *)
Fixpoint poll (drte : DagRunTrigger) (lines : list (option ToTask))
    (written : list ToSupervisor) (time : Z)
  : result poll_end * (list (option ToTask) * list ToSupervisor * Z) :=
  let time := time + poke_interval drte in
  let written :=
    written ++ [GetDagRunState (trigger_dag_id drte) (dag_run_id drte)] in
  match lines with
  | [] => (Raise ValidationError, ([], written, time))
  | None :: rest => (Raise ValidationError, (rest, written, time))
  | Some (DagRunStateResult state) :: rest =>
      if state_in state (failed_states drte)
      then (Ok (PollFailed time), (rest, written, time))
      else if state_in state (allowed_states drte)
      then (Ok PollAllowed, (rest, written, time))
      else poll drte rest written time
  | Some _ :: rest =>
      (* [comms_msg.state] on a reply that has no such attribute *)
      (Raise AttributeError, (rest, written, time))
  end.

Definition poll_loop (drte : DagRunTrigger) : M poll_end :=
  fun w =>
    let '(r, (lines, written, time)) :=
      poll drte (inbox w) (sent w) (clock w) in
    (r, set_clock time (set_sent written (set_inbox lines w))).

Definition _handle_trigger_dag_run (drte : DagRunTrigger) (context : Context)
    (ti : RuntimeTaskInstance) : M (ToSupervisor * TIState) :=
  SUPERVISOR_COMMS.send_request
    (TriggerDagRun (trigger_dag_id drte) (dag_run_id drte)
       (drte_logical_date drte) (drte_conf drte) (reset_dag_run drte)) ;;;
  comms_msg <- SUPERVISOR_COMMS.get_message ;;
  match comms_msg with
  | ErrorResponse DAGRUN_ALREADY_EXISTS =>
      if skip_when_already_exists drte then
        end_date <- now ;;
        ret (TaskState SKIPPED end_date, Terminal SKIPPED)
      else
        end_date <- now ;;
        ret (TaskState FAILED end_date, Terminal FAILED)
  | _ =>
      (* Store the run id from the dag run *)
      xcom_push ti "trigger_run_id" (VStr (dag_run_id drte)) ;;;
      if wait_for_completion drte then
        p <- poll_loop drte ;;
        match p with
        | PollFailed end_date =>
            ret (TaskState FAILED end_date, Terminal FAILED)
        | PollAllowed => _handle_current_task_success context ti
        end
      else _handle_current_task_success context ti
  end.

(** ** [run] *)

(** The [try] block of [run]: what [msg] and [state] are bound to when it
    is left without an exception, by the early [return] or at its end. *)
Definition run_try (ti : RuntimeTaskInstance) (context : Context)
  : M (option ToSupervisor * TIState) :=
  (* First, clear the xcom data sent from server *)
  (match _ti_context_from_server ti with
   | Some c =>
       for_each (xcom_keys_to_clear c) (fun x =>
         XCom.delete x (dag_id ti) (task_id ti) (run_id ti))
   | None => ret tt
   end) ;;;
  early_exit <- _prepare ti context ;;
  match early_exit with
  | Some msg => ret (Some msg, Terminal FAILED)
  | None =>
      result <- _execute_task context ti ;;
      _push_xcom_if_needed result ti ;;;
      ms <- _handle_current_task_success context ti ;;
      ret (Some (fst ms), snd ms)
  end.

(** The handler an [except ... as e] clause runs: the bindings of [msg],
    [state] and [error] it leaves. *)
Definition retry_or_fail (ti : RuntimeTaskInstance) (e : exn)
  : M (option ToSupervisor * TIState * option exn) :=
  ms <- _handle_current_task_failed ti ;;
  ret (Some (fst ms), snd ms, Some e).

Definition task_failed (e : exn)
  : M (option ToSupervisor * TIState * option exn) :=
  end_date <- now ;;
  ret (Some (TaskState FAILED end_date), Terminal FAILED, Some e).

(** The [except] clauses of [run], tried in the order of the source.  The
    constructors of the messages and [defer.trigger.serialize()] are taken
    to return; module [Faulty] below has the clauses when they raise. *)
Definition run_except (ti : RuntimeTaskInstance) (context : Context)
    (e : exn) : M (option ToSupervisor * TIState * option exn) :=
  if isinstance e Cls.DownstreamTasksSkipped then
    match e with
    | DownstreamTasksSkipped tasks =>
        let tasks_to_skip :=
          match tasks with VList l => l | _ => [tasks] end in
        SUPERVISOR_COMMS.send_request (SkipDownstreamTasks tasks_to_skip) ;;;
        ms <- _handle_current_task_success context ti ;;
        ret (Some (fst ms), snd ms, None)
    | _ => raise AttributeError
    end
  else if isinstance e Cls.DagRunTriggerException then
    match e with
    | DagRunTriggerException drte =>
        ms <- _handle_trigger_dag_run drte context ti ;;
        ret (Some (fst ms), snd ms, None)
    | _ => raise AttributeError
    end
  else if isinstance e Cls.TaskDeferred then
    match e with
    | TaskDeferred defer =>
        ret (Some (DeferTask (trigger_classpath defer) (trigger_kwargs defer)
                     (defer_timeout defer) (method_name defer)
                     (or_empty_dict (Some (defer_kwargs defer)))),
             Intermediate DEFERRED, None)
    | _ => raise AttributeError
    end
  else if isinstance e Cls.AirflowSkipException then
    end_date <- now ;;
    ret (Some (TaskState SKIPPED end_date), Terminal SKIPPED, None)
  else if isinstance e Cls.AirflowRescheduleException then
    match e with
    | AirflowRescheduleException reschedule_date =>
        end_date <- now ;;
        ret (Some (RescheduleTask reschedule_date end_date),
             Intermediate UP_FOR_RESCHEDULE, None)
    | _ => raise AttributeError
    end
  else if isinstance e Cls.AirflowFailException
          || isinstance e Cls.AirflowSensorTimeout then
    (* If AirflowFailException is raised, task should not retry.
       If a sensor in reschedule mode reaches timeout, task should not
       retry. *)
    task_failed e
  else if isinstance e Cls.AirflowTaskTimeout
          || isinstance e Cls.AirflowException then
    (* We should allow retries if the task has defined it. *)
    retry_or_fail ti e
  else if isinstance e Cls.AirflowTaskTerminated then
    (* If these are thrown, we should mark the TI state as failed. *)
    task_failed e
  else if isinstance e Cls.SystemExit then
    (* SystemExit needs to be retried if they are eligible. *)
    retry_or_fail ti e
  else (* except BaseException *)
    retry_or_fail ti e.

(** The [finally] clause: [if msg: SUPERVISOR_COMMS.send_request(msg)]. *)
Definition run_finally (msg : option ToSupervisor) : M unit :=
  match msg with
  | Some m => SUPERVISOR_COMMS.send_request m
  | None => ret tt
  end.

(** [run]: the [try] block, the [except] clause that matches, then the
    [finally] clause on every way out.  An exception raised inside an
    [except] clause leaves [msg] unset and, after the [finally] clause,
    leaves [run]. *)
Definition run (ti : RuntimeTaskInstance) (context : Context)
  : M (TIState * option ToSupervisor * option exn) :=
  fun w =>
    match run_try ti context w with
    | (Ok (msg, state), w1) =>
        match run_finally msg w1 with
        | (Ok _, w2) => (Ok (state, msg, None), w2)
        | (Raise e, w2) => (Raise e, w2)
        end
    | (Raise e, w1) =>
        match run_except ti context e w1 with
        | (Ok (msg, state, error), w2) =>
            match run_finally msg w2 with
            | (Ok _, w3) => (Ok (state, msg, error), w3)
            | (Raise e', w3) => (Raise e', w3)
            end
        | (Raise e', w2) =>
            match run_finally None w2 with
            | (Ok _, w3) => (Raise e', w3)
            | (Raise e'', w3) => (Raise e'', w3)
            end
        end
    end.

(** ** Derived notions used in the statements *)

(** [run] up to the binding of [early_exit]: the stale XComs are cleared
    and the task is prepared. *)
Definition prepared (ti : RuntimeTaskInstance) (context : Context)
  : M (option ToSupervisor) :=
  (match _ti_context_from_server ti with
   | Some c =>
       for_each (xcom_keys_to_clear c) (fun x =>
         XCom.delete x (dag_id ti) (task_id ti) (run_id ti))
   | None => ret tt
   end) ;;;
  _prepare ti context.

(** The run context says a retry is still allowed:
    [ti._ti_context_from_server and ti._ti_context_from_server.should_retry]. *)
Definition retry_allowed (ti : RuntimeTaskInstance) : bool :=
  match _ti_context_from_server ti with
  | Some c => should_retry c
  | None => false
  end.

(** The control-flow signals the first six [except] clauses of [run]
    take. *)
Definition control_signal (e : exn) : bool :=
  isinstance e Cls.DownstreamTasksSkipped
  || isinstance e Cls.DagRunTriggerException
  || isinstance e Cls.TaskDeferred
  || isinstance e Cls.AirflowSkipException
  || isinstance e Cls.AirflowRescheduleException
  || isinstance e Cls.AirflowFailException
  || isinstance e Cls.AirflowSensorTimeout.

(** The composite key of an XCom of this task instance. *)
Definition own_key (ti : RuntimeTaskInstance) (key : string) : xcom_key :=
  (dag_id ti, task_id ti, run_id ti, Some (map_index ti), key).

(** [v] is a mapping all of whose keys are strings. *)
Definition string_keyed (v : value) : bool :=
  match v with
  | VDict items => forallb (fun kv => is_str (fst kv)) items
  | _ => false
  end.

(** The length recorded with the result of a task that is mapped over. *)
Definition mapped_length_of (ti : RuntimeTaskInstance) (v : value)
  : option nat :=
  if is_mapped_or_has_dependants (task ti)
  then match len v with Ok n => Some n | Raise _ => None end
  else None.

(** The store after each string-keyed item was stored under its key, in
    order. *)
Definition store_items (ti : RuntimeTaskInstance)
    (items : list (value * value))
    (store : gmap xcom_key (value * option nat))
  : gmap xcom_key (value * option nat) :=
  foldl (fun s kv =>
           match fst kv with
           | VStr k => <[own_key ti k := (snd kv, None)]> s
           | _ => s
           end) store items.

(** The pre-execute hook and the on-execute callbacks let no exception
    escape: the hook, if any, returns, and a callback raises at most an
    [Exception], which is logged. *)
Definition hooks_return (t : BaseOperator) : bool :=
  match _pre_execute_hook t with
  | None | Some (Ok _) => true
  | Some (Raise _) => false
  end
  && forallb (fun callback =>
       match callback with
       | Ok _ => true
       | Raise e => isinstance e Cls.Exception
       end) (on_execute_callback t).

(** [keeps R m]: from any world, [m] ends in a world related to it by [R],
    whether it returns or raises. *)
Definition keeps {A} (R : world -> world -> Prop) (m : M A) : Prop :=
  forall w, R w (snd (m w)).

(** Only side requests were written between [w] and [w']. *)
Definition side_requests_only (w w' : world) : Prop :=
  exists written,
    sent w' = sent w ++ written
    /\ Forall (fun m => is_outcome_message m = false) written.

(** The task body was not entered between [w] and [w']. *)
Definition body_not_entered (w w' : world) : Prop :=
  body_calls w' = body_calls w.

(** ** Sample attempts *)

Module Sample.

Definition operator : BaseOperator := {|
  do_xcom_push := true;
  multiple_outputs := false;
  is_mapped := false;
  iter_mapped_dependants := [];
  execution_timeout := None;
  outlets := [];
  _pre_execute_hook := None;
  _post_execute_hook := None;
  on_execute_callback := [];
  execute := {| elapsed := 5; outcome := Ok (VInt 42) |};
  resume_execution := fun _ _ => {| elapsed := 1; outcome := Ok VNone |};
  rendering := Ok [];
  on_task_instance_running := Ok tt;
|}.

(** The sample operator with another task body. *)
Definition with_body (r : result value) (t : BaseOperator) : BaseOperator := {|
  do_xcom_push := do_xcom_push t;
  multiple_outputs := multiple_outputs t;
  is_mapped := is_mapped t;
  iter_mapped_dependants := iter_mapped_dependants t;
  execution_timeout := execution_timeout t;
  outlets := outlets t;
  _pre_execute_hook := _pre_execute_hook t;
  _post_execute_hook := _post_execute_hook t;
  on_execute_callback := on_execute_callback t;
  execute := {| elapsed := 5; outcome := r |};
  resume_execution := resume_execution t;
  rendering := rendering t;
  on_task_instance_running := on_task_instance_running t;
|}.

Definition with_rendering (r : result (list (string * value)))
    (t : BaseOperator) : BaseOperator := {|
  do_xcom_push := do_xcom_push t;
  multiple_outputs := multiple_outputs t;
  is_mapped := is_mapped t;
  iter_mapped_dependants := iter_mapped_dependants t;
  execution_timeout := execution_timeout t;
  outlets := outlets t;
  _pre_execute_hook := _pre_execute_hook t;
  _post_execute_hook := _post_execute_hook t;
  on_execute_callback := on_execute_callback t;
  execute := execute t;
  resume_execution := resume_execution t;
  rendering := r;
  on_task_instance_running := on_task_instance_running t;
|}.

Definition with_execution_timeout (d : option timedelta) (t : BaseOperator)
  : BaseOperator := {|
  do_xcom_push := do_xcom_push t;
  multiple_outputs := multiple_outputs t;
  is_mapped := is_mapped t;
  iter_mapped_dependants := iter_mapped_dependants t;
  execution_timeout := d;
  outlets := outlets t;
  _pre_execute_hook := _pre_execute_hook t;
  _post_execute_hook := _post_execute_hook t;
  on_execute_callback := on_execute_callback t;
  execute := execute t;
  resume_execution := resume_execution t;
  rendering := rendering t;
  on_task_instance_running := on_task_instance_running t;
|}.

(** [do_xcom_push], [multiple_outputs] and the mapped dependants set. *)
Definition with_xcom (push multi : bool) (dependants : list string)
    (t : BaseOperator) : BaseOperator := {|
  do_xcom_push := push;
  multiple_outputs := multi;
  is_mapped := is_mapped t;
  iter_mapped_dependants := dependants;
  execution_timeout := execution_timeout t;
  outlets := outlets t;
  _pre_execute_hook := _pre_execute_hook t;
  _post_execute_hook := _post_execute_hook t;
  on_execute_callback := on_execute_callback t;
  execute := execute t;
  resume_execution := resume_execution t;
  rendering := rendering t;
  on_task_instance_running := on_task_instance_running t;
|}.

Definition run_context (retry : bool) : TIRunContext := {|
  should_retry := retry;
  xcom_keys_to_clear := [];
  next_method := None;
  next_kwargs := None;
|}.

Definition instance (t : BaseOperator) (retry : bool) : RuntimeTaskInstance := {|
  dag_id := "dag";
  task_id := "task";
  run_id := "run";
  map_index := -1;
  task := t;
  _ti_context_from_server := Some (run_context retry);
|}.

Definition context : Context := {| outlet_events := [] |}.

(** A fresh attempt: nothing written, the lines [lines] to read. *)
Definition start (lines : list (option ToTask)) : world := {|
  sent := [];
  inbox := lines;
  xcoms := ∅;
  clock := 100;
  body_calls := 0;
|}.

Definition trigger (skip wait : bool) : DagRunTrigger := {|
  trigger_dag_id := "target";
  dag_run_id := "manual_1";
  drte_logical_date := None;
  drte_conf := VNone;
  reset_dag_run := false;
  skip_when_already_exists := skip;
  wait_for_completion := wait;
  poke_interval := 60;
  allowed_states := ["success"];
  failed_states := ["failed"];
|}.

End Sample.

(** * Further functions of the runner *)

(** The callable [_execute_task] binds to [execute]: the task's
    [resume_execution] at [next_method], with the stored keyword
    arguments, when the run context holds a resumption, and the task's
    [execute] otherwise. *)
Definition bound_execute (ti : RuntimeTaskInstance) : body :=
  match _ti_context_from_server ti with
  | Some c =>
      match next_method c with
      | Some m =>
          if negb (String.eqb m "")
          then resume_execution (task ti) m (or_empty_dict (next_kwargs c))
          else execute (task ti)
      | None => execute (task ti)
      end
  | None => execute (task ti)
  end.

(** A callback or listener hook that lets nothing escape a
    [try ... except Exception]: it returns or raises an [Exception]. *)
Definition contained {A} (r : result A) : Prop :=
  match r with
  | Ok _ => True
  | Raise e => isinstance e Cls.Exception = true
  end.

(** Between [w] and [w'] the task body was entered at most once. *)
Definition body_entered_at_most_once (w w' : world) : Prop :=
  body_calls w' = body_calls w \/ body_calls w' = S (body_calls w).

(** ** [_serialize_outlet_events] *)

(** The keys of [OutletEventAccessors._dict]. *)
Inductive outlet_key :=
| AssetUniqueKey (name uri : string)
| AssetAliasUniqueKey (name : string).

(** [OutletEventAccessor], with the key it is stored under;
    [asset_alias_events] holds [attrs.asdict] of each alias event. *)
Record OutletEventAccessor := {
  accessor_key : outlet_key;
  extra : value;
  asset_alias_events : list value;
}.

(** What the generator yields, in order, for [events._dict.items()]. *)
Definition _serialize_outlet_events (events : list OutletEventAccessor)
  : list value :=
  flat_map (fun accessor =>
    match accessor_key accessor with
    | AssetUniqueKey name uri =>
        [VDict [(VStr "dest_asset_key",
                 VDict [(VStr "name", VStr name); (VStr "uri", VStr uri)]);
                (VStr "extra", extra accessor)]]
    | AssetAliasUniqueKey _ => []
    end ++ asset_alias_events accessor) events.

(** ** State and exceptions over any state *)

(** [M] is [SE world]; the decoder and the finalizers below have a state
    of their own. *)
Definition SE (S A : Type) : Type := S -> result A * S.

Definition sret {S A} (a : A) : SE S A := fun s => (Ok a, s).

Definition sraise {S A} (e : exn) : SE S A := fun s => (Raise e, s).

Definition sbind {S A B} (m : SE S A) (k : A -> SE S B) : SE S B :=
  fun s =>
    match m s with
    | (Ok a, s') => k a s'
    | (Raise e, s') => (Raise e, s')
    end.

(** Calling a piece of user code that ends as [r]. *)
Definition scall {S A} (r : result A) : SE S A := fun s => (r, s).

(** [try: m  except Exception: log.exception(...)] *)
Definition sbest_effort {S} (m : SE S unit) : SE S unit :=
  fun s =>
    match m s with
    | (Ok a, s') => (Ok a, s')
    | (Raise e, s') =>
        if isinstance e Cls.Exception then (Ok tt, s') else (Raise e, s')
    end.

Declare Scope state_scope.
Delimit Scope state_scope with state.
Notation "x <- m ;; k" := (sbind m (fun x => k))
  (at level 100, m at next level, right associativity) : state_scope.
Notation "m ;;; k" := (sbind m (fun _ => k))
  (at level 100, right associativity) : state_scope.

(** [for x in l: f x] *)
Fixpoint sfor_each {S A} (l : list A) (f : A -> SE S unit) : SE S unit :=
  match l with
  | [] => sret tt
  | x :: l' => sbind (f x) (fun _ => sfor_each l' f)
  end.

(** ** [CommsDecoder], with its request socket *)

Module Comms.

(** [StartupDetails], as far as the decoder, [startup] and
    [get_first_reschedule_date] read it. *)
Record StartupDetails := {
  requests_fd : Z;
  ti_id : string;
  dag_rel_path : string;
  start_date : Z;
}.

(** [ToTask], with the two variants that [ToTask] above leaves out. *)
Inductive Received :=
| Startup (details : StartupDetails)
| TaskRescheduleStartDate (start_date : option Z)
| Reply (msg : ToTask).

(** [ToSupervisor], with the variant that [ToSupervisor] above leaves
    out. *)
Inductive Request :=
| GetTaskRescheduleStartDate (ti_id : string) (try_number : Z)
| Send (msg : ToSupervisor).

(** The decoder: the lines [input] still holds ([None] is a line that
    does not decode), the descriptor [request_socket] was opened on, if it
    was, and the lines written so far, each with the descriptor it went
    to. *)
Record CommsDecoder := {
  input : list (option Received);
  request_socket : option Z;
  written : list (Z * Request);
}.

(** [get_message]: a startup message with a positive [requests_fd] opens
    the request socket on that descriptor. *)
Definition get_message : SE CommsDecoder Received :=
  fun self =>
    match input self with
    | [] => (Raise ValidationError, self)
    | None :: rest =>
        (Raise ValidationError,
         {| input := rest; request_socket := request_socket self;
            written := written self |})
    | Some msg :: rest =>
        (Ok msg,
         {| input := rest;
            request_socket :=
              match msg with
              | Startup details =>
                  if 0 <? requests_fd details
                  then Some (requests_fd details)
                  else request_socket self
              | _ => request_socket self
              end;
            written := written self |})
    end.

(** [send_request]: [self.request_socket.write(encoded_msg)]; while the
    socket is [None] the attribute access fails. *)
Definition send_request (msg : Request) : SE CommsDecoder unit :=
  fun self =>
    match request_socket self with
    | None => (Raise AttributeError, self)
    | Some fd =>
        (Ok tt,
         {| input := input self; request_socket := request_socket self;
            written := written self ++ [(fd, msg)] |})
    end.

(** [startup]: [on_starting] is how the listener hook ends, [parse] and
    [get_template_context] stand for the loading of the DAG file and the
    building of the context.  [RuntimeError] is a class deriving from
    [Exception]. *)
Definition startup (on_starting : result unit)
    (parse : StartupDetails -> result RuntimeTaskInstance)
    (get_template_context : RuntimeTaskInstance -> result Context)
  : SE CommsDecoder (RuntimeTaskInstance * Context) :=
  (msg <- get_message ;;
   sbest_effort (scall on_starting) ;;;
   match msg with
   | Startup details =>
       ti <- scall (parse details) ;;
       context <- scall (get_template_context ti) ;;
       sret (ti, context)
   | _ => sraise (UserException "RuntimeError")
   end)%state.

(** [RuntimeTaskInstance.get_first_reschedule_date]: [id] and [max_tries]
    are those of the task instance, [retries] is [self.task.retries] and
    [task_reschedule_count] is what the context holds under that key, if
    anything. *)
Definition get_first_reschedule_date (id : string) (max_tries : Z)
    (retries : option Z) (task_reschedule_count : option Z)
  : SE CommsDecoder (option Z) :=
  (if (match task_reschedule_count with Some n => n | None => 0 end =? 0)
   then
     (* If the task has not been rescheduled, there is no need to ask the
        supervisor *)
     sret None
   else
     let retries := match retries with Some r => r | None => 0 end in
     let first_try_number := max_tries - retries + 1 in
     send_request (GetTaskRescheduleStartDate id first_try_number) ;;;
     response <- get_message ;;
     match response with
     | TaskRescheduleStartDate start_date => sret start_date
     | Startup details => sret (Some (start_date details))
     | Reply _ => sraise AttributeError
     end)%state.

End Comms.

(** ** [finalize] and [main] *)

Inductive callback_kind :=
| on_failure_callback
| on_success_callback
| on_retry_callback
| on_skipped_callback.

(** The calls into user code, the listener manager and the mailer that
    [finalize] makes. *)
Inductive invocation :=
| Callback (kind : callback_kind) (index : nat)
| ListenerHook (name : string)
| SendEmail (to : list string) (subject content : string).

(** The world, and the calls made so far, oldest first. *)
Record process := {
  world_of : world;
  invoked : list invocation;
}.

(** A computation of the runner, inside the process. *)
Definition lift {A} (m : M A) : SE process A :=
  fun p =>
    let '(r, w) := m (world_of p) in
    (r, {| world_of := w; invoked := invoked p |}).

(** A call that ends as [r] is made and recorded. *)
Definition invoke {A} (i : invocation) (r : result A) : SE process A :=
  fun p => (r, {| world_of := world_of p; invoked := invoked p ++ [i] |}).

(** What [finalize] reads of the task, of the listener manager and of the
    mailer.  A callback, a hook or [get_link] is given by how it ends;
    [email] is empty when [task.email] is unset. *)
Record Finalizers := {
  operator_extra_links : list (string * result value);
  overwrite_rtif_after_execution : bool;
  template_fields : list (string * value);
  on_success : list (result unit);
  on_skipped : list (result unit);
  on_retry : list (result unit);
  on_failure : list (result unit);
  on_task_instance_success : result unit;
  on_task_instance_failed : result unit;
  before_stopping : result unit;
  email : list string;
  email_on_retry : bool;
  email_on_failure : bool;
  _get_email_subject_content : exn -> result (string * string * string);
  send_email : list string -> string -> string -> result unit;
}.

(** Modelled from the spec: [XCom._set_xcom_in_db] is not among the
    sources.  Section 4.2: the link is persisted as an exchanged artifact
    directly, bypassing the artifact backend. *)
Definition _xcom_push_to_db (ti : RuntimeTaskInstance) (key : string)
    (v : value) : M unit :=
  XCom.set key v (dag_id ti) (task_id ti) (run_id ti) (Some (map_index ti))
    None.

(** [_run_task_state_change_callbacks], recording each call:
    [for i, callback in enumerate(getattr(task, kind))]. *)
Fixpoint run_callbacks_from (i : nat) (kind : callback_kind)
    (callbacks : list (result unit)) : SE process unit :=
  match callbacks with
  | [] => sret tt
  | callback :: rest =>
      sbind (sbest_effort (invoke (Callback kind i) callback))
        (fun _ => run_callbacks_from (S i) kind rest)
  end.

Definition run_callbacks (kind : callback_kind)
    (callbacks : list (result unit)) : SE process unit :=
  run_callbacks_from 0 kind callbacks.

Definition _send_task_error_email (fin : Finalizers) (to : list string)
    (exception : exn) : SE process unit :=
  (sce <- scall (_get_email_subject_content fin exception) ;;
   let '(subject, content, err) := sce in
   fun p =>
     match invoke (SendEmail to subject content)
             (send_email fin to subject content) p with
     | (Ok a, p') => (Ok a, p')
     | (Raise e, p') =>
         if isinstance e Cls.Exception
         then invoke (SendEmail to subject err)
                (send_email fin to subject err) p'
         else (Raise e, p')
     end)%state.

(** [error and task.email_on_... and task.email] *)
Definition wants_email (error : option exn) (flag : bool)
    (to : list string) : bool :=
  match error with Some _ => true | None => false end
  && flag
  && match to with [] => false | _ => true end.

(** The [if state == ... elif ...] chain of [finalize]. *)
Definition run_finalizers (state : TIState) (error : option exn)
    (fin : Finalizers) : SE process unit :=
  (match state with
   | Terminal SUCCESS =>
       run_callbacks on_success_callback (on_success fin) ;;;
       sbest_effort (invoke (ListenerHook "on_task_instance_success")
                       (on_task_instance_success fin))
   | Terminal SKIPPED =>
       run_callbacks on_skipped_callback (on_skipped fin)
   | Intermediate UP_FOR_RETRY =>
       run_callbacks on_retry_callback (on_retry fin) ;;;
       sbest_effort (invoke (ListenerHook "on_task_instance_failed")
                       (on_task_instance_failed fin)) ;;;
       match error with
       | Some e =>
           if wants_email error (email_on_retry fin) (email fin)
           then _send_task_error_email fin (email fin) e
           else sret tt
       | None => sret tt
       end
   | Terminal FAILED =>
       run_callbacks on_failure_callback (on_failure fin) ;;;
       sbest_effort (invoke (ListenerHook "on_task_instance_failed")
                       (on_task_instance_failed fin)) ;;;
       match error with
       | Some e =>
           if wants_email error (email_on_failure fin) (email fin)
           then _send_task_error_email fin (email fin) e
           else sret tt
       | None => sret tt
       end
   | _ => sret tt
   end)%state.

(** The first two steps of [finalize]: the operator extra links are
    stored, and the rendered fields are written again if the task asks
    for it and has template fields. *)
Definition store_links_and_fields (ti : RuntimeTaskInstance)
    (fin : Finalizers) : SE process unit :=
  ((* Pushing xcom for each operator extra links defined on the operator *)
   sfor_each (operator_extra_links fin) (fun oe =>
     link <- scall (snd oe) ;;
     lift (_xcom_push_to_db ti (fst oe) link)) ;;;
   if overwrite_rtif_after_execution fin then
     match template_fields fin with
     | [] => sret tt
     | fields =>
         lift (SUPERVISOR_COMMS.send_request (SetRenderedFields fields))
     end
   else sret tt)%state.

Definition finalize (ti : RuntimeTaskInstance) (state : TIState)
    (error : option exn) (fin : Finalizers) : SE process unit :=
  (store_links_and_fields ti fin ;;;
   run_finalizers state error fin ;;;
   sbest_effort (invoke (ListenerHook "before_stopping")
                   (before_stopping fin)))%state.

(** Finalizers that let nothing escape: every link is found, and every
    callback and listener hook returns or raises an [Exception]. *)
Definition contained_finalizers (fin : Finalizers) : Prop :=
  Forall (fun oe => exists link, snd oe = Ok link) (operator_extra_links fin)
  /\ Forall contained (on_success fin)
  /\ Forall contained (on_skipped fin)
  /\ Forall contained (on_retry fin)
  /\ Forall contained (on_failure fin)
  /\ contained (on_task_instance_success fin)
  /\ contained (on_task_instance_failed fin)
  /\ contained (before_stopping fin).

(** The calls recorded for the callbacks of one kind, all of them. *)
Definition callback_calls (kind : callback_kind)
    (callbacks : list (result unit)) : list invocation :=
  map (Callback kind) (seq 0 (length callbacks)).

(** The calls the [if state == ... elif ...] chain of [finalize] makes
    when nothing escapes: the callbacks of the state, its listener hook,
    and [mail] when an error mail is wanted. *)
Definition finalizer_calls (state : TIState) (error : option exn)
    (fin : Finalizers) (mail : list invocation) : list invocation :=
  match state with
  | Terminal SUCCESS =>
      callback_calls on_success_callback (on_success fin)
      ++ [ListenerHook "on_task_instance_success"]
  | Terminal SKIPPED => callback_calls on_skipped_callback (on_skipped fin)
  | Intermediate UP_FOR_RETRY =>
      callback_calls on_retry_callback (on_retry fin)
      ++ [ListenerHook "on_task_instance_failed"]
      ++ (if wants_email error (email_on_retry fin) (email fin)
          then mail else [])
  | Terminal FAILED =>
      callback_calls on_failure_callback (on_failure fin)
      ++ [ListenerHook "on_task_instance_failed"]
      ++ (if wants_email error (email_on_failure fin) (email fin)
          then mail else [])
  | Intermediate UP_FOR_RESCHEDULE | Intermediate DEFERRED => []
  end.

(** One more call recorded. *)
Definition record_call (i : invocation) (p : process) : process :=
  {| world_of := world_of p; invoked := invoked p ++ [i] |}.

(** How [main] ends: it returns, it calls [exit], or an exception it does
    not catch leaves it. *)
Inductive main_end :=
| Returned
| Exit (code : Z)
| Uncaught (e : exn).

(** [main]: [started] is how [startup()] ends.  What [startup] reads and
    opens is, for [run], the channel of the world; the lock on the bundle
    version is left out. *)
Definition main (started : result (RuntimeTaskInstance * Context))
    (fin : Finalizers) : process -> main_end * process :=
  fun p =>
    match (tc <- scall started ;;
           sme <- lift (run (fst tc) (snd tc)) ;;
           let '(state, msg, error) := sme in
           finalize (fst tc) state error fin)%state p with
    | (Ok _, p') => (Returned, p')
    | (Raise e, p') =>
        if isinstance e Cls.KeyboardInterrupt then (Exit 2, p')
        else if isinstance e Cls.Exception then (Exit 1, p')
        else (Uncaught e, p')
    end.

(** Finalizers that do nothing: no link, no callback, hooks that return,
    no mail. *)
Definition no_finalizers : Finalizers := {|
  operator_extra_links := [];
  overwrite_rtif_after_execution := false;
  template_fields := [];
  on_success := [];
  on_skipped := [];
  on_retry := [];
  on_failure := [];
  on_task_instance_success := Ok tt;
  on_task_instance_failed := Ok tt;
  before_stopping := Ok tt;
  email := [];
  email_on_retry := false;
  email_on_failure := false;
  _get_email_subject_content := fun _ => Ok ("subject", "content", "err");
  send_email := fun _ _ _ => Ok tt;
|}.

(** * The runner when a message cannot be built, written or serialized *)

(** [SUPERVISOR_COMMS.send_request] above takes the request socket to be
    open and every write to succeed, and the handlers of [run] take the
    constructors of the messages and [defer.trigger.serialize()] to
    return.  [Faults] says which of these steps fail instead:
    [build_error msg] is the error that constructing [msg] raises, if it
    does (a field that does not validate); [write_error msg] the error
    that writing [msg] raises, if it does ([AttributeError] while the
    socket is unset, the error of the operating system when the write
    fails); [serialize_error defer] the error that serializing the trigger
    of [defer] raises, if it does. *)
Record Faults := {
  build_error : ToSupervisor -> option exn;
  write_error : ToSupervisor -> option exn;
  serialize_error : Deferral -> option exn;
}.

Definition no_faults : Faults := {|
  build_error := fun _ => None;
  write_error := fun _ => None;
  serialize_error := fun _ => None;
|}.

(** [_prepare], the handlers and [run] once more, over constructors,
    writes and serializations that may fail.  The steps that do none of
    the three are those above. *)
Module Faulty.
Section WithFaults.

Variable faults : Faults.

(** A constructor call [SucceedTask(...)], [TaskState(...)], ...: the
    validation raises, or the message is there. *)
Definition build (msg : ToSupervisor) : M ToSupervisor :=
  fun w =>
    match build_error faults msg with
    | Some e => (Raise e, w)
    | None => (Ok msg, w)
    end.

(** [send_request]: the write raises, or the line is written. *)
Definition send_request (msg : ToSupervisor) : M unit :=
  fun w =>
    match write_error faults msg with
    | Some e => (Raise e, w)
    | None => (Ok tt, set_sent (sent w ++ [msg]) w)
    end.

Definition _prepare (ti : RuntimeTaskInstance) (context : Context)
  : M (option ToSupervisor) :=
  rendered_fields <- call_user (rendering (task ti)) ;;
  (match rendered_fields with
   | [] => ret tt
   | _ =>
       msg <- build (SetRenderedFields rendered_fields) ;;
       send_request msg
   end) ;;;
  best_effort (call_user (on_task_instance_running (task ti))) ;;;
  (* No error, carry on and execute the task *)
  ret None.

Definition _handle_current_task_success (context : Context)
    (ti : RuntimeTaskInstance) : M (ToSupervisor * TIState) :=
  let task_outlets := _build_asset_profiles (outlets (task ti)) in
  end_date <- now ;;
  msg <- build (SucceedTask end_date task_outlets (outlet_events context)) ;;
  ret (msg, Terminal SUCCESS).

Definition _handle_current_task_failed (ti : RuntimeTaskInstance)
  : M (ToSupervisor * TIState) :=
  end_date <- now ;;
  if match _ti_context_from_server ti with
     | Some c => should_retry c
     | None => false
     end
  then
    msg <- build (RetryTask end_date) ;;
    ret (msg, Intermediate UP_FOR_RETRY)
  else
    msg <- build (TaskState FAILED end_date) ;;
    ret (msg, Terminal FAILED).

(** The [while True] loop of [_handle_trigger_dag_run]: a turn sleeps,
    builds and writes the request and reads the reply. *)
Fixpoint poll (drte : DagRunTrigger) (lines : list (option ToTask))
    (written : list ToSupervisor) (time : Z)
  : result poll_end * (list (option ToTask) * list ToSupervisor * Z) :=
  let time := time + poke_interval drte in
  let request := GetDagRunState (trigger_dag_id drte) (dag_run_id drte) in
  match build_error faults request with
  | Some e => (Raise e, (lines, written, time))
  | None =>
      match write_error faults request with
      | Some e => (Raise e, (lines, written, time))
      | None =>
          let written := written ++ [request] in
          match lines with
          | [] => (Raise ValidationError, ([], written, time))
          | None :: rest => (Raise ValidationError, (rest, written, time))
          | Some (DagRunStateResult state) :: rest =>
              if state_in state (failed_states drte)
              then (Ok (PollFailed time), (rest, written, time))
              else if state_in state (allowed_states drte)
              then (Ok PollAllowed, (rest, written, time))
              else poll drte rest written time
          | Some _ :: rest =>
              (* [comms_msg.state] on a reply that has no such attribute *)
              (Raise AttributeError, (rest, written, time))
          end
      end
  end.

Definition poll_loop (drte : DagRunTrigger) : M poll_end :=
  fun w =>
    let '(r, (lines, written, time)) :=
      poll drte (inbox w) (sent w) (clock w) in
    (r, set_clock time (set_sent written (set_inbox lines w))).

Definition _handle_trigger_dag_run (drte : DagRunTrigger) (context : Context)
    (ti : RuntimeTaskInstance) : M (ToSupervisor * TIState) :=
  request <-
    build (TriggerDagRun (trigger_dag_id drte) (dag_run_id drte)
             (drte_logical_date drte) (drte_conf drte) (reset_dag_run drte)) ;;
  send_request request ;;;
  comms_msg <- SUPERVISOR_COMMS.get_message ;;
  match comms_msg with
  | ErrorResponse DAGRUN_ALREADY_EXISTS =>
      if skip_when_already_exists drte then
        end_date <- now ;;
        msg <- build (TaskState SKIPPED end_date) ;;
        ret (msg, Terminal SKIPPED)
      else
        end_date <- now ;;
        msg <- build (TaskState FAILED end_date) ;;
        ret (msg, Terminal FAILED)
  | _ =>
      (* Store the run id from the dag run *)
      xcom_push ti "trigger_run_id" (VStr (dag_run_id drte)) ;;;
      if wait_for_completion drte then
        p <- poll_loop drte ;;
        match p with
        | PollFailed end_date =>
            msg <- build (TaskState FAILED end_date) ;;
            ret (msg, Terminal FAILED)
        | PollAllowed => _handle_current_task_success context ti
        end
      else _handle_current_task_success context ti
  end.

(** [run] up to the binding of [early_exit]. *)
Definition prepared (ti : RuntimeTaskInstance) (context : Context)
  : M (option ToSupervisor) :=
  (match _ti_context_from_server ti with
   | Some c =>
       for_each (xcom_keys_to_clear c) (fun x =>
         XCom.delete x (dag_id ti) (task_id ti) (run_id ti))
   | None => ret tt
   end) ;;;
  _prepare ti context.

(** The [try] block of [run]. *)
Definition run_try (ti : RuntimeTaskInstance) (context : Context)
  : M (option ToSupervisor * TIState) :=
  (* First, clear the xcom data sent from server *)
  (match _ti_context_from_server ti with
   | Some c =>
       for_each (xcom_keys_to_clear c) (fun x =>
         XCom.delete x (dag_id ti) (task_id ti) (run_id ti))
   | None => ret tt
   end) ;;;
  early_exit <- _prepare ti context ;;
  match early_exit with
  | Some msg => ret (Some msg, Terminal FAILED)
  | None =>
      result <- _execute_task context ti ;;
      _push_xcom_if_needed result ti ;;;
      ms <- _handle_current_task_success context ti ;;
      ret (Some (fst ms), snd ms)
  end.

(** The handler an [except ... as e] clause runs. *)
Definition retry_or_fail (ti : RuntimeTaskInstance) (e : exn)
  : M (option ToSupervisor * TIState * option exn) :=
  ms <- _handle_current_task_failed ti ;;
  ret (Some (fst ms), snd ms, Some e).

Definition task_failed (e : exn)
  : M (option ToSupervisor * TIState * option exn) :=
  end_date <- now ;;
  msg <- build (TaskState FAILED end_date) ;;
  ret (Some msg, Terminal FAILED, Some e).

(** The [except] clauses of [run], tried in the order of the source. *)
Definition run_except (ti : RuntimeTaskInstance) (context : Context)
    (e : exn) : M (option ToSupervisor * TIState * option exn) :=
  if isinstance e Cls.DownstreamTasksSkipped then
    match e with
    | DownstreamTasksSkipped tasks =>
        let tasks_to_skip :=
          match tasks with VList l => l | _ => [tasks] end in
        request <- build (SkipDownstreamTasks tasks_to_skip) ;;
        send_request request ;;;
        ms <- _handle_current_task_success context ti ;;
        ret (Some (fst ms), snd ms, None)
    | _ => raise AttributeError
    end
  else if isinstance e Cls.DagRunTriggerException then
    match e with
    | DagRunTriggerException drte =>
        ms <- _handle_trigger_dag_run drte context ti ;;
        ret (Some (fst ms), snd ms, None)
    | _ => raise AttributeError
    end
  else if isinstance e Cls.TaskDeferred then
    match e with
    | TaskDeferred defer =>
        (* classpath, trigger_kwargs = defer.trigger.serialize() *)
        match serialize_error faults defer with
        | Some e' => raise e'
        | None =>
            msg <- build (DeferTask (trigger_classpath defer)
                            (trigger_kwargs defer) (defer_timeout defer)
                            (method_name defer)
                            (or_empty_dict (Some (defer_kwargs defer)))) ;;
            ret (Some msg, Intermediate DEFERRED, None)
        end
    | _ => raise AttributeError
    end
  else if isinstance e Cls.AirflowSkipException then
    end_date <- now ;;
    msg <- build (TaskState SKIPPED end_date) ;;
    ret (Some msg, Terminal SKIPPED, None)
  else if isinstance e Cls.AirflowRescheduleException then
    match e with
    | AirflowRescheduleException reschedule_date =>
        end_date <- now ;;
        msg <- build (RescheduleTask reschedule_date end_date) ;;
        ret (Some msg, Intermediate UP_FOR_RESCHEDULE, None)
    | _ => raise AttributeError
    end
  else if isinstance e Cls.AirflowFailException
          || isinstance e Cls.AirflowSensorTimeout then
    task_failed e
  else if isinstance e Cls.AirflowTaskTimeout
          || isinstance e Cls.AirflowException then
    (* We should allow retries if the task has defined it. *)
    retry_or_fail ti e
  else if isinstance e Cls.AirflowTaskTerminated then
    (* If these are thrown, we should mark the TI state as failed. *)
    task_failed e
  else if isinstance e Cls.SystemExit then
    (* SystemExit needs to be retried if they are eligible. *)
    retry_or_fail ti e
  else (* except BaseException *)
    retry_or_fail ti e.

(** The [finally] clause: [if msg: SUPERVISOR_COMMS.send_request(msg)]. *)
Definition run_finally (msg : option ToSupervisor) : M unit :=
  match msg with
  | Some m => send_request m
  | None => ret tt
  end.

(** [run]: an exception raised inside an [except] clause leaves [msg]
    unset; one raised by the [finally] clause replaces what [run] was
    about to return or raise. *)
Definition run (ti : RuntimeTaskInstance) (context : Context)
  : M (TIState * option ToSupervisor * option exn) :=
  fun w =>
    match run_try ti context w with
    | (Ok (msg, state), w1) =>
        match run_finally msg w1 with
        | (Ok _, w2) => (Ok (state, msg, None), w2)
        | (Raise e, w2) => (Raise e, w2)
        end
    | (Raise e, w1) =>
        match run_except ti context e w1 with
        | (Ok (msg, state, error), w2) =>
            match run_finally msg w2 with
            | (Ok _, w3) => (Ok (state, msg, error), w3)
            | (Raise e', w3) => (Raise e', w3)
            end
        | (Raise e', w2) =>
            match run_finally None w2 with
            | (Ok _, w3) => (Raise e', w3)
            | (Raise e'', w3) => (Raise e'', w3)
            end
        end
    end.

(** [main] over this [run]. *)
Definition main (started : result (RuntimeTaskInstance * Context))
    (fin : Finalizers) : process -> main_end * process :=
  fun p =>
    match (tc <- scall started ;;
           sme <- lift (run (fst tc) (snd tc)) ;;
           let '(state, msg, error) := sme in
           finalize (fst tc) state error fin)%state p with
    | (Ok _, p') => (Returned, p')
    | (Raise e, p') =>
        if isinstance e Cls.KeyboardInterrupt then (Exit 2, p')
        else if isinstance e Cls.Exception then (Exit 1, p')
        else (Uncaught e, p')
    end.

End WithFaults.
End Faulty.

(** * Properties *)

(** ** [xcom_pull] *)

Section XComPullFacts.

Variable get_one : string -> string -> string -> string -> option Z -> bool
                   -> value.

Lemma xcom_pull_from_ext (get_one' : string -> string -> string -> string
                                     -> option Z -> bool -> value)
    self task_ids dag_id' key ipd map_indexes default run_id' :
  (forall r k t d m i, get_one r k t d m i = get_one' r k t d m i) ->
  xcom_pull_from get_one self task_ids dag_id' key ipd map_indexes default
    run_id'
  = xcom_pull_from get_one' self task_ids dag_id' key ipd map_indexes default
      run_id'.
Proof.
  intros Hext. unfold xcom_pull_from.
  destruct (resolve_map_indexes self map_indexes) as [midxs|e]; [|reflexivity].
  assert (Hmap : forall d r l,
             map (pull_one get_one d r key ipd default) l
             = map (pull_one get_one' d r key ipd default) l).
  { intros d r l. apply map_ext. intros p. unfold pull_one.
    now rewrite Hext. }
  now rewrite Hmap.
Qed.

Lemma length_list_prod {A B} (l : list A) (l' : list B) :
  length (list_prod l l') = (length l * length l')%nat.
Proof.
  induction l as [|x l IH]; simpl; [reflexivity|].
  now rewrite length_app, length_map, IH.
Qed.

(** A list of length other than one is returned as a list. *)
Lemma scalar_or_list_many (xcoms : list value) :
  length xcoms <> 1%nat ->
  match xcoms with [x] => Ok x | _ => Ok (VList xcoms) end
  = Ok (VList xcoms).
Proof. destruct xcoms as [|x [|y l]]; simpl; intros H; congruence. Qed.

End XComPullFacts.

(** C6: [xcom_pull] looks up, in the dag and run given or else those of
    the caller, the pairs of the task ids asked for - the caller's own
    when none is given - and the map indexes asked for - the caller's own
    when the filter is not set.  When exactly one pair is requested it
    returns the single looked-up value, or the default when the lookup
    gives [None]; with several task ids or several map indexes it returns
    the list of the lookups over the cartesian product of the two filter
    lists, in filter order, each unmatched lookup replaced by the default;
    two task ids without a map-index filter give a two-element list in
    the order of the task ids. *)
Theorem xcom_pull_scalar_or_product
    (get_one : string -> string -> string -> string -> option Z -> bool
               -> value)
    (self : RuntimeTaskInstance) (task_ids : task_ids_arg)
    (dag_id' : option string) (key : string) (ipd : bool)
    (map_indexes : map_indexes_arg) (default : value)
    (run_id' : option string) :
  map_indexes <> MapIndexOther ->
  let dag := match dag_id' with None => dag_id self | Some d => d end in
  let run := match run_id' with None => run_id self | Some r => r end in
  let tids :=
    match task_ids with
    | TaskIdsNone => [task_id self]
    | TaskIdsStr t => [t]
    | TaskIdsIter l => l
    end in
  let midxs :=
    match map_indexes with
    | NOTSET => [Some (map_index self)]
    | MapIndexNone => [None]
    | MapIndexInt i => [Some i]
    | MapIndexIter l => l
    | MapIndexOther => []
    end in
  let lookup (p : string * option Z) :=
    let v := get_one run key (fst p) dag (snd p) ipd in
    if is_None v then default else v in
  let pulled :=
    xcom_pull_from get_one self task_ids dag_id' key ipd map_indexes default
      run_id' in
  (forall t m, tids = [t] -> midxs = [m] -> pulled = Ok (lookup (t, m)))
  /\ ((1 < length tids)%nat \/ (1 < length midxs)%nat ->
      pulled = Ok (VList (map lookup (list_prod tids midxs))))
  /\ (forall a b, task_ids = TaskIdsIter [a; b] -> map_indexes = NOTSET ->
      pulled = Ok (VList [lookup (a, Some (map_index self));
                          lookup (b, Some (map_index self))])).
Proof.
  intros Hvalid dag run tids midxs lookup pulled.
  assert (Hr : resolve_task_ids self task_ids = tids
               /\ resolve_map_indexes self map_indexes = Ok midxs).
  { subst tids midxs.
    destruct task_ids; destruct map_indexes; try congruence;
      split; reflexivity. }
  destruct Hr as [Ht Hm].
  assert (Hp : pulled
               = let xs := map lookup (list_prod tids midxs) in
                 match xs with
                 | [x] => Ok x
                 | _ => Ok (VList xs)
                 end).
  { subst pulled. unfold xcom_pull_from. rewrite Hm, Ht. reflexivity. }
  split; [|split].
  - intros t m Hts Hmi. rewrite Hp, Hts, Hmi. reflexivity.
  - intros Hmany. rewrite Hp. apply scalar_or_list_many.
    rewrite length_map, length_list_prod.
    intros Hone. apply Nat.eq_mul_1 in Hone. lia.
  - intros a b Hts Hn. rewrite Hp. subst tids midxs. rewrite Hts, Hn.
    reflexivity.
Qed.

Lemma xcom_pull_scalar_or_product_witness :
  let store : gmap xcom_key (value * option nat) :=
    <[("dag", "a", "run", Some (-1), "return_value") := (VInt 1, None)]>
      (<[("dag", "b", "run", Some (-1), "return_value") := (VInt 2, None)]>
         ∅) in
  xcom_pull_from (XCom.get_one store) (Sample.instance Sample.operator true)
    (TaskIdsIter ["b"; "missing"; "a"]) None "return_value" false NOTSET
    (VInt 0) None
  = Ok (VList [VInt 2; VInt 0; VInt 1])
  /\ xcom_pull_from (XCom.get_one store)
       (Sample.instance Sample.operator true)
       (TaskIdsStr "b") None "return_value" false (MapIndexInt (-1))
       (VInt 0) None
     = Ok (VInt 2).
Proof.
  intros store. split.
  - destruct (xcom_pull_scalar_or_product (XCom.get_one store)
                (Sample.instance Sample.operator true)
                (TaskIdsIter ["b"; "missing"; "a"]) None "return_value" false
                NOTSET (VInt 0) None ltac:(discriminate)) as (_ & H & _).
    rewrite H by (left; vm_compute; lia). reflexivity.
  - destruct (xcom_pull_scalar_or_product (XCom.get_one store)
                (Sample.instance Sample.operator true)
                (TaskIdsStr "b") None "return_value" false (MapIndexInt (-1))
                (VInt 0) None ltac:(discriminate)) as (H & _ & _).
    rewrite (H "b" (Some (-1)) eq_refl eq_refl). reflexivity.
Defined.

(** C10: whenever the single-key fetch returns [None] the default is
    substituted, so pulling after [None] was pushed at a composite key
    gives what pulling gives when nothing is stored at that key. *)
Theorem xcom_pull_none_is_absent
    (self : RuntimeTaskInstance) (task_ids : task_ids_arg)
    (dag_id' : option string) (key : string) (ipd : bool)
    (map_indexes : map_indexes_arg) (default : value)
    (run_id' : option string) :
  (forall (get_one : string -> string -> string -> string -> option Z
                     -> bool -> value) d r p,
      get_one r key (fst p) d (snd p) ipd = VNone ->
      pull_one get_one d r key ipd default p = default)
  /\ (forall (w : world) k d t r m n,
      xcoms w !! (d, t, r, m, k) = None ->
      fst (xcom_pull self task_ids dag_id' key ipd map_indexes default
             run_id' (snd (XCom.set k VNone d t r m n w)))
      = fst (xcom_pull self task_ids dag_id' key ipd map_indexes default
               run_id' w)).
Proof.
  split.
  - intros get_one d r p H. unfold pull_one. now rewrite H.
  - intros w k d t r m n Habsent. unfold xcom_pull, XCom.set. simpl.
    apply xcom_pull_from_ext. intros r0 k0 t0 d0 m0 i0.
    unfold XCom.get_one.
    destruct (decide ((d, t, r, m, k) = (d0, t0, r0, m0, k0))) as [<-|Hne].
    + rewrite lookup_insert_eq, Habsent. reflexivity.
    + now rewrite lookup_insert_ne.
Qed.

Lemma xcom_pull_none_is_absent_witness :
  fst (xcom_pull (Sample.instance Sample.operator true) TaskIdsNone None
         "return_value" false NOTSET (VInt 7) None
         (snd (XCom.set "return_value" VNone "dag" "task" "run" (Some (-1))
                 None (Sample.start []))))
  = Ok (VInt 7).
Proof.
  pose proof (xcom_pull_none_is_absent (Sample.instance Sample.operator true)
                TaskIdsNone None "return_value" false NOTSET (VInt 7) None)
    as [_ H].
  rewrite (H (Sample.start []) "return_value" "dag" "task" "run" (Some (-1))
             None (lookup_empty _)).
  reflexivity.
Defined.

(** ** What a computation leaves untouched *)

Section Keeps.

Variable R : world -> world -> Prop.
Hypothesis R_refl : forall w, R w w.
Hypothesis R_trans : forall w1 w2 w3, R w1 w2 -> R w2 w3 -> R w1 w3.

Lemma keeps_ret {A} (a : A) : keeps R (ret a).
Proof. intros w. apply R_refl. Qed.

Lemma keeps_raise {A} (e : exn) : keeps R (@raise A e).
Proof. intros w. apply R_refl. Qed.

Lemma keeps_call_user {A} (r : result A) : keeps R (call_user r).
Proof. intros w. apply R_refl. Qed.

Lemma keeps_now : keeps R now.
Proof. intros w. apply R_refl. Qed.

Lemma keeps_bind {A B} (m : M A) (k : A -> M B) :
  keeps R m -> (forall a, keeps R (k a)) -> keeps R (bind m k).
Proof.
  intros Hm Hk w. unfold bind. specialize (Hm w).
  destruct (m w) as [[a|e] w']; simpl in *; [|exact Hm].
  eapply R_trans; [exact Hm|apply Hk].
Qed.

Lemma keeps_try_except {A} (m : M A) (h : exn -> M A) :
  keeps R m -> (forall e, keeps R (h e)) -> keeps R (try_except m h).
Proof.
  intros Hm Hh w. unfold try_except. specialize (Hm w).
  destruct (m w) as [[a|e] w']; simpl in *; [exact Hm|].
  eapply R_trans; [exact Hm|apply Hh].
Qed.

Lemma keeps_for_each {A} (l : list A) (f : A -> M unit) :
  (forall x, keeps R (f x)) -> keeps R (for_each l f).
Proof.
  intros Hf. induction l as [|x l IH]; simpl.
  - apply keeps_ret.
  - apply keeps_bind; [apply Hf|intros _; exact IH].
Qed.

Lemma keeps_if {A} (b : bool) (m1 m2 : M A) :
  keeps R m1 -> keeps R m2 -> keeps R (if b then m1 else m2).
Proof. destruct b; auto. Qed.

Lemma keeps_best_effort (m : M unit) : keeps R m -> keeps R (best_effort m).
Proof.
  intros Hm. apply keeps_try_except; [exact Hm|].
  intros e. apply keeps_if; [apply keeps_ret|apply keeps_raise].
Qed.

Lemma keeps_callbacks (callbacks : list (result unit)) :
  keeps R (_run_task_state_change_callbacks callbacks).
Proof.
  apply keeps_for_each. intros x. apply keeps_best_effort, keeps_call_user.
Qed.

End Keeps.

Lemma side_requests_only_refl w : side_requests_only w w.
Proof. exists []. split; [now rewrite app_nil_r|constructor]. Qed.

Lemma side_requests_only_trans w1 w2 w3 :
  side_requests_only w1 w2 -> side_requests_only w2 w3 ->
  side_requests_only w1 w3.
Proof.
  intros (l1 & E1 & F1) (l2 & E2 & F2). exists (l1 ++ l2). split.
  - now rewrite E2, E1, app_assoc.
  - apply Forall_app; split; assumption.
Qed.

Lemma body_not_entered_refl w : body_not_entered w w.
Proof. reflexivity. Qed.

Lemma body_not_entered_trans w1 w2 w3 :
  body_not_entered w1 w2 -> body_not_entered w2 w3 -> body_not_entered w1 w3.
Proof. unfold body_not_entered. congruence. Qed.

Lemma side_requests_only_same_sent w w' :
  sent w' = sent w -> side_requests_only w w'.
Proof. intros E. exists []. split; [now rewrite app_nil_r|constructor]. Qed.

Lemma side_requests_only_one w m :
  is_outcome_message m = false ->
  side_requests_only w (set_sent (sent w ++ [m]) w).
Proof. intros H. exists [m]. split; [reflexivity|]. now constructor. Qed.

(** Closing the side conditions of the [keeps] lemmas. *)
Ltac rel_facts :=
  first [ exact side_requests_only_refl | exact side_requests_only_trans
        | exact body_not_entered_refl | exact body_not_entered_trans ].

(** One step through the structure of a computation. *)
Ltac keeps_step :=
  first
    [ apply keeps_ret; rel_facts
    | apply keeps_raise; rel_facts
    | apply keeps_call_user; rel_facts
    | apply keeps_now; rel_facts
    | apply keeps_callbacks; rel_facts
    | apply keeps_best_effort; [rel_facts|rel_facts|]
    | apply keeps_for_each; [rel_facts|rel_facts|]
    | apply keeps_if
    | apply keeps_bind; [rel_facts| |]
    | apply keeps_try_except; [rel_facts| |] ].

Lemma send_request_side m :
  is_outcome_message m = false ->
  keeps side_requests_only (SUPERVISOR_COMMS.send_request m).
Proof. intros H w. now apply side_requests_only_one. Qed.

Lemma get_message_side : keeps side_requests_only SUPERVISOR_COMMS.get_message.
Proof.
  intros w. unfold SUPERVISOR_COMMS.get_message.
  destruct (inbox w) as [|[msg|] rest]; simpl;
    now apply side_requests_only_same_sent.
Qed.

Lemma xcom_set_side k v d t r m n :
  keeps side_requests_only (XCom.set k v d t r m n).
Proof. intros w. now apply side_requests_only_same_sent. Qed.

Lemma _xcom_push_side ti k v n : keeps side_requests_only (_xcom_push ti k v n).
Proof. intros w. now apply side_requests_only_same_sent. Qed.

Lemma xcom_push_side ti k v : keeps side_requests_only (xcom_push ti k v).
Proof. intros w. now apply side_requests_only_same_sent. Qed.

Lemma xcom_push_body ti k v : keeps body_not_entered (xcom_push ti k v).
Proof. intros w. reflexivity. Qed.

Lemma xcom_delete_side k d t r :
  keeps side_requests_only (XCom.delete k d t r).
Proof. intros w. now apply side_requests_only_same_sent. Qed.

Lemma call_body_side b : keeps side_requests_only (call_body b).
Proof. intros w. now apply side_requests_only_same_sent. Qed.

Lemma call_body_with_timeout_side d b :
  keeps side_requests_only (call_body_with_timeout d b).
Proof.
  intros w. unfold call_body_with_timeout.
  destruct (d <? elapsed b); now apply side_requests_only_same_sent.
Qed.

Lemma send_request_body m : keeps body_not_entered (SUPERVISOR_COMMS.send_request m).
Proof. intros w. reflexivity. Qed.

Lemma get_message_body : keeps body_not_entered SUPERVISOR_COMMS.get_message.
Proof.
  intros w. unfold SUPERVISOR_COMMS.get_message.
  destruct (inbox w) as [|[msg|] rest]; reflexivity.
Qed.

Lemma xcom_set_body k v d t r m n : keeps body_not_entered (XCom.set k v d t r m n).
Proof. intros w. reflexivity. Qed.

Lemma xcom_delete_body k d t r : keeps body_not_entered (XCom.delete k d t r).
Proof. intros w. reflexivity. Qed.

(** ** The steps of [run] write side requests only *)

Lemma poll_side drte lines written time :
  let '(_, (_, written', _)) := poll drte lines written time in
  exists more,
    written' = written ++ more
    /\ Forall (fun m => is_outcome_message m = false) more.
Proof.
  revert written time.
  induction lines as [|line rest IH]; intros written time; simpl.
  - eexists. split; [reflexivity|]. now repeat constructor.
  - destruct line as [[err|state|]|]; simpl;
      try (eexists; split; [reflexivity|]; now repeat constructor).
    destruct (state_in state (failed_states drte));
      [eexists; split; [reflexivity|]; now repeat constructor|].
    destruct (state_in state (allowed_states drte));
      [eexists; split; [reflexivity|]; now repeat constructor|].
    specialize (IH (written ++ [GetDagRunState (trigger_dag_id drte)
                                  (dag_run_id drte)])
                   (time + poke_interval drte)).
    destruct (poll drte rest _ _) as [r [[lines' written'] time']].
    destruct IH as (more & -> & Hmore).
    exists (GetDagRunState (trigger_dag_id drte) (dag_run_id drte) :: more).
    split; [now rewrite <- app_assoc|]. now constructor.
Qed.

Lemma poll_loop_side drte : keeps side_requests_only (poll_loop drte).
Proof.
  intros w. unfold poll_loop.
  pose proof (poll_side drte (inbox w) (sent w) (clock w)) as H.
  destruct (poll drte (inbox w) (sent w) (clock w))
    as [r [[lines' written'] time']].
  simpl. exact H.
Qed.

Lemma poll_loop_body drte : keeps body_not_entered (poll_loop drte).
Proof.
  intros w. unfold poll_loop.
  destruct (poll drte (inbox w) (sent w) (clock w))
    as [r [[lines' written'] time']].
  reflexivity.
Qed.

Lemma success_side context ti :
  keeps side_requests_only (_handle_current_task_success context ti).
Proof. intros w. apply side_requests_only_refl. Qed.

Lemma success_body context ti :
  keeps body_not_entered (_handle_current_task_success context ti).
Proof. intros w. reflexivity. Qed.

Lemma failed_side ti : keeps side_requests_only (_handle_current_task_failed ti).
Proof.
  intros w. unfold _handle_current_task_failed, bind, now. simpl.
  destruct (match _ti_context_from_server ti with
            | Some c => should_retry c
            | None => false
            end); apply side_requests_only_refl.
Qed.

Lemma failed_body ti : keeps body_not_entered (_handle_current_task_failed ti).
Proof.
  intros w. unfold _handle_current_task_failed, bind, now. simpl.
  destruct (match _ti_context_from_server ti with
            | Some c => should_retry c
            | None => false
            end); reflexivity.
Qed.

Lemma trigger_side drte context ti :
  keeps side_requests_only (_handle_trigger_dag_run drte context ti).
Proof.
  unfold _handle_trigger_dag_run.
  keeps_step; [now apply send_request_side|intros _].
  keeps_step; [apply get_message_side|intros comms_msg].
  assert (Hrest : keeps side_requests_only
            (xcom_push ti "trigger_run_id" (VStr (dag_run_id drte)) ;;;
             if wait_for_completion drte
             then p <- poll_loop drte ;;
                  match p with
                  | PollFailed end_date =>
                      ret (TaskState FAILED end_date, Terminal FAILED)
                  | PollAllowed => _handle_current_task_success context ti
                  end
             else _handle_current_task_success context ti)).
  { keeps_step; [apply xcom_push_side|intros _].
    keeps_step; [|apply success_side].
    keeps_step; [apply poll_loop_side|intros p].
    destruct p; [keeps_step|apply success_side]. }
  destruct comms_msg as [[|]| |]; try exact Hrest.
  keeps_step; keeps_step.
Qed.

Lemma trigger_body drte context ti :
  keeps body_not_entered (_handle_trigger_dag_run drte context ti).
Proof.
  unfold _handle_trigger_dag_run.
  keeps_step; [apply send_request_body|intros _].
  keeps_step; [apply get_message_body|intros comms_msg].
  assert (Hrest : keeps body_not_entered
            (xcom_push ti "trigger_run_id" (VStr (dag_run_id drte)) ;;;
             if wait_for_completion drte
             then p <- poll_loop drte ;;
                  match p with
                  | PollFailed end_date =>
                      ret (TaskState FAILED end_date, Terminal FAILED)
                  | PollAllowed => _handle_current_task_success context ti
                  end
             else _handle_current_task_success context ti)).
  { keeps_step; [apply xcom_push_body|intros _].
    keeps_step; [|apply success_body].
    keeps_step; [apply poll_loop_body|intros p].
    destruct p; [keeps_step|apply success_body]. }
  destruct comms_msg as [[|]| |]; try exact Hrest.
  keeps_step; keeps_step.
Qed.

Lemma prepare_side ti context : keeps side_requests_only (_prepare ti context).
Proof.
  unfold _prepare.
  keeps_step; [keeps_step|intros rendered_fields].
  keeps_step.
  - destruct rendered_fields; [keeps_step|now apply send_request_side].
  - intros _. keeps_step; [keeps_step; keeps_step|intros _; keeps_step].
Qed.

Lemma prepared_side ti context : keeps side_requests_only (prepared ti context).
Proof.
  unfold prepared. keeps_step.
  - destruct (_ti_context_from_server ti); [|keeps_step].
    keeps_step. intros x. apply xcom_delete_side.
  - intros _. apply prepare_side.
Qed.

Lemma execute_task_side context ti :
  keeps side_requests_only (_execute_task context ti).
Proof.
  unfold _execute_task.
  keeps_step.
  { destruct (_pre_execute_hook (task ti)); keeps_step. }
  intros _. keeps_step; [keeps_step|intros _].
  keeps_step.
  - keeps_step; [|apply call_body_side].
    destruct (execution_timeout (task ti)); [|keeps_step].
    keeps_step; [|intros e; keeps_step].
    keeps_step; [keeps_step|apply call_body_with_timeout_side].
  - intros result. keeps_step; [|intros _; keeps_step].
    destruct (_post_execute_hook (task ti)); keeps_step.
Qed.

Lemma push_xcom_side result ti :
  keeps side_requests_only (_push_xcom_if_needed result ti).
Proof.
  unfold _push_xcom_if_needed.
  keeps_step; [keeps_step; keeps_step|].
  keeps_step.
  { keeps_step; [|keeps_step]. keeps_step; [keeps_step|].
    keeps_step; [keeps_step|intros n; keeps_step]. }
  intros mapped_length. keeps_step; [|intros _; apply _xcom_push_side].
  keeps_step; [|keeps_step]. keeps_step; [keeps_step|].
  keeps_step; [keeps_step|intros ks].
  keeps_step.
  { keeps_step. intros kv. keeps_step; keeps_step. }
  intros _. keeps_step; [keeps_step|intros its].
  keeps_step. intros kv.
  destruct (fst kv); try keeps_step. apply xcom_push_side.
Qed.

(** ** The [try] block *)

Lemma for_each_delete_ok (ti : RuntimeTaskInstance) (keys : list string) w :
  exists w',
    for_each keys
      (fun x => XCom.delete x (dag_id ti) (task_id ti) (run_id ti)) w
    = (Ok tt, w')
    /\ sent w' = sent w /\ inbox w' = inbox w /\ clock w' = clock w
    /\ body_calls w' = body_calls w.
Proof.
  revert w. induction keys as [|x keys IH]; intros w; simpl.
  - exists w. repeat split; reflexivity.
  - unfold bind at 1, XCom.delete at 1.
    match goal with
    | |- context [for_each keys _ ?w0] =>
        destruct (IH w0) as (w' & E & Hs & Hi & Hc & Hb)
    end.
    exists w'. rewrite E. repeat split; assumption.
Qed.

(** Clearing the stale XComs returns, and touches the store only. *)
Lemma clear_ok (ti : RuntimeTaskInstance) w :
  exists w',
    match _ti_context_from_server ti with
    | Some c =>
        for_each (xcom_keys_to_clear c) (fun x =>
          XCom.delete x (dag_id ti) (task_id ti) (run_id ti))
    | None => ret tt
    end w = (Ok tt, w')
    /\ sent w' = sent w /\ inbox w' = inbox w /\ clock w' = clock w
    /\ body_calls w' = body_calls w.
Proof.
  destruct (_ti_context_from_server ti) as [c|].
  - apply for_each_delete_ok.
  - exists w. repeat split; reflexivity.
Qed.

(** [_prepare] has no early exit: when it returns, it returns [None]. *)
Lemma _prepare_returns_None ti context w r w' :
  _prepare ti context w = (Ok r, w') -> r = None.
Proof.
  unfold _prepare, bind, call_user, best_effort, try_except.
  destruct (rendering (task ti)) as [fields|e]; [|discriminate].
  destruct (match fields with
            | [] => ret tt
            | _ :: _ =>
                SUPERVISOR_COMMS.send_request (SetRenderedFields fields)
            end w) as [[[]|e] w1]; [|discriminate].
  destruct (on_task_instance_running (task ti)) as [[]|e].
  - unfold ret. now intros [= <- _].
  - destruct (isinstance e Cls.Exception); unfold ret, raise;
      [now intros [= <- _]|discriminate].
Qed.

Lemma prepared_returns_None ti context w r w' :
  prepared ti context w = (Ok r, w') -> r = None.
Proof.
  unfold prepared, bind.
  destruct (clear_ok ti w) as (w0 & -> & _).
  apply _prepare_returns_None.
Qed.

(** [run_try] continues from [prepared]. *)
Lemma run_try_prepared ti context w :
  run_try ti context w
  = match prepared ti context w with
    | (Ok (Some msg), w1) => (Ok (Some msg, Terminal FAILED), w1)
    | (Ok None, w1) =>
        (result <- _execute_task context ti ;;
         _push_xcom_if_needed result ti ;;;
         ms <- _handle_current_task_success context ti ;;
         ret (Some (fst ms), snd ms)) w1
    | (Raise e, w1) => (Raise e, w1)
    end.
Proof.
  unfold run_try, prepared, bind.
  destruct (clear_ok ti w) as (w0 & -> & _).
  destruct (_prepare ti context w0) as [[[msg|]|e] w1]; reflexivity.
Qed.

Lemma run_try_side ti context : keeps side_requests_only (run_try ti context).
Proof.
  unfold run_try.
  keeps_step.
  { destruct (_ti_context_from_server ti); [|keeps_step].
    keeps_step. intros x. apply xcom_delete_side. }
  intros _. keeps_step; [apply prepare_side|intros early_exit].
  destruct early_exit; [keeps_step|].
  keeps_step; [apply execute_task_side|intros result].
  keeps_step; [apply push_xcom_side|intros _].
  keeps_step.
Qed.

(** When the [try] block is left without an exception, [msg] is the
    success message and [state] is [SUCCESS]. *)
Lemma run_try_ok ti context w msg state w1 :
  run_try ti context w = (Ok (msg, state), w1) ->
  exists m,
    msg = Some m /\ is_outcome_message m = true
    /\ reported_state m = Some state /\ state = Terminal SUCCESS.
Proof.
  rewrite run_try_prepared.
  destruct (prepared ti context w) as [[r|e] w0] eqn:Hp; [|discriminate].
  apply prepared_returns_None in Hp. subst r.
  unfold bind.
  destruct (_execute_task context ti w0) as [[result|e] w2]; [|discriminate].
  destruct (_push_xcom_if_needed result ti w2) as [[[]|e] w3]; [|discriminate].
  unfold _handle_current_task_success, bind, now, ret. simpl.
  intros [= <- <- _]. eexists. repeat split.
Qed.

(** ** The [except] clauses *)

(** Evaluating the [isinstance] tests on an exception of a known class. *)
Ltac eval_isinstance :=
  repeat match goal with
         | |- context [isinstance ?e ?c] =>
             let b := eval vm_compute in (isinstance e c) in
             change (isinstance e c) with b
         end;
  cbn [orb]; cbv iota.

Lemma retry_or_fail_eq ti e w :
  retry_or_fail ti e w
  = (Ok (Some (if retry_allowed ti then RetryTask (clock w)
               else TaskState FAILED (clock w)),
         if retry_allowed ti then Intermediate UP_FOR_RETRY
         else Terminal FAILED,
         Some e), w).
Proof.
  unfold retry_or_fail, _handle_current_task_failed, retry_allowed, bind, now,
    ret.
  destruct (match _ti_context_from_server ti with
            | Some c => should_retry c
            | None => false
            end); reflexivity.
Qed.

Lemma task_failed_eq e w :
  task_failed e w
  = (Ok (Some (TaskState FAILED (clock w)), Terminal FAILED, Some e), w).
Proof. reflexivity. Qed.

(** The clauses for the errors that are no control-flow signal: all but
    [AirflowTaskTerminated] end in [_handle_current_task_failed]. *)
Lemma run_except_retryable ti context e :
  control_signal e = false ->
  isinstance e Cls.AirflowTaskTerminated = false ->
  run_except ti context e = retry_or_fail ti e.
Proof.
  unfold control_signal, run_except. intros Hc Ht.
  repeat (apply orb_false_elim in Hc; destruct Hc as [Hc ?H]).
  rewrite Hc, H, H0, H1, H2, H3, H4, Ht. cbn [orb].
  destruct (isinstance e Cls.AirflowTaskTimeout || isinstance e Cls.AirflowException);
    [reflexivity|].
  destruct (isinstance e Cls.SystemExit); reflexivity.
Qed.

Lemma trigger_ok drte context ti w m state w' :
  _handle_trigger_dag_run drte context ti w = (Ok (m, state), w') ->
  is_outcome_message m = true /\ reported_state m = Some state.
Proof.
  unfold _handle_trigger_dag_run, bind at 1.
  cbn [SUPERVISOR_COMMS.send_request].
  unfold bind at 1.
  destruct (SUPERVISOR_COMMS.get_message _) as [[comms_msg|e] w1];
    [|discriminate].
  assert (Hrest :
    (xcom_push ti "trigger_run_id" (VStr (dag_run_id drte)) ;;;
     if wait_for_completion drte
     then p <- poll_loop drte ;;
          match p with
          | PollFailed end_date =>
              ret (TaskState FAILED end_date, Terminal FAILED)
          | PollAllowed => _handle_current_task_success context ti
          end
     else _handle_current_task_success context ti) w1 = (Ok (m, state), w') ->
    is_outcome_message m = true /\ reported_state m = Some state).
  { unfold bind at 1. cbn [xcom_push _xcom_push XCom.set].
    destruct (wait_for_completion drte).
    - unfold bind.
      destruct (poll_loop drte _) as [[[end_date|]|e] w2]; [| |discriminate].
      + unfold ret. intros [= <- <- _]. now split.
      + unfold _handle_current_task_success, bind, now, ret. simpl.
        intros [= <- <- _]. now split.
    - unfold _handle_current_task_success, bind, now, ret. simpl.
      intros [= <- <- _]. now split. }
  destruct comms_msg as [[|]| |]; try exact Hrest.
  destruct (skip_when_already_exists drte); unfold bind, now, ret; simpl;
    intros [= <- <- _]; now split.
Qed.

Lemma retry_or_fail_side ti e : keeps side_requests_only (retry_or_fail ti e).
Proof. intros w. rewrite retry_or_fail_eq. apply side_requests_only_refl. Qed.

Lemma retry_or_fail_body ti e : keeps body_not_entered (retry_or_fail ti e).
Proof. intros w. rewrite retry_or_fail_eq. reflexivity. Qed.

Lemma run_except_side ti context e :
  keeps side_requests_only (run_except ti context e).
Proof.
  unfold run_except.
  destruct e; eval_isinstance;
    try apply retry_or_fail_side;
    try (intros w; apply side_requests_only_refl).
  - keeps_step; [now apply send_request_side|intros _]. keeps_step.
  - keeps_step; [apply trigger_side|intros ms; keeps_step].
Qed.

Lemma run_except_body ti context e :
  keeps body_not_entered (run_except ti context e).
Proof.
  unfold run_except.
  destruct e; eval_isinstance;
    try apply retry_or_fail_body;
    try (intros w; reflexivity).
  keeps_step; [apply trigger_body|intros ms; keeps_step].
Qed.

(** When an [except] clause is left without an exception, [msg] is an
    outcome message and reports [state]. *)
Lemma run_except_ok ti context e w msg state error w' :
  run_except ti context e w = (Ok (msg, state, error), w') ->
  exists m,
    msg = Some m /\ is_outcome_message m = true
    /\ reported_state m = Some state.
Proof.
  unfold run_except.
  destruct e; eval_isinstance;
    try (rewrite retry_or_fail_eq; intros [= <- <- _ _];
         eexists; split; [reflexivity|];
         destruct (retry_allowed ti); now split);
    try (rewrite task_failed_eq; intros [= <- <- _ _];
         eexists; split; [reflexivity|]; now split);
    try (unfold bind, now, ret; simpl; intros [= <- <- _ _];
         eexists; split; [reflexivity|]; now split).
  unfold bind.
  destruct (_handle_trigger_dag_run drte context ti w) as [[[m st]|e] w1] eqn:Ht;
    [|discriminate].
  apply trigger_ok in Ht. unfold ret. simpl. intros [= <- <- _ _].
  exists m. now split.
Qed.

(** ** [run] *)

Lemma outcome_messages_side w w' :
  side_requests_only w w' -> outcome_messages w' = outcome_messages w.
Proof.
  intros (written & E & Hw). unfold outcome_messages. rewrite E, filter_app.
  assert (Hnil : filter (fun m => is_outcome_message m = true) written = []).
  { clear E. induction Hw as [|m l Hm _ IH]; [reflexivity|].
    rewrite filter_cons_False; [exact IH|]. rewrite Hm. discriminate. }
  now rewrite Hnil, app_nil_r.
Qed.

Lemma outcome_messages_snoc w m :
  is_outcome_message m = true ->
  outcome_messages (set_sent (sent w ++ [m]) w) = outcome_messages w ++ [m].
Proof.
  intros Hm. unfold outcome_messages. simpl. rewrite filter_app.
  now rewrite (filter_cons_True _ m []).
Qed.

(** [run] when an [except] clause handles the exception of the [try]
    block: the message is written by the [finally] clause. *)
Lemma run_of_raise ti context w e w1 m state error w2 :
  run_try ti context w = (Raise e, w1) ->
  run_except ti context e w1 = (Ok (Some m, state, error), w2) ->
  run ti context w = (Ok (state, Some m, error), set_sent (sent w2 ++ [m]) w2).
Proof. intros Ht He. unfold run. rewrite Ht, He. reflexivity. Qed.

(** ** Constructors, writes and serializations that fail *)

Section FaultyFacts.

Variable f : Faults.


Lemma faulty_build_body m : keeps body_not_entered (Faulty.build f m).
Proof. intros w. unfold Faulty.build. now destruct (build_error f m). Qed.

(** A constructor that returns gives the message, and touches nothing. *)
Lemma faulty_build_ok m w m' w' :
  Faulty.build f m w = (Ok m', w') -> m' = m /\ w' = w.
Proof.
  unfold Faulty.build. destruct (build_error f m); [discriminate|].
  now intros [= <- <-].
Qed.

Lemma faulty_send_request_side m :
  is_outcome_message m = false ->
  keeps side_requests_only (Faulty.send_request f m).
Proof.
  intros H w. unfold Faulty.send_request.
  destruct (write_error f m);
    [apply side_requests_only_refl|now apply side_requests_only_one].
Qed.

Lemma faulty_send_request_body m :
  keeps body_not_entered (Faulty.send_request f m).
Proof. intros w. unfold Faulty.send_request. now destruct (write_error f m). Qed.

(** A side request, built and written. *)
Lemma faulty_request_side m :
  is_outcome_message m = false ->
  keeps side_requests_only
    (msg <- Faulty.build f m ;; Faulty.send_request f msg).
Proof.
  intros H w. unfold bind, Faulty.build.
  destruct (build_error f m); [apply side_requests_only_refl|].
  now apply faulty_send_request_side.
Qed.

Lemma faulty_request_body m :
  keeps body_not_entered
    (msg <- Faulty.build f m ;; Faulty.send_request f msg).
Proof.
  keeps_step; [apply faulty_build_body|intros msg].
  apply faulty_send_request_body.
Qed.



Lemma faulty_poll_loop_body drte :
  keeps body_not_entered (Faulty.poll_loop f drte).
Proof.
  intros w. unfold Faulty.poll_loop.
  destruct (Faulty.poll f drte (inbox w) (sent w) (clock w))
    as [r [[lines' written'] time']].
  reflexivity.
Qed.


Lemma faulty_success_body context ti :
  keeps body_not_entered (Faulty._handle_current_task_success f context ti).
Proof.
  unfold Faulty._handle_current_task_success. cbv zeta.
  keeps_step; [keeps_step|intros end_date].
  keeps_step; [apply faulty_build_body|intros msg; keeps_step].
Qed.


(** [_handle_current_task_failed] in closed form. *)
Lemma faulty_failed_eq ti w :
  Faulty._handle_current_task_failed f ti w
  = let m := if retry_allowed ti then RetryTask (clock w)
             else TaskState FAILED (clock w) in
    match build_error f m with
    | Some e => (Raise e, w)
    | None =>
        (Ok (m, if retry_allowed ti then Intermediate UP_FOR_RETRY
                else Terminal FAILED), w)
    end.
Proof.
  unfold Faulty._handle_current_task_failed, retry_allowed, bind, now, ret,
    Faulty.build.
  destruct (match _ti_context_from_server ti with
            | Some c => should_retry c
            | None => false
            end); cbv zeta; destruct (build_error f _); reflexivity.
Qed.

Lemma faulty_retry_or_fail_eq ti e w :
  Faulty.retry_or_fail f ti e w
  = let m := if retry_allowed ti then RetryTask (clock w)
             else TaskState FAILED (clock w) in
    match build_error f m with
    | Some e' => (Raise e', w)
    | None =>
        (Ok (Some m,
             if retry_allowed ti then Intermediate UP_FOR_RETRY
             else Terminal FAILED,
             Some e), w)
    end.
Proof.
  unfold Faulty.retry_or_fail, bind. rewrite faulty_failed_eq. cbv zeta.
  destruct (build_error f _); reflexivity.
Qed.

Lemma faulty_task_failed_eq e w :
  Faulty.task_failed f e w
  = match build_error f (TaskState FAILED (clock w)) with
    | Some e' => (Raise e', w)
    | None =>
        (Ok (Some (TaskState FAILED (clock w)), Terminal FAILED, Some e), w)
    end.
Proof.
  unfold Faulty.task_failed, bind, now, ret, Faulty.build.
  destruct (build_error f _); reflexivity.
Qed.


Lemma faulty_retry_or_fail_body ti e :
  keeps body_not_entered (Faulty.retry_or_fail f ti e).
Proof.
  intros w. rewrite faulty_retry_or_fail_eq. cbv zeta.
  now destruct (build_error f _).
Qed.


Lemma faulty_task_failed_body e :
  keeps body_not_entered (Faulty.task_failed f e).
Proof.
  intros w. rewrite faulty_task_failed_eq. now destruct (build_error f _).
Qed.



Lemma faulty_trigger_body drte context ti :
  keeps body_not_entered (Faulty._handle_trigger_dag_run f drte context ti).
Proof.
  unfold Faulty._handle_trigger_dag_run.
  keeps_step; [apply faulty_build_body|intros request].
  keeps_step; [apply faulty_send_request_body|intros _].
  keeps_step; [apply get_message_body|intros comms_msg].
  assert (Hrest : keeps body_not_entered
            (xcom_push ti "trigger_run_id" (VStr (dag_run_id drte)) ;;;
             if wait_for_completion drte
             then p <- Faulty.poll_loop f drte ;;
                  match p with
                  | PollFailed end_date =>
                      msg <- Faulty.build f (TaskState FAILED end_date) ;;
                      ret (msg, Terminal FAILED)
                  | PollAllowed =>
                      Faulty._handle_current_task_success f context ti
                  end
             else Faulty._handle_current_task_success f context ti)).
  { keeps_step; [apply xcom_push_body|intros _].
    keeps_step; [|apply faulty_success_body].
    keeps_step; [apply faulty_poll_loop_body|intros p].
    destruct p; [|apply faulty_success_body].
    keeps_step; [apply faulty_build_body|intros msg; keeps_step]. }
  destruct comms_msg as [[|]| |]; try exact Hrest.
  keeps_step; (keeps_step; [keeps_step|intros end_date]);
    (keeps_step; [apply faulty_build_body|intros msg; keeps_step]).
Qed.



(** *** The [try] block *)

Lemma faulty_prepare_side ti context :
  keeps side_requests_only (Faulty._prepare f ti context).
Proof.
  unfold Faulty._prepare.
  keeps_step; [keeps_step|intros rendered_fields].
  keeps_step.
  - destruct rendered_fields; [keeps_step|now apply faulty_request_side].
  - intros _. keeps_step; [keeps_step; keeps_step|intros _; keeps_step].
Qed.

Lemma faulty_prepare_body ti context :
  keeps body_not_entered (Faulty._prepare f ti context).
Proof.
  unfold Faulty._prepare.
  keeps_step; [keeps_step|intros rendered_fields].
  keeps_step.
  - destruct rendered_fields; [keeps_step|apply faulty_request_body].
  - intros _. repeat first [keeps_step | intros ?].
Qed.

Lemma faulty_prepared_side ti context :
  keeps side_requests_only (Faulty.prepared f ti context).
Proof.
  unfold Faulty.prepared. keeps_step.
  - destruct (_ti_context_from_server ti); [|keeps_step].
    keeps_step. intros x. apply xcom_delete_side.
  - intros _. apply faulty_prepare_side.
Qed.

Lemma faulty_prepared_body ti context :
  keeps body_not_entered (Faulty.prepared f ti context).
Proof.
  unfold Faulty.prepared. keeps_step.
  - destruct (_ti_context_from_server ti); [|keeps_step].
    keeps_step. intros x. apply xcom_delete_body.
  - intros _. apply faulty_prepare_body.
Qed.



(** [run_try] continues from [prepared]. *)
Lemma faulty_run_try_prepared ti context w :
  Faulty.run_try f ti context w
  = match Faulty.prepared f ti context w with
    | (Ok (Some msg), w1) => (Ok (Some msg, Terminal FAILED), w1)
    | (Ok None, w1) =>
        (result <- _execute_task context ti ;;
         _push_xcom_if_needed result ti ;;;
         ms <- Faulty._handle_current_task_success f context ti ;;
         ret (Some (fst ms), snd ms)) w1
    | (Raise e, w1) => (Raise e, w1)
    end.
Proof.
  unfold Faulty.run_try, Faulty.prepared, bind.
  destruct (clear_ok ti w) as (w0 & -> & _).
  destruct (Faulty._prepare f ti context w0) as [[[msg|]|e] w1]; reflexivity.
Qed.



(** *** The [except] clauses *)


Lemma faulty_run_except_body ti context e :
  keeps body_not_entered (Faulty.run_except f ti context e).
Proof.
  unfold Faulty.run_except.
  destruct e; eval_isinstance;
    try apply faulty_retry_or_fail_body;
    try apply faulty_task_failed_body;
    try (keeps_step; [keeps_step|intros end_date];
         keeps_step; [apply faulty_build_body|intros msg; keeps_step]).
  - keeps_step; [apply faulty_build_body|intros request].
    keeps_step; [apply faulty_send_request_body|intros _].
    keeps_step; [apply faulty_success_body|intros ms; keeps_step].
  - keeps_step; [apply faulty_trigger_body|intros ms; keeps_step].
  - destruct (serialize_error f defer); [keeps_step|].
    keeps_step; [apply faulty_build_body|intros msg; keeps_step].
Qed.



(** The clauses for the errors that are no control-flow signal: all but
    [AirflowTaskTerminated] end in [_handle_current_task_failed]. *)
Lemma faulty_run_except_retryable ti context e :
  control_signal e = false ->
  isinstance e Cls.AirflowTaskTerminated = false ->
  Faulty.run_except f ti context e = Faulty.retry_or_fail f ti e.
Proof.
  unfold control_signal, Faulty.run_except. intros Hc Ht.
  repeat (apply orb_false_elim in Hc; destruct Hc as [Hc ?H]).
  rewrite Hc, H, H0, H1, H2, H3, H4, Ht. cbn [orb].
  destruct (isinstance e Cls.AirflowTaskTimeout || isinstance e Cls.AirflowException);
    [reflexivity|].
  destruct (isinstance e Cls.SystemExit); reflexivity.
Qed.

(** *** [run] *)


(** Nothing enters the task body after the [try] block. *)
Lemma faulty_run_body_after_try ti context w e w1 :
  Faulty.run_try f ti context w = (Raise e, w1) ->
  body_calls (snd (Faulty.run f ti context w)) = body_calls w1.
Proof.
  intros Htry. unfold Faulty.run. rewrite Htry.
  pose proof (faulty_run_except_body ti context e w1) as Hex.
  unfold body_not_entered in Hex.
  destruct (Faulty.run_except f ti context e w1)
    as [[[[msg state] error]|e'] w2]; simpl in *.
  - destruct msg as [m|]; simpl; [|exact Hex].
    unfold Faulty.send_request. now destruct (write_error f m).
  - exact Hex.
Qed.

End FaultyFacts.

(** Without faults this runner is the runner of the sections above. *)
Lemma faulty_run_no_faults ti context :
  Faulty.run no_faults ti context = run ti context.
Proof. reflexivity. Qed.

Lemma faulty_main_no_faults started fin :
  Faulty.main no_faults started fin = main started fin.
Proof. reflexivity. Qed.



(** The timeout signal, the declared task errors, the interrupt and exit
    signals and the other conditions are no control-flow signal and not
    the termination signal. *)
Lemma retryable_errors (name : string) :
  Forall (fun e => control_signal e = false
                   /\ isinstance e Cls.AirflowTaskTerminated = false)
    [AirflowTaskTimeout; AirflowException; UserAirflowException name;
     SystemExit; KeyboardInterrupt; TypeError; AttributeError;
     ValidationError; XComForMappingNotPushed; UnmappableXComTypePushed;
     UserException name; UserBaseException name; BaseException; Exception].
Proof. repeat constructor. Qed.

(** C2, as the code has it: an error that leaves the [try] block of [run]
    and is no control-flow signal is recorded with the outcome and
    reported in one outcome message.  The outcome is [UP_FOR_RETRY] if
    and only if the run context says a retry is still allowed and the
    error is not the termination signal [AirflowTaskTerminated]; it is
    [FAILED] otherwise: the termination signal always gives [FAILED]. *)
Theorem retryable_error_outcome (ti : RuntimeTaskInstance)
    (context : Context) (w w1 : world) (e : exn) :
  run_try ti context w = (Raise e, w1) ->
  control_signal e = false ->
  exists state m w',
    run ti context w = (Ok (state, Some m, Some e), w')
    /\ reported_state m = Some state
    /\ outcome_messages w' = outcome_messages w ++ [m]
    /\ (state = Intermediate UP_FOR_RETRY
        <-> retry_allowed ti = true
            /\ isinstance e Cls.AirflowTaskTerminated = false)
    /\ (state = Terminal FAILED
        <-> retry_allowed ti = false
            \/ isinstance e Cls.AirflowTaskTerminated = true).
Proof.
  intros Htry Hc.
  pose proof (run_try_side ti context w) as Hside. rewrite Htry in Hside.
  destruct (isinstance e Cls.AirflowTaskTerminated) eqn:Ht.
  - exists (Terminal FAILED), (TaskState FAILED (clock w1)),
      (set_sent (sent w1 ++ [TaskState FAILED (clock w1)]) w1).
    split; [|split; [|split; [|split]]].
    + eapply run_of_raise; [exact Htry|].
      unfold run_except.
      destruct e; vm_compute in Hc, Ht; try discriminate Hc;
        try discriminate Ht; eval_isinstance; reflexivity.
    + reflexivity.
    + rewrite outcome_messages_snoc, (outcome_messages_side w w1 Hside);
        reflexivity.
    + split; [discriminate|]. intros [_ H]. discriminate H.
    + split; [now right|reflexivity].
  - pose proof (run_except_retryable ti context e Hc Ht) as Hex.
    eexists _, _, _. split; [|split; [|split]].
    + eapply run_of_raise; [exact Htry|]. rewrite Hex, retry_or_fail_eq.
      reflexivity.
    + destruct (retry_allowed ti); reflexivity.
    + rewrite outcome_messages_snoc, (outcome_messages_side w w1 Hside);
        [reflexivity|]. destruct (retry_allowed ti); reflexivity.
    + destruct (retry_allowed ti); split; split;
        try (intros [H|H]); try (intros [H H']); intros;
        try congruence; auto.
Qed.

Lemma retryable_error_outcome_witness :
  (exists m w',
     run (Sample.instance
            (Sample.with_body (Raise AirflowException) Sample.operator) true)
         Sample.context (Sample.start [])
     = (Ok (Intermediate UP_FOR_RETRY, Some m, Some AirflowException), w'))
  /\ (exists m w',
        run (Sample.instance
               (Sample.with_body (Raise AirflowTaskTerminated)
                  Sample.operator) true)
            Sample.context (Sample.start [])
        = (Ok (Terminal FAILED, Some m, Some AirflowTaskTerminated), w')).
Proof.
  split.
  - destruct (retryable_error_outcome
                (Sample.instance
                   (Sample.with_body (Raise AirflowException) Sample.operator)
                   true)
                Sample.context (Sample.start [])
                (set_clock 105 (set_body_calls 1 (Sample.start [])))
                AirflowException eq_refl eq_refl)
      as (state & m & w' & Hrun & _ & _ & Hretry & _).
    exists m, w'.
    rewrite <- (proj2 Hretry (conj eq_refl eq_refl)). exact Hrun.
  - destruct (retryable_error_outcome
                (Sample.instance
                   (Sample.with_body (Raise AirflowTaskTerminated)
                      Sample.operator) true)
                Sample.context (Sample.start [])
                (set_clock 105 (set_body_calls 1 (Sample.start [])))
                AirflowTaskTerminated eq_refl eq_refl)
      as (state & m & w' & Hrun & _ & _ & _ & Hfail).
    exists m, w'.
    rewrite <- (proj2 Hfail (or_intror eq_refl)). exact Hrun.
Defined.

(** C2, counterexample: the termination signal leaves the task body while
    the run context allows a retry; the outcome is [FAILED]. *)
Lemma terminated_is_not_retried :
  let ti :=
    Sample.instance
      (Sample.with_body (Raise AirflowTaskTerminated) Sample.operator) true in
  retry_allowed ti = true
  /\ fst (run ti Sample.context (Sample.start []))
     = Ok (Terminal FAILED, Some (TaskState FAILED 105),
           Some AirflowTaskTerminated).
Proof. vm_compute. split; reflexivity. Qed.

(** C3: when the fail-without-retry signal or the sensor-timeout signal
    leaves the [try] block of [run], as it does when the task body raises
    it, the outcome is [FAILED] whether or not the run context allows a
    retry. *)
Theorem fail_signals_never_retried (ti : RuntimeTaskInstance)
    (context : Context) (w w1 : world) (e : exn) :
  run_try ti context w = (Raise e, w1) ->
  isinstance e Cls.AirflowFailException = true
  \/ isinstance e Cls.AirflowSensorTimeout = true ->
  run ti context w
  = (Ok (Terminal FAILED, Some (TaskState FAILED (clock w1)), Some e),
     set_sent (sent w1 ++ [TaskState FAILED (clock w1)]) w1).
Proof.
  intros Htry He.
  eapply run_of_raise; [exact Htry|].
  unfold run_except.
  destruct e; vm_compute in He; destruct He as [He|He]; try discriminate He;
    eval_isinstance; reflexivity.
Qed.

Lemma fail_signals_never_retried_witness :
  fst (run (Sample.instance
              (Sample.with_body (Raise AirflowFailException) Sample.operator)
              true)
           Sample.context (Sample.start []))
  = Ok (Terminal FAILED, Some (TaskState FAILED 105),
        Some AirflowFailException).
Proof.
  rewrite (fail_signals_never_retried
             (Sample.instance
                (Sample.with_body (Raise AirflowFailException)
                   Sample.operator) true)
             Sample.context (Sample.start [])
             (set_clock 105 (set_body_calls 1 (Sample.start [])))
             AirflowFailException eq_refl (or_introl eq_refl)).
  reflexivity.
Defined.

(** ** Preparation *)

Lemma prepare_body ti context : keeps body_not_entered (_prepare ti context).
Proof.
  unfold _prepare.
  keeps_step; [keeps_step|intros rendered_fields].
  keeps_step.
  - destruct rendered_fields; [keeps_step|apply send_request_body].
  - intros _. repeat first [keeps_step | intros ?].
Qed.

Lemma prepared_body ti context : keeps body_not_entered (prepared ti context).
Proof.
  unfold prepared. keeps_step.
  - destruct (_ti_context_from_server ti); [|keeps_step].
    keeps_step. intros x. apply xcom_delete_body.
  - intros _. apply prepare_body.
Qed.

(** When rendering raises, the [try] block raises the same error before
    anything is written and before the task body is entered. *)
Lemma run_try_rendering_raises ti context w e :
  rendering (task ti) = Raise e ->
  exists w1,
    run_try ti context w = (Raise e, w1)
    /\ sent w1 = sent w /\ clock w1 = clock w
    /\ body_calls w1 = body_calls w.
Proof.
  intros Hr. unfold run_try, bind.
  destruct (clear_ok ti w) as (w0 & -> & Hs & _ & Hc & Hb).
  exists w0. unfold _prepare, bind, call_user. rewrite Hr.
  repeat split; assumption.
Qed.

(** C4, as the code has it: when the preparation step raises - while the
    templated fields are rendered, or while the rendered-fields request is
    built or written - the task body is never executed and the error is
    handled as one of the task body is: an error that is neither a
    control-flow signal nor the termination signal gives [UP_FOR_RETRY] if
    the run context allows a retry and [FAILED] otherwise.  The outcome
    is reported in the outcome message; when that message cannot be built
    or written, [run] raises. *)
Theorem preparation_error_outcome (f : Faults) (ti : RuntimeTaskInstance)
    (context : Context) (w w1 : world) (e : exn) :
  Faulty.prepared f ti context w = (Raise e, w1) ->
  body_calls (snd (Faulty.run f ti context w)) = body_calls w
  /\ side_requests_only w w1
  /\ (control_signal e = false ->
      isinstance e Cls.AirflowTaskTerminated = false ->
      let state := if retry_allowed ti then Intermediate UP_FOR_RETRY
                   else Terminal FAILED in
      let m := if retry_allowed ti then RetryTask (clock w1)
               else TaskState FAILED (clock w1) in
      Faulty.run f ti context w
      = match build_error f m, write_error f m with
        | None, None =>
            (Ok (state, Some m, Some e), set_sent (sent w1 ++ [m]) w1)
        | Some e', _ | None, Some e' => (Raise e', w1)
        end).
Proof.
  intros Hp.
  assert (Htry : Faulty.run_try f ti context w = (Raise e, w1))
    by now rewrite faulty_run_try_prepared, Hp.
  pose proof (faulty_prepared_body f ti context w) as Hb.
  pose proof (faulty_prepared_side f ti context w) as Hs.
  rewrite Hp in Hb, Hs. simpl in Hb, Hs.
  split; [|split; [exact Hs|]].
  - rewrite (faulty_run_body_after_try f ti context w e w1 Htry). exact Hb.
  - intros Hcs Ht. cbv zeta. unfold Faulty.run. rewrite Htry.
    rewrite (faulty_run_except_retryable f ti context e Hcs Ht),
      faulty_retry_or_fail_eq.
    cbv zeta. destruct (build_error f _); [reflexivity|].
    unfold Faulty.run_finally, Faulty.send_request.
    destruct (write_error f _); reflexivity.
Qed.

Lemma preparation_error_outcome_witness :
  let f := {|
    build_error := fun _ => None;
    write_error := fun m =>
      match m with
      | SetRenderedFields _ => Some (UserException "OSError")
      | _ => None
      end;
    serialize_error := fun _ => None |} in
  let ti :=
    Sample.instance
      (Sample.with_rendering (Ok [("bash_command", VStr "echo")])
         Sample.operator) false in
  fst (Faulty.run f ti Sample.context (Sample.start []))
  = Ok (Terminal FAILED, Some (TaskState FAILED 100),
        Some (UserException "OSError"))
  /\ sent (snd (Faulty.run f ti Sample.context (Sample.start [])))
     = [TaskState FAILED 100]
  /\ body_calls (snd (Faulty.run f ti Sample.context (Sample.start [])))
     = 0%nat.
Proof.
  intros f ti.
  destruct (preparation_error_outcome f ti Sample.context (Sample.start [])
              (Sample.start []) (UserException "OSError") eq_refl)
    as (Hbody & _ & Hout).
  split; [|split; [|exact Hbody]]; rewrite (Hout eq_refl eq_refl);
    reflexivity.
Defined.

(** C4, counterexample: rendering the templates raises while the run
    context allows a retry; the outcome is [UP_FOR_RETRY], not [FAILED]. *)
Lemma preparation_error_is_retried :
  let ti :=
    Sample.instance
      (Sample.with_rendering (Raise (UserException "UndefinedError"))
         Sample.operator) true in
  rendering (task ti) = Raise (UserException "UndefinedError")
  /\ fst (run ti Sample.context (Sample.start []))
     = Ok (Intermediate UP_FOR_RETRY, Some (RetryTask 100),
           Some (UserException "UndefinedError")).
Proof. vm_compute. split; reflexivity. Qed.

(** ** The execution deadline *)

Lemma callbacks_return (callbacks : list (result unit)) w :
  forallb (fun callback =>
             match callback with
             | Ok _ => true
             | Raise e => isinstance e Cls.Exception
             end) callbacks = true ->
  _run_task_state_change_callbacks callbacks w = (Ok tt, w).
Proof.
  unfold _run_task_state_change_callbacks.
  induction callbacks as [|c callbacks IH]; simpl; [reflexivity|].
  intros H. apply andb_prop in H as [Hc Hrest].
  unfold bind, best_effort, try_except, call_user.
  destruct c as [[]|e]; [now apply IH|].
  rewrite Hc. now apply IH.
Qed.

(** With hooks that return, [_execute_task] is at its deadline test in the
    world it started from. *)
Lemma execute_task_after_hooks context ti w :
  hooks_return (task ti) = true ->
  _execute_task context ti w
  = (result <-
       (if execution_timeout_bool (execution_timeout (task ti)) then
          match execution_timeout (task ti) with
          | Some timeout_seconds =>
              try_except
                (if total_seconds_le_0 timeout_seconds
                 then raise AirflowTaskTimeout
                 else call_body_with_timeout timeout_seconds
                        match _ti_context_from_server ti with
                        | Some c =>
                            match next_method c with
                            | Some m =>
                                if negb (String.eqb m "")
                                then resume_execution (task ti) m
                                       (or_empty_dict (next_kwargs c))
                                else execute (task ti)
                            | None => execute (task ti)
                            end
                        | None => execute (task ti)
                        end)
                (fun e => raise e)
          | None => raise AttributeError
          end
        else call_body
               match _ti_context_from_server ti with
               | Some c =>
                   match next_method c with
                   | Some m =>
                       if negb (String.eqb m "")
                       then resume_execution (task ti) m
                              (or_empty_dict (next_kwargs c))
                       else execute (task ti)
                   | None => execute (task ti)
                   end
               | None => execute (task ti)
               end) ;;
     (match _post_execute_hook (task ti) with
      | Some post_execute_hook => call_user (post_execute_hook result)
      | None => ret tt
      end) ;;;
     ret result) w.
Proof.
  unfold hooks_return. intros H. apply andb_prop in H as [Hpre Hcb].
  unfold _execute_task. unfold bind at 1.
  assert (Hhook : match _pre_execute_hook (task ti) with
                  | Some pre_execute_hook => call_user pre_execute_hook
                  | None => ret tt
                  end w = (Ok tt, w)).
  { destruct (_pre_execute_hook (task ti)) as [[[]|e]|];
      [reflexivity|discriminate|reflexivity]. }
  rewrite Hhook. unfold bind at 1.
  now rewrite (callbacks_return _ w Hcb).
Qed.

(** The fast-fail test at work: with an execution timeout that is
    negative, and hooks that return, [_execute_task] raises the timeout
    signal without entering the task body, and the attempt ends with the
    outcome of a retryable error: [UP_FOR_RETRY] if a retry is allowed,
    [FAILED] otherwise. *)
Lemma elapsed_deadline_times_out (ti : RuntimeTaskInstance)
    (context : Context) (w w1 : world) (d : timedelta) :
  prepared ti context w = (Ok None, w1) ->
  execution_timeout (task ti) = Some d ->
  d < 0 ->
  hooks_return (task ti) = true ->
  _execute_task context ti w1 = (Raise AirflowTaskTimeout, w1)
  /\ exists m w',
       run ti context w
       = (Ok (if retry_allowed ti then Intermediate UP_FOR_RETRY
              else Terminal FAILED, Some m, Some AirflowTaskTimeout), w')
       /\ m = (if retry_allowed ti then RetryTask (clock w1)
               else TaskState FAILED (clock w1))
       /\ body_calls w' = body_calls w.
Proof.
  intros Hp Hd Hneg Hhooks.
  assert (Hex : _execute_task context ti w1 = (Raise AirflowTaskTimeout, w1)).
  { rewrite (execute_task_after_hooks context ti w1 Hhooks), Hd.
    unfold bind at 1, execution_timeout_bool, timedelta_bool,
      total_seconds_le_0, try_except, raise.
    assert (Hz : (d =? 0) = false) by (apply Z.eqb_neq; lia).
    assert (Hle : (d <=? 0) = true) by (apply Z.leb_le; lia).
    now rewrite Hz, Hle. }
  split; [exact Hex|].
  assert (Htry : run_try ti context w = (Raise AirflowTaskTimeout, w1)).
  { rewrite run_try_prepared, Hp. unfold bind at 1. now rewrite Hex. }
  eexists _, _. split; [|split].
  - eapply run_of_raise; [exact Htry|].
    rewrite (run_except_retryable ti context AirflowTaskTimeout eq_refl eq_refl),
      retry_or_fail_eq. reflexivity.
  - reflexivity.
  - pose proof (prepared_body ti context w) as Hb. rewrite Hp in Hb.
    exact Hb.
Qed.

Lemma elapsed_deadline_times_out_witness :
  let ti :=
    Sample.instance
      (Sample.with_execution_timeout (Some (-1)) Sample.operator) true in
  fst (run ti Sample.context (Sample.start []))
  = Ok (Intermediate UP_FOR_RETRY, Some (RetryTask 100),
        Some AirflowTaskTimeout)
  /\ body_calls (snd (run ti Sample.context (Sample.start []))) = 0%nat.
Proof.
  intros ti.
  destruct (elapsed_deadline_times_out ti Sample.context (Sample.start [])
              (Sample.start []) (-1) eq_refl eq_refl eq_refl eq_refl)
    as (_ & m & w' & Hrun & Hm & Hb).
  rewrite Hrun, Hm. split; [reflexivity|exact Hb].
Defined.

(** C5: a task whose execution timeout is [timedelta(0)] starts with a
    budget that is already [<= 0], the case the fast-fail test
    [timeout_seconds <= 0] of [_execute_task] is written for.  The guard
    [if task.execution_timeout:] before it takes [timedelta(0)] for no
    timeout at all, so the test is never reached: no timeout signal is
    raised, the task body is entered without a deadline, and the attempt
    is reported as a success. *)
Lemma zero_deadline_runs_the_body :
  let ti :=
    Sample.instance
      (Sample.with_execution_timeout (Some 0) Sample.operator) true in
  let end_ := run ti Sample.context (Sample.start []) in
  execution_timeout (task ti) = Some 0
  /\ fst (_execute_task Sample.context ti (Sample.start [])) = Ok (VInt 42)
  /\ body_calls (snd end_) = 1%nat
  /\ fst end_ = Ok (Terminal SUCCESS, Some (SucceedTask 105 [] []), None).
Proof. vm_compute. repeat split. Qed.

(** ** Pushing the result *)

(** When pushing the result raises, the [try] block raises the same
    error. *)
Lemma run_try_push_raises ti context w w1 result w2 e w3 :
  prepared ti context w = (Ok None, w1) ->
  _execute_task context ti w1 = (Ok result, w2) ->
  _push_xcom_if_needed result ti w2 = (Raise e, w3) ->
  run_try ti context w = (Raise e, w3).
Proof.
  intros Hp Hex Hpush. rewrite run_try_prepared, Hp.
  unfold bind at 1. rewrite Hex. unfold bind at 1. now rewrite Hpush.
Qed.

(** C7: a task that a downstream mapped task depends on must push a value
    that can be mapped over.  With nothing to push, pushing raises
    [XComForMappingNotPushed]; with a value that cannot be mapped over it
    raises [UnmappableXComTypePushed].  Either way nothing is stored and
    the attempt ends as a failed one, retried if the run context allows
    it: no success outcome is reported. *)
Theorem mapped_dependency_needs_mappable_value (ti : RuntimeTaskInstance)
    (context : Context) (w w1 w2 : world) (result : value) :
  iter_mapped_dependants (task ti) <> [] ->
  prepared ti context w = (Ok None, w1) ->
  _execute_task context ti w1 = (Ok result, w2) ->
  let xcom_value := if do_xcom_push (task ti) then result else VNone in
  let fails_with (e : exn) :=
    _push_xcom_if_needed result ti w2 = (Raise e, w2)
    /\ exists state m,
         run ti context w
         = (Ok (state, Some m, Some e), set_sent (sent w2 ++ [m]) w2)
         /\ reported_state m = Some state
         /\ state <> Terminal SUCCESS in
  (is_None xcom_value = true -> fails_with XComForMappingNotPushed)
  /\ (is_None xcom_value = false -> is_mappable_value xcom_value = false ->
      fails_with UnmappableXComTypePushed).
Proof.
  intros Hdep Hp Hex xcom_value fails_with.
  assert (Hmapped : is_mapped_or_has_dependants (task ti) = true).
  { unfold is_mapped_or_has_dependants.
    destruct (iter_mapped_dependants (task ti)); [congruence|reflexivity]. }
  assert (Hfail : forall e,
             control_signal e = false ->
             isinstance e Cls.AirflowTaskTerminated = false ->
             _push_xcom_if_needed result ti w2 = (Raise e, w2) ->
             fails_with e).
  { intros e Hc Ht Hpush. split; [exact Hpush|].
    eexists _, _. split; [|split].
    - eapply run_of_raise.
      + eapply run_try_push_raises; eassumption.
      + rewrite (run_except_retryable ti context e Hc Ht), retry_or_fail_eq.
        reflexivity.
    - destruct (retry_allowed ti); reflexivity.
    - destruct (retry_allowed ti); discriminate. }
  split.
  - intros Hnone. apply Hfail; [reflexivity|reflexivity|].
    unfold _push_xcom_if_needed. fold xcom_value.
    now rewrite Hnone, Hmapped.
  - intros Hsome Hunmappable. apply Hfail; [reflexivity|reflexivity|].
    unfold _push_xcom_if_needed. fold xcom_value.
    rewrite Hsome, Hmapped. unfold bind at 1. now rewrite Hunmappable.
Qed.

Lemma mapped_dependency_needs_mappable_value_witness :
  let ti :=
    Sample.instance
      (Sample.with_body (Ok VNone)
         (Sample.with_xcom true false ["consumer"] Sample.operator)) false in
  fst (run ti Sample.context (Sample.start []))
  = Ok (Terminal FAILED, Some (TaskState FAILED 105),
        Some XComForMappingNotPushed).
Proof.
  intros ti.
  destruct (mapped_dependency_needs_mappable_value ti Sample.context
              (Sample.start []) (Sample.start [])
              (set_clock 105 (set_body_calls 1 (Sample.start []))) VNone
              ltac:(discriminate) eq_refl eq_refl) as [Hnone _].
  destruct (Hnone eq_refl) as (_ & state & m & Hrun & _).
  rewrite Hrun. vm_compute in Hrun. now injection Hrun as <- <-.
Defined.

(** The loop that checks the keys raises at the first key that is no
    string, and stores nothing. *)
Lemma check_keys_eq (ks : list (value * value)) w :
  for_each ks (fun kv =>
    if negb (is_str (fst kv)) then raise TypeError else ret tt) w
  = if forallb (fun kv => is_str (fst kv)) ks
    then (Ok tt, w) else (Raise TypeError, w).
Proof.
  induction ks as [|kv ks IH]; simpl; [reflexivity|].
  unfold bind. destruct (is_str (fst kv)); simpl; [exact IH|reflexivity].
Qed.

(** The loop that pushes the items of a string-keyed mapping. *)
Lemma push_items_eq ti (its : list (value * value)) w :
  forallb (fun kv => is_str (fst kv)) its = true ->
  for_each its (fun kv =>
    match fst kv with
    | VStr k => xcom_push ti k (snd kv)
    | _ => raise TypeError
    end) w
  = (Ok tt, set_xcoms (store_items ti its (xcoms w)) w).
Proof.
  revert w. induction its as [|[k v] its IH]; intros w; simpl.
  - intros _. now destruct w.
  - intros H. apply andb_prop in H as [Hk Hrest].
    destruct k; try discriminate. unfold bind. simpl.
    rewrite (IH _ Hrest). reflexivity.
Qed.

Lemma own_key_inj ti k k' : own_key ti k = own_key ti k' -> k = k'.
Proof. unfold own_key. now intros [= ->]. Qed.

Lemma store_items_other ti its store key :
  (forall k v, (VStr k, v) ∈ its -> own_key ti k <> key) ->
  store_items ti its store !! key = store !! key.
Proof.
  revert store. induction its as [|[k v] its IH]; intros store Hother;
    [reflexivity|].
  unfold store_items in *. simpl. rewrite IH.
  - destruct k; try reflexivity. simpl.
    apply lookup_insert_ne. eapply Hother. left.
  - intros k' v' Hin. eapply Hother. right. exact Hin.
Qed.

Lemma store_items_lookup ti its store k v :
  NoDup (map fst its) -> (VStr k, v) ∈ its ->
  store_items ti its store !! own_key ti k = Some (v, None).
Proof.
  revert store. induction its as [|[k0 v0] its IH]; intros store Hnd Hin.
  - inversion Hin.
  - simpl in Hnd. apply NoDup_cons in Hnd as [Hfresh Hnd].
    apply elem_of_cons in Hin as [[= <- <-]|Hin].
    + change (store_items ti its (<[own_key ti k := (v, None)]> store)
              !! own_key ti k = Some (v, None)).
      rewrite store_items_other; [apply lookup_insert_eq|].
      intros k' v' Hin' Heq. apply own_key_inj in Heq as ->.
      apply Hfresh. apply list_elem_of_fmap. now exists (VStr k, v').
    + unfold store_items. simpl. now apply IH.
Qed.

(** What [_push_xcom_if_needed] does with a result that is pushed. *)
Lemma push_result_eq ti w result :
  do_xcom_push (task ti) = true ->
  is_None result = false ->
  _push_xcom_if_needed result ti w
  = if is_mapped_or_has_dependants (task ti)
       && negb (is_mappable_value result)
    then (Raise UnmappableXComTypePushed, w)
    else if multiple_outputs (task ti) then
      if string_keyed result then
        (Ok tt,
         set_xcoms
           (<[own_key ti "return_value" :=
                (result, mapped_length_of ti result)]>
              (store_items ti
                 match result with VDict items => items | _ => [] end
                 (xcoms w))) w)
      else (Raise TypeError, w)
    else
      (Ok tt,
       set_xcoms (<[own_key ti "return_value" :=
                      (result, mapped_length_of ti result)]> (xcoms w)) w).
Proof.
  intros Hpush Hsome. unfold _push_xcom_if_needed, mapped_length_of.
  rewrite Hpush, Hsome.
  destruct (is_mapped_or_has_dependants (task ti));
    destruct (multiple_outputs (task ti));
    destruct result as [|b|z|s|l|items]; try discriminate Hsome;
    try reflexivity;
    unfold bind, call_user; simpl; rewrite check_keys_eq;
    destruct (forallb (fun kv => is_str (fst kv)) items) eqn:Hkeys;
    try reflexivity;
    rewrite (push_items_eq ti items _ Hkeys); reflexivity.
Qed.

(** C8, as the code has it: for a task that pushes its result
    ([do_xcom_push]) and returns a value other than [None].  In
    multiple-outputs mode a value that is no string-keyed mapping raises a
    type error before anything is stored; a string-keyed mapping has each
    item stored under its key and the whole value under [return_value],
    and nothing else.  Without multiple-outputs mode a returned list is
    stored as one artifact, under [return_value]. *)
Theorem push_result_multiple_outputs (ti : RuntimeTaskInstance) (w : world)
    (result : value) :
  do_xcom_push (task ti) = true ->
  is_None result = false ->
  (multiple_outputs (task ti) = true -> string_keyed result = false ->
   exists e,
     _push_xcom_if_needed result ti w = (Raise e, w)
     /\ isinstance e Cls.TypeError = true)
  /\ (multiple_outputs (task ti) = true ->
      forall items, result = VDict items -> string_keyed result = true ->
      exists w',
        _push_xcom_if_needed result ti w = (Ok tt, w')
        /\ sent w' = sent w
        /\ xcoms w' !! own_key ti "return_value"
           = Some (result, mapped_length_of ti result)
        /\ (forall k v, NoDup (map fst items) -> (VStr k, v) ∈ items ->
            k <> "return_value" ->
            xcoms w' !! own_key ti k = Some (v, None))
        /\ (forall key, key <> own_key ti "return_value" ->
            (forall k v, (VStr k, v) ∈ items -> own_key ti k <> key) ->
            xcoms w' !! key = xcoms w !! key))
  /\ (multiple_outputs (task ti) = false ->
      forall l, result = VList l ->
      _push_xcom_if_needed result ti w
      = (Ok tt,
         set_xcoms (<[own_key ti "return_value" :=
                        (result, mapped_length_of ti result)]> (xcoms w)) w)).
Proof.
  intros Hpush Hsome. rewrite (push_result_eq ti w result Hpush Hsome).
  split; [|split].
  - intros Hmulti Hkeys. rewrite Hmulti, Hkeys.
    destruct (is_mapped_or_has_dependants (task ti)
              && negb (is_mappable_value result)).
    + now exists UnmappableXComTypePushed.
    + now exists TypeError.
  - intros Hmulti items -> Hkeys. rewrite Hmulti, Hkeys.
    simpl is_mappable_value. rewrite andb_false_r.
    eexists. split; [reflexivity|]. simpl.
    split; [reflexivity|]. split; [apply lookup_insert_eq|]. split.
    + intros k v Hnd Hin Hne. rewrite lookup_insert_ne.
      * now apply store_items_lookup.
      * intros Heq. apply own_key_inj in Heq. congruence.
    + intros key Hne Hother. rewrite lookup_insert_ne; [|congruence].
      now apply store_items_other.
  - intros Hmulti l ->. rewrite Hmulti.
    simpl is_mappable_value. now rewrite andb_false_r.
Qed.

Lemma push_result_multiple_outputs_witness :
  let ti :=
    Sample.instance (Sample.with_xcom true true [] Sample.operator) true in
  (exists e,
     _push_xcom_if_needed (VList [VInt 1; VInt 2]) ti (Sample.start [])
     = (Raise e, Sample.start [])
     /\ isinstance e Cls.TypeError = true)
  /\ exists w',
       _push_xcom_if_needed (VDict [(VStr "a", VInt 1)]) ti (Sample.start [])
       = (Ok tt, w')
       /\ xcoms w' !! own_key ti "a" = Some (VInt 1, None)
       /\ xcoms w' !! own_key ti "return_value"
          = Some (VDict [(VStr "a", VInt 1)], None).
Proof.
  intros ti. split.
  - destruct (push_result_multiple_outputs ti (Sample.start [])
                (VList [VInt 1; VInt 2]) eq_refl eq_refl) as (Herr & _ & _).
    exact (Herr eq_refl eq_refl).
  - destruct (push_result_multiple_outputs ti (Sample.start [])
                (VDict [(VStr "a", VInt 1)]) eq_refl eq_refl)
      as (_ & Hok & _).
    destruct (Hok eq_refl _ eq_refl eq_refl)
      as (w' & Hrun & _ & Hrv & Hitem & _).
    exists w'. split; [exact Hrun|]. split; [|exact Hrv].
    apply Hitem; [repeat constructor; set_solver|set_solver|discriminate].
Defined.

(** C8, counterexample: in multiple-outputs mode, a task that does not
    push its result returns a list.  No type error is raised and nothing
    is stored; without multiple-outputs mode the list is not stored under
    [return_value] either. *)
Lemma unpushed_result_is_not_checked :
  let multi :=
    Sample.instance (Sample.with_xcom false true [] Sample.operator) true in
  let single :=
    Sample.instance (Sample.with_xcom false false [] Sample.operator) true in
  _push_xcom_if_needed (VList [VInt 1; VInt 2]) multi (Sample.start [])
  = (Ok tt, Sample.start [])
  /\ _push_xcom_if_needed (VList [VInt 1; VInt 2]) single (Sample.start [])
     = (Ok tt, Sample.start []).
Proof. split; reflexivity. Qed.

(** ** The trigger-run sub-protocol *)

(** C9: when the reply to the trigger request reports that the run already
    exists, the outcome is [SKIPPED] if the caller tolerates duplicates
    ([skip_when_already_exists]) and [FAILED] otherwise.  The trigger
    request and the outcome message are all that is written: the store is
    untouched (no run id is pushed), no run state is asked for and the
    clock has not moved (no polling). *)
Theorem trigger_run_already_exists (drte : DagRunTrigger) (context : Context)
    (ti : RuntimeTaskInstance) (w0 w : world)
    (rest : list (option ToTask)) :
  inbox w = Some (ErrorResponse DAGRUN_ALREADY_EXISTS) :: rest ->
  let state := if skip_when_already_exists drte then SKIPPED else FAILED in
  let request :=
    TriggerDagRun (trigger_dag_id drte) (dag_run_id drte)
      (drte_logical_date drte) (drte_conf drte) (reset_dag_run drte) in
  _handle_trigger_dag_run drte context ti w
  = (Ok (TaskState state (clock w), Terminal state),
     set_inbox rest (set_sent (sent w ++ [request]) w))
  /\ (run_try ti context w0 = (Raise (DagRunTriggerException drte), w) ->
      run ti context w0
      = (Ok (Terminal state, Some (TaskState state (clock w)), None),
         {| sent := sent w ++ [request; TaskState state (clock w)];
            inbox := rest;
            xcoms := xcoms w;
            clock := clock w;
            body_calls := body_calls w |})).
Proof.
  intros Hin state request.
  assert (Hh : _handle_trigger_dag_run drte context ti w
               = (Ok (TaskState state (clock w), Terminal state),
                  set_inbox rest (set_sent (sent w ++ [request]) w))).
  { unfold _handle_trigger_dag_run, bind at 1.
    cbn [SUPERVISOR_COMMS.send_request].
    unfold bind at 1, SUPERVISOR_COMMS.get_message. cbn [inbox set_sent].
    rewrite Hin. subst state.
    destruct (skip_when_already_exists drte); reflexivity. }
  split; [exact Hh|].
  intros Htry.
  erewrite run_of_raise; [|exact Htry|].
  2:{ unfold run_except. eval_isinstance. unfold bind at 1. rewrite Hh.
      reflexivity. }
  unfold set_sent, set_inbox. simpl. now rewrite <- app_assoc.
Qed.

Lemma trigger_run_already_exists_witness :
  let ti skip :=
    Sample.instance
      (Sample.with_body
         (Raise (DagRunTriggerException (Sample.trigger skip true)))
         Sample.operator) true in
  let w := Sample.start [Some (ErrorResponse DAGRUN_ALREADY_EXISTS)] in
  fst (run (ti true) Sample.context w)
  = Ok (Terminal SKIPPED, Some (TaskState SKIPPED 105), None)
  /\ fst (run (ti false) Sample.context w)
     = Ok (Terminal FAILED, Some (TaskState FAILED 105), None).
Proof.
  intros ti w.
  pose (w1 := set_clock 105 (set_body_calls 1 w)).
  split.
  - destruct (trigger_run_already_exists (Sample.trigger true true)
                Sample.context (ti true) w w1 [] eq_refl) as [_ H].
    now rewrite (H eq_refl).
  - destruct (trigger_run_already_exists (Sample.trigger false true)
                Sample.context (ti false) w w1 [] eq_refl) as [_ H].
    now rewrite (H eq_refl).
Defined.

(** * Further properties *)

(** ** Lineage *)

(** X1: [_build_asset_profiles] yields one profile for each asset, asset
    reference or asset alias, in the order of the lineage objects, and
    drops every other object; so it distributes over concatenation and
    yields as many profiles as there are such objects. *)
Theorem build_asset_profiles_keeps_assets (l1 l2 : list lineage_object) :
  _build_asset_profiles (l1 ++ l2)
  = _build_asset_profiles l1 ++ _build_asset_profiles l2
  /\ length (_build_asset_profiles l1)
     = length (List.filter (fun obj => match obj with
                                       | OtherLineage => false
                                       | _ => true
                                       end) l1)
  /\ map ap_type (_build_asset_profiles l1)
     = flat_map (fun obj => match obj with
                            | Asset _ _ => ["Asset"]
                            | AssetNameRef _ => ["AssetNameRef"]
                            | AssetUriRef _ => ["AssetUriRef"]
                            | AssetAlias _ => ["AssetAlias"]
                            | OtherLineage => []
                            end) l1.
Proof.
  split; [|split].
  - unfold _build_asset_profiles. apply flat_map_app.
  - induction l1 as [|obj l IH]; [reflexivity|].
    destruct obj; simpl; now rewrite <- IH.
  - induction l1 as [|obj l IH]; [reflexivity|].
    destruct obj; simpl; now rewrite <- IH.
Qed.

(** X2: [_serialize_outlet_events] yields, for each accessor in order, one
    record when its key is an asset and then its alias events; an accessor
    stored under an alias key yields its alias events only. *)
Theorem serialize_outlet_events_length (events : list OutletEventAccessor) :
  length (_serialize_outlet_events events)
  = (length (List.filter (fun a => match accessor_key a with
                                   | AssetUniqueKey _ _ => true
                                   | AssetAliasUniqueKey _ => false
                                   end) events)
     + length (flat_map asset_alias_events events))%nat
  /\ forall events',
       _serialize_outlet_events (events ++ events')
       = _serialize_outlet_events events ++ _serialize_outlet_events events'.
Proof.
  split.
  - induction events as [|a events IH]; [reflexivity|].
    unfold _serialize_outlet_events in *. simpl.
    rewrite !length_app, IH.
    destruct (accessor_key a); simpl; lia.
  - intros events'. unfold _serialize_outlet_events. apply flat_map_app.
Qed.

(** ** Callbacks and hooks *)

(** X3: [_run_task_state_change_callbacks] runs every callback and lets no
    [Exception] escape; the first callback that raises something else (an
    interrupt, an exit, a timeout) ends the loop with that error. *)
Theorem callbacks_contain_exceptions (before : list (result unit)) (w : world) :
  Forall contained before ->
  _run_task_state_change_callbacks before w = (Ok tt, w)
  /\ forall e after,
       isinstance e Cls.Exception = false ->
       _run_task_state_change_callbacks (before ++ Raise e :: after) w
       = (Raise e, w).
Proof.
  unfold _run_task_state_change_callbacks.
  induction 1 as [|c before Hc _ [IH1 IH2]]; simpl.
  - split; [reflexivity|]. intros e after He.
    unfold bind, best_effort, try_except, call_user. now rewrite He.
  - assert (Hone : best_effort (call_user c) w = (Ok tt, w)).
    { unfold best_effort, try_except, call_user.
      destruct c as [[]|e]; [reflexivity|]. simpl in Hc. now rewrite Hc. }
    split.
    + unfold bind. now rewrite Hone.
    + intros e after He. unfold bind. rewrite Hone. now apply IH2.
Qed.

Lemma callbacks_contain_exceptions_witness :
  _run_task_state_change_callbacks
    [Ok tt; Raise (UserException "ValueError"); Raise KeyboardInterrupt;
     Ok tt] (Sample.start [])
  = (Raise KeyboardInterrupt, Sample.start []).
Proof.
  destruct (callbacks_contain_exceptions
              [Ok tt; Raise (UserException "ValueError")] (Sample.start []))
    as [_ H].
  - repeat constructor.
  - exact (H KeyboardInterrupt [Ok tt] eq_refl).
Defined.

(** X4: [_prepare] asks for the rendered fields to be stored exactly when
    there are some, writes nothing else, and returns no early exit; an
    [Exception] of the running-listener does not change that. *)
Theorem prepare_sends_rendered_fields (ti : RuntimeTaskInstance)
    (context : Context) (w : world) (fields : list (string * value)) :
  rendering (task ti) = Ok fields ->
  contained (on_task_instance_running (task ti)) ->
  _prepare ti context w
  = (Ok None,
     match fields with
     | [] => w
     | _ => set_sent (sent w ++ [SetRenderedFields fields]) w
     end).
Proof.
  intros Hr Hl. unfold _prepare, bind, call_user. rewrite Hr.
  assert (Hb : forall w', best_effort
                 (fun w0 => (on_task_instance_running (task ti), w0)) w'
               = (Ok tt, w')).
  { intros w'. unfold best_effort, try_except.
    destruct (on_task_instance_running (task ti)) as [[]|e];
      [reflexivity|]. simpl in Hl. now rewrite Hl. }
  destruct fields as [|f fields]; simpl; now rewrite Hb.
Qed.

Lemma prepare_sends_rendered_fields_witness :
  _prepare
    (Sample.instance
       (Sample.with_rendering (Ok [("bash_command", VStr "date")])
          Sample.operator) true)
    Sample.context (Sample.start [])
  = (Ok None,
     set_sent [SetRenderedFields [("bash_command", VStr "date")]]
       (Sample.start [])).
Proof.
  exact (prepare_sends_rendered_fields
           (Sample.instance
              (Sample.with_rendering (Ok [("bash_command", VStr "date")])
                 Sample.operator) true)
           Sample.context (Sample.start [])
           [("bash_command", VStr "date")] eq_refl I).
Defined.

(** ** [_execute_task] *)

(** Without a deadline, and with hooks that return, [_execute_task] calls
    what it bound to [execute] and then the post-execute hook. *)
Lemma execute_task_no_deadline context ti w :
  hooks_return (task ti) = true ->
  execution_timeout_bool (execution_timeout (task ti)) = false ->
  _execute_task context ti w
  = (result <- call_body (bound_execute ti) ;;
     (match _post_execute_hook (task ti) with
      | Some post_execute_hook => call_user (post_execute_hook result)
      | None => ret tt
      end) ;;;
     ret result) w.
Proof.
  intros Hh Ht. rewrite (execute_task_after_hooks context ti w Hh), Ht.
  reflexivity.
Qed.

(** X5: the pre-execute hook is not a best-effort call: an error it raises
    leaves [_execute_task] at once, before the on-execute callbacks and
    the task body, with the world untouched. *)
Theorem pre_execute_hook_error_escapes (context : Context)
    (ti : RuntimeTaskInstance) (w : world) (e : exn) :
  _pre_execute_hook (task ti) = Some (Raise e) ->
  _execute_task context ti w = (Raise e, w).
Proof.
  intros Hh. unfold _execute_task, bind at 1. now rewrite Hh.
Qed.

Lemma pre_execute_hook_error_escapes_witness :
  let t := {|
    do_xcom_push := true; multiple_outputs := false; is_mapped := false;
    iter_mapped_dependants := []; execution_timeout := None; outlets := [];
    _pre_execute_hook := Some (Raise (UserException "ValueError"));
    _post_execute_hook := None; on_execute_callback := [];
    execute := {| elapsed := 5; outcome := Ok (VInt 42) |};
    resume_execution := fun _ _ => {| elapsed := 1; outcome := Ok VNone |};
    rendering := Ok []; on_task_instance_running := Ok tt |} in
  _execute_task Sample.context (Sample.instance t true) (Sample.start [])
  = (Raise (UserException "ValueError"), Sample.start []).
Proof.
  intros t.
  exact (pre_execute_hook_error_escapes Sample.context
           (Sample.instance t true) (Sample.start [])
           (UserException "ValueError") eq_refl).
Defined.

(** X6: an error of the post-execute hook leaves [_execute_task] after the
    task body has run: the body was entered once, its time has passed, and
    its result is lost. *)
Theorem post_execute_hook_error_escapes (context : Context)
    (ti : RuntimeTaskInstance) (w : world) (v : value)
    (post_execute_hook : value -> result unit) (e : exn) :
  hooks_return (task ti) = true ->
  execution_timeout_bool (execution_timeout (task ti)) = false ->
  outcome (bound_execute ti) = Ok v ->
  _post_execute_hook (task ti) = Some post_execute_hook ->
  post_execute_hook v = Raise e ->
  _execute_task context ti w
  = (Raise e,
     set_clock (clock w + elapsed (bound_execute ti))
       (set_body_calls (S (body_calls w)) w)).
Proof.
  intros Hh Ht Hv Hp He.
  rewrite (execute_task_no_deadline context ti w Hh Ht).
  unfold bind, call_body, call_user. now rewrite Hv, Hp, He.
Qed.

Lemma post_execute_hook_error_escapes_witness :
  let t := {|
    do_xcom_push := true; multiple_outputs := false; is_mapped := false;
    iter_mapped_dependants := []; execution_timeout := None; outlets := [];
    _pre_execute_hook := None;
    _post_execute_hook := Some (fun _ => Raise (UserException "ValueError"));
    on_execute_callback := [];
    execute := {| elapsed := 5; outcome := Ok (VInt 42) |};
    resume_execution := fun _ _ => {| elapsed := 1; outcome := Ok VNone |};
    rendering := Ok []; on_task_instance_running := Ok tt |} in
  _execute_task Sample.context (Sample.instance t true) (Sample.start [])
  = (Raise (UserException "ValueError"),
     set_clock 105 (set_body_calls 1 (Sample.start []))).
Proof.
  intros t.
  exact (post_execute_hook_error_escapes Sample.context
           (Sample.instance t true) (Sample.start []) (VInt 42)
           (fun _ => Raise (UserException "ValueError"))
           (UserException "ValueError") eq_refl eq_refl eq_refl eq_refl
           eq_refl).
Defined.

(** ** The trigger-run sub-protocol, continued *)




(** X9: when the caller does not wait, any reply to the trigger request
    other than "the run already exists" - another error reply included -
    is taken as success: the run id is stored under [trigger_run_id], no
    run state is asked for, and the outcome is [SUCCESS]. *)
Theorem trigger_without_wait_succeeds (drte : DagRunTrigger)
    (context : Context) (ti : RuntimeTaskInstance) (w : world)
    (reply : ToTask) (rest : list (option ToTask)) :
  inbox w = Some reply :: rest ->
  reply <> ErrorResponse DAGRUN_ALREADY_EXISTS ->
  wait_for_completion drte = false ->
  _handle_trigger_dag_run drte context ti w
  = (Ok (SucceedTask (clock w) (_build_asset_profiles (outlets (task ti)))
           (outlet_events context), Terminal SUCCESS),
     {| sent := sent w ++ [TriggerDagRun (trigger_dag_id drte)
                             (dag_run_id drte) (drte_logical_date drte)
                             (drte_conf drte) (reset_dag_run drte)];
        inbox := rest;
        xcoms := <[own_key ti "trigger_run_id" :=
                     (VStr (dag_run_id drte), None)]> (xcoms w);
        clock := clock w;
        body_calls := body_calls w |}).
Proof.
  intros Hin Hne Hw.
  unfold _handle_trigger_dag_run, bind at 1.
  cbn [SUPERVISOR_COMMS.send_request].
  unfold bind at 1, SUPERVISOR_COMMS.get_message. cbn [inbox set_sent].
  rewrite Hin.
  destruct reply as [[|]| |]; try congruence; rewrite Hw; reflexivity.
Qed.

Lemma trigger_without_wait_succeeds_witness :
  fst (_handle_trigger_dag_run (Sample.trigger false false) Sample.context
         (Sample.instance Sample.operator true)
         (Sample.start [Some (ErrorResponse GENERIC_ERROR)]))
  = Ok (SucceedTask 100 [] [], Terminal SUCCESS).
Proof.
  rewrite (trigger_without_wait_succeeds (Sample.trigger false false)
             Sample.context (Sample.instance Sample.operator true)
             (Sample.start [Some (ErrorResponse GENERIC_ERROR)])
             (ErrorResponse GENERIC_ERROR) [] eq_refl
             ltac:(discriminate) eq_refl).
  reflexivity.
Defined.

(** ** XCom, continued *)

(** X10: what a task instance pushes under a key it pulls back with no
    filters - or the default, if it pushed [None] - and pulling another
    key is not affected by the push. *)
Theorem xcom_push_pull_round_trip (self : RuntimeTaskInstance)
    (key : string) (v default : value) (ipd : bool) (w : world) :
  fst (xcom_pull self TaskIdsNone None key ipd NOTSET default None
         (snd (xcom_push self key v w)))
  = Ok (if is_None v then default else v)
  /\ forall key',
       key' <> key ->
       fst (xcom_pull self TaskIdsNone None key' ipd NOTSET default None
              (snd (xcom_push self key v w)))
       = fst (xcom_pull self TaskIdsNone None key' ipd NOTSET default None w).
Proof.
  unfold xcom_pull, xcom_push, _xcom_push, XCom.set, xcom_pull_from,
    pull_one, XCom.get_one. simpl.
  split.
  - now rewrite lookup_insert_eq.
  - intros key' Hne. rewrite lookup_insert_ne; [reflexivity|congruence].
Qed.

Lemma list_prod_empty_r {A B} (l : list A) : list_prod l (@nil B) = [].
Proof. induction l as [|x l IH]; [reflexivity|exact IH]. Qed.

(** X11: [xcom_pull] raises a type error for a map-index filter of a wrong
    type, and returns an empty list - not the default - when a filter is
    an empty iterable. *)
Theorem xcom_pull_edge_cases
    (get_one : string -> string -> string -> string -> option Z -> bool
               -> value)
    (self : RuntimeTaskInstance) (dag_id' : option string) (key : string)
    (ipd : bool) (default : value) (run_id' : option string) :
  (forall task_ids,
     xcom_pull_from get_one self task_ids dag_id' key ipd MapIndexOther
       default run_id' = Raise TypeError)
  /\ (forall task_ids,
        xcom_pull_from get_one self task_ids dag_id' key ipd
          (MapIndexIter []) default run_id' = Ok (VList []))
  /\ (forall map_indexes,
        map_indexes = MapIndexOther
        \/ xcom_pull_from get_one self (TaskIdsIter []) dag_id' key ipd
             map_indexes default run_id' = Ok (VList [])).
Proof.
  split; [|split].
  - reflexivity.
  - intros task_ids. unfold xcom_pull_from. simpl.
    now rewrite list_prod_empty_r.
  - intros [| |i|l|]; [right|right|right|right|left]; reflexivity.
Qed.

(** X12: when there is nothing to push - the task does not push its
    result, or returned [None] - and no mapped task depends on it,
    [_push_xcom_if_needed] returns and stores nothing. *)
Theorem nothing_to_push (result : value) (ti : RuntimeTaskInstance)
    (w : world) :
  is_mapped_or_has_dependants (task ti) = false ->
  do_xcom_push (task ti) = false \/ result = VNone ->
  _push_xcom_if_needed result ti w = (Ok tt, w).
Proof.
  intros Hm Hn. unfold _push_xcom_if_needed. rewrite Hm.
  destruct Hn as [-> | ->]; [reflexivity|].
  destruct (do_xcom_push (task ti)); reflexivity.
Qed.

Lemma nothing_to_push_witness :
  _push_xcom_if_needed VNone (Sample.instance Sample.operator true)
    (Sample.start [])
  = (Ok tt, Sample.start []).
Proof.
  exact (nothing_to_push VNone (Sample.instance Sample.operator true)
           (Sample.start []) eq_refl (or_intror eq_refl)).
Defined.

(** ** [run], continued *)

Lemma once_of_not_entered {A} (m : M A) :
  keeps body_not_entered m -> keeps body_entered_at_most_once m.
Proof. intros H w. left. apply H. Qed.

Lemma once_bind_l {A B} (m : M A) (k : A -> M B) :
  keeps body_not_entered m ->
  (forall a, keeps body_entered_at_most_once (k a)) ->
  keeps body_entered_at_most_once (bind m k).
Proof.
  intros Hm Hk w. unfold bind. specialize (Hm w).
  unfold body_not_entered, body_entered_at_most_once in *.
  destruct (m w) as [[a|e] w']; simpl in *; [|now left].
  specialize (Hk a w'). unfold body_entered_at_most_once in Hk.
  rewrite Hm in Hk. exact Hk.
Qed.

Lemma once_bind_r {A B} (m : M A) (k : A -> M B) :
  keeps body_entered_at_most_once m ->
  (forall a, keeps body_not_entered (k a)) ->
  keeps body_entered_at_most_once (bind m k).
Proof.
  intros Hm Hk w. unfold bind. specialize (Hm w).
  unfold body_not_entered, body_entered_at_most_once in *.
  destruct (m w) as [[a|e] w']; simpl in *; [|exact Hm].
  specialize (Hk a w'). unfold body_not_entered in Hk.
  rewrite Hk. exact Hm.
Qed.

Lemma _xcom_push_body ti k v n : keeps body_not_entered (_xcom_push ti k v n).
Proof. intros w. reflexivity. Qed.

Lemma push_xcom_body result ti :
  keeps body_not_entered (_push_xcom_if_needed result ti).
Proof.
  unfold _push_xcom_if_needed.
  keeps_step; [keeps_step; keeps_step|].
  keeps_step.
  { keeps_step; [|keeps_step]. keeps_step; [keeps_step|].
    keeps_step; [keeps_step|intros n; keeps_step]. }
  intros mapped_length. keeps_step; [|intros _; apply _xcom_push_body].
  keeps_step; [|keeps_step]. keeps_step; [keeps_step|].
  keeps_step; [keeps_step|intros ks].
  keeps_step.
  { keeps_step. intros kv. keeps_step; keeps_step. }
  intros _. keeps_step; [keeps_step|intros its].
  keeps_step. intros kv.
  destruct (fst kv); try keeps_step. apply xcom_push_body.
Qed.

Lemma execute_task_once context ti :
  keeps body_entered_at_most_once (_execute_task context ti).
Proof.
  unfold _execute_task.
  apply once_bind_l.
  { destruct (_pre_execute_hook (task ti)); keeps_step. }
  intros _. apply once_bind_l; [keeps_step|intros _].
  apply once_bind_r.
  - destruct (execution_timeout_bool (execution_timeout (task ti))).
    + destruct (execution_timeout (task ti)) as [d|];
        [|apply once_of_not_entered; keeps_step].
      match goal with
      | |- context [call_body_with_timeout d ?x] => generalize x; intros b
      end.
      intros w. unfold try_except, raise, call_body_with_timeout.
      destruct (total_seconds_le_0 d); [now left|].
      destruct (d <? elapsed b); destruct (outcome b); now right.
    + match goal with
      | |- context [call_body ?x] => generalize x; intros b
      end.
      intros w. unfold call_body. destruct (outcome b); now right.
  - intros result. keeps_step; [|intros _; keeps_step].
    destruct (_post_execute_hook (task ti)); keeps_step.
Qed.

(** X13: an attempt enters the task body at most once, whatever the body,
    the hooks and the supervisor do; [run] never calls it again after an
    error. *)
Theorem run_enters_body_at_most_once (ti : RuntimeTaskInstance)
    (context : Context) (w : world) :
  body_calls (snd (run ti context w)) = body_calls w
  \/ body_calls (snd (run ti context w)) = S (body_calls w).
Proof.
  assert (Htry : keeps body_entered_at_most_once (run_try ti context)).
  { unfold run_try. apply once_bind_l.
    { destruct (_ti_context_from_server ti); [|keeps_step].
      keeps_step. intros x. apply xcom_delete_body. }
    intros _. apply once_bind_l; [apply prepare_body|intros early_exit].
    destruct early_exit; [apply once_of_not_entered; keeps_step|].
    apply once_bind_r; [apply execute_task_once|intros result].
    keeps_step; [apply push_xcom_body|intros _]. keeps_step. }
  specialize (Htry w). unfold run.
  destruct (run_try ti context w) as [[[msg state]|e] w1]; simpl in Htry.
  - destruct msg; exact Htry.
  - pose proof (run_except_body ti context e w1) as Hex.
    unfold body_not_entered in Hex.
    destruct (run_except ti context e w1) as [[[[msg state] error]|e'] w2];
      simpl in *.
    + destruct msg; simpl; rewrite Hex; exact Htry.
    + rewrite Hex. exact Htry.
Qed.

(** X14: when the task asks for downstream tasks to be skipped, [run]
    first writes the request naming them - a single task wrapped into a
    list - and then reports success, with no error. *)
Theorem downstream_skip_then_success (ti : RuntimeTaskInstance)
    (context : Context) (w w1 : world) (tasks : value) :
  run_try ti context w = (Raise (DownstreamTasksSkipped tasks), w1) ->
  let succeed :=
    SucceedTask (clock w1) (_build_asset_profiles (outlets (task ti)))
      (outlet_events context) in
  run ti context w
  = (Ok (Terminal SUCCESS, Some succeed, None),
     set_sent (sent w1
               ++ [SkipDownstreamTasks
                     match tasks with VList l => l | _ => [tasks] end;
                   succeed]) w1).
Proof.
  intros Htry succeed. unfold run. rewrite Htry.
  unfold run_except. eval_isinstance.
  unfold bind, SUPERVISOR_COMMS.send_request, _handle_current_task_success,
    now, ret, run_finally. simpl.
  unfold set_sent. simpl. now rewrite <- app_assoc.
Qed.

Lemma downstream_skip_then_success_witness :
  sent (snd (run (Sample.instance
                    (Sample.with_body
                       (Raise (DownstreamTasksSkipped (VStr "branch_b")))
                       Sample.operator) true)
               Sample.context (Sample.start [])))
  = [SkipDownstreamTasks [VStr "branch_b"]; SucceedTask 105 [] []].
Proof.
  rewrite (downstream_skip_then_success
             (Sample.instance
                (Sample.with_body
                   (Raise (DownstreamTasksSkipped (VStr "branch_b")))
                   Sample.operator) true)
             Sample.context (Sample.start [])
             (set_clock 105 (set_body_calls 1 (Sample.start [])))
             (VStr "branch_b") eq_refl).
  reflexivity.
Defined.

(** X15: the skip, reschedule and defer signals give [SKIPPED],
    [UP_FOR_RESCHEDULE] with the requested date, and [DEFERRED] with the
    serialized trigger, its timeout and the method and keyword arguments
    to resume with (an empty dict when there are none); none of them is
    returned as an error. *)
Theorem signal_outcomes (ti : RuntimeTaskInstance) (context : Context)
    (w w1 : world) (e : exn) :
  run_try ti context w = (Raise e, w1) ->
  let reports (state : TIState) (m : ToSupervisor) :=
    run ti context w
    = (Ok (state, Some m, None), set_sent (sent w1 ++ [m]) w1) in
  match e with
  | AirflowSkipException =>
      reports (Terminal SKIPPED) (TaskState SKIPPED (clock w1))
  | AirflowRescheduleException reschedule_date =>
      reports (Intermediate UP_FOR_RESCHEDULE)
        (RescheduleTask reschedule_date (clock w1))
  | TaskDeferred defer =>
      reports (Intermediate DEFERRED)
        (DeferTask (trigger_classpath defer) (trigger_kwargs defer)
           (defer_timeout defer) (method_name defer)
           (if truthy (defer_kwargs defer) then defer_kwargs defer
            else VDict []))
  | _ => True
  end.
Proof.
  intros Htry reports. subst reports.
  destruct e; try exact I;
    (eapply run_of_raise; [exact Htry|]);
    unfold run_except; eval_isinstance; reflexivity.
Qed.

Lemma signal_outcomes_witness :
  fst (run (Sample.instance
              (Sample.with_body (Raise (AirflowRescheduleException 900))
                 Sample.operator) true)
         Sample.context (Sample.start []))
  = Ok (Intermediate UP_FOR_RESCHEDULE, Some (RescheduleTask 900 105), None).
Proof.
  rewrite (signal_outcomes
             (Sample.instance
                (Sample.with_body (Raise (AirflowRescheduleException 900))
                   Sample.operator) true)
             Sample.context (Sample.start [])
             (set_clock 105 (set_body_calls 1 (Sample.start [])))
             (AirflowRescheduleException 900) eq_refl).
  reflexivity.
Defined.

(** ** The decoder *)

(** X16: [send_request] is unusable until a startup message with a
    positive [requests_fd] has been read.  While the request socket is
    unset a request fails and nothing is written; reading any other
    message, or a startup message whose descriptor is not positive,
    leaves it unset; reading a startup message with a positive descriptor
    opens it, and the next request goes to that descriptor. *)
Theorem send_request_needs_startup (self self' : Comms.CommsDecoder)
    (msg : Comms.Received) (request : Comms.Request) :
  Comms.request_socket self = None ->
  Comms.get_message self = (Ok msg, self') ->
  Comms.send_request request self = (Raise AttributeError, self)
  /\ match msg with
     | Comms.Startup details =>
         if 0 <? Comms.requests_fd details
         then Comms.send_request request self'
              = (Ok tt,
                 {| Comms.input := Comms.input self';
                    Comms.request_socket := Some (Comms.requests_fd details);
                    Comms.written :=
                      Comms.written self
                      ++ [(Comms.requests_fd details, request)] |})
         else Comms.send_request request self' = (Raise AttributeError, self')
     | _ => Comms.send_request request self' = (Raise AttributeError, self')
     end.
Proof.
  intros Hs Hg. unfold Comms.send_request. rewrite Hs.
  split; [reflexivity|].
  unfold Comms.get_message in Hg.
  destruct (Comms.input self) as [|[m|] rest]; try discriminate.
  injection Hg as <- <-.
  destruct m as [details| |]; simpl; try (now rewrite Hs).
  destruct (0 <? Comms.requests_fd details); simpl; [reflexivity|].
  now rewrite Hs.
Qed.

Lemma send_request_needs_startup_witness :
  let details := {| Comms.requests_fd := 7; Comms.ti_id := "ti";
                    Comms.dag_rel_path := "dag.py"; Comms.start_date := 0 |} in
  let self := {| Comms.input := [Some (Comms.Startup details)];
                 Comms.request_socket := None; Comms.written := [] |} in
  let self' := {| Comms.input := []; Comms.request_socket := Some 7;
                  Comms.written := [] |} in
  Comms.send_request (Comms.Send (RetryTask 0)) self
  = (Raise AttributeError, self)
  /\ Comms.send_request (Comms.Send (RetryTask 0)) self'
     = (Ok tt,
        {| Comms.input := []; Comms.request_socket := Some 7;
           Comms.written := [(7, Comms.Send (RetryTask 0))] |}).
Proof.
  intros details self self'.
  exact (send_request_needs_startup self self' (Comms.Startup details)
           (Comms.Send (RetryTask 0)) eq_refl eq_refl).
Defined.

(** X17: once the request socket is open, requests are written in the
    order they are sent, one line each, all to the descriptor the socket
    was opened on; nothing is read. *)
Theorem requests_written_in_order (self : Comms.CommsDecoder) (fd : Z)
    (requests : list Comms.Request) :
  Comms.request_socket self = Some fd ->
  sfor_each requests Comms.send_request self
  = (Ok tt,
     {| Comms.input := Comms.input self;
        Comms.request_socket := Some fd;
        Comms.written := Comms.written self ++ map (pair fd) requests |}).
Proof.
  revert self. induction requests as [|r requests IH]; intros self Hs.
  - simpl. unfold sret. rewrite app_nil_r. destruct self; simpl in *.
    now subst.
  - simpl. unfold sbind, Comms.send_request. rewrite Hs.
    rewrite IH; [|reflexivity]. simpl. now rewrite <- app_assoc.
Qed.

Lemma requests_written_in_order_witness :
  Comms.written
    (snd (sfor_each [Comms.Send (RetryTask 1);
                     Comms.GetTaskRescheduleStartDate "ti" 2]
            Comms.send_request
            {| Comms.input := []; Comms.request_socket := Some 7;
               Comms.written := [] |}))
  = [(7, Comms.Send (RetryTask 1));
     (7, Comms.GetTaskRescheduleStartDate "ti" 2)].
Proof.
  rewrite (requests_written_in_order
             {| Comms.input := []; Comms.request_socket := Some 7;
                Comms.written := [] |} 7 _ eq_refl).
  reflexivity.
Defined.

(** X18: [startup] fails with a [RuntimeError] unless the first message is
    the startup message, and with the decoder's error when the first line
    does not decode; an [Exception] of the starting-listener never aborts
    it.  With a startup message it ends as parsing and the building of
    the context do. *)
Theorem startup_needs_startup_details (on_starting : result unit)
    (parse : Comms.StartupDetails -> result RuntimeTaskInstance)
    (get_template_context : RuntimeTaskInstance -> result Context)
    (self : Comms.CommsDecoder) :
  contained on_starting ->
  fst (Comms.startup on_starting parse get_template_context self)
  = match Comms.input self with
    | [] | None :: _ => Raise ValidationError
    | Some (Comms.Startup details) :: _ =>
        match parse details with
        | Ok ti =>
            match get_template_context ti with
            | Ok context => Ok (ti, context)
            | Raise e => Raise e
            end
        | Raise e => Raise e
        end
    | Some _ :: _ => Raise (UserException "RuntimeError")
    end.
Proof.
  intros Hl. unfold Comms.startup, sbind at 1, Comms.get_message.
  destruct (Comms.input self) as [|[msg|] rest]; try reflexivity.
  unfold sbind at 1, sbest_effort, scall.
  assert (Hb : forall (s : Comms.CommsDecoder),
             (let (r, s') := (on_starting, s) in
              match r with
              | Ok a => (Ok a, s')
              | Raise e =>
                  if isinstance e Cls.Exception
                  then (Ok tt, s') else (Raise e, s')
              end) = (Ok tt, s)).
  { intros s. destruct on_starting as [[]|e]; [reflexivity|].
    simpl in Hl. now rewrite Hl. }
  rewrite Hb.
  destruct msg as [details| |]; try reflexivity.
  unfold sbind, sret. destruct (parse details) as [ti|e]; [|reflexivity].
  destruct (get_template_context ti); reflexivity.
Qed.

Lemma startup_needs_startup_details_witness :
  fst (Comms.startup (Raise (UserException "ListenerError"))
         (fun _ => Ok (Sample.instance Sample.operator true))
         (fun _ => Ok Sample.context)
         {| Comms.input := [Some (Comms.Reply OKResponse)];
            Comms.request_socket := None; Comms.written := [] |})
  = Raise (UserException "RuntimeError").
Proof.
  exact (startup_needs_startup_details (Raise (UserException "ListenerError"))
           (fun _ => Ok (Sample.instance Sample.operator true))
           (fun _ => Ok Sample.context)
           {| Comms.input := [Some (Comms.Reply OKResponse)];
              Comms.request_socket := None; Comms.written := [] |}
           eq_refl).
Defined.

(** X19: [get_first_reschedule_date] does not ask the supervisor when the
    task was never rescheduled: it returns [None] and neither writes nor
    reads.  Otherwise it writes one request, for the try number
    [max_tries - retries + 1] (with [retries] taken as 0 when unset), and
    returns the start date of the reply. *)
Theorem first_reschedule_date_round_trip (id : string) (max_tries : Z)
    (retries task_reschedule_count : option Z) (self : Comms.CommsDecoder) :
  (task_reschedule_count = None \/ task_reschedule_count = Some 0 ->
   Comms.get_first_reschedule_date id max_tries retries
     task_reschedule_count self = (Ok None, self))
  /\ (forall n fd start_date rest,
        task_reschedule_count = Some n -> n <> 0 ->
        Comms.request_socket self = Some fd ->
        Comms.input self
        = Some (Comms.TaskRescheduleStartDate start_date) :: rest ->
        Comms.get_first_reschedule_date id max_tries retries
          task_reschedule_count self
        = (Ok start_date,
           {| Comms.input := rest;
              Comms.request_socket := Some fd;
              Comms.written :=
                Comms.written self
                ++ [(fd, Comms.GetTaskRescheduleStartDate id
                           (max_tries
                            - match retries with Some r => r | None => 0 end
                            + 1))] |})).
Proof.
  unfold Comms.get_first_reschedule_date. split.
  - intros [-> | ->]; reflexivity.
  - intros n fd start_date rest -> Hn Hs Hin.
    apply Z.eqb_neq in Hn. rewrite Hn.
    unfold sbind, Comms.send_request, Comms.get_message. rewrite Hs. simpl.
    rewrite Hin. reflexivity.
Qed.

Lemma first_reschedule_date_round_trip_witness :
  Comms.get_first_reschedule_date "ti" 3 (Some 2) (Some 1)
    {| Comms.input := [Some (Comms.TaskRescheduleStartDate (Some 500))];
       Comms.request_socket := Some 7; Comms.written := [] |}
  = (Ok (Some 500),
     {| Comms.input := []; Comms.request_socket := Some 7;
        Comms.written := [(7, Comms.GetTaskRescheduleStartDate "ti" 2)] |}).
Proof.
  destruct (first_reschedule_date_round_trip "ti" 3 (Some 2) (Some 1)
              {| Comms.input :=
                   [Some (Comms.TaskRescheduleStartDate (Some 500))];
                 Comms.request_socket := Some 7; Comms.written := [] |})
    as [_ H].
  exact (H 1 7 (Some 500) [] eq_refl ltac:(discriminate) eq_refl eq_refl).
Defined.

(** ** [finalize] *)

Lemma invoke_contained (i : invocation) (r : result unit) (p : process) :
  contained r -> sbest_effort (invoke i r) p = (Ok tt, record_call i p).
Proof.
  intros Hc. unfold sbest_effort, invoke, record_call.
  destruct r as [[]|e]; [reflexivity|]. simpl in Hc. now rewrite Hc.
Qed.

Lemma run_callbacks_from_contained (i : nat) (kind : callback_kind)
    (callbacks : list (result unit)) (p : process) :
  Forall contained callbacks ->
  run_callbacks_from i kind callbacks p
  = (Ok tt,
     {| world_of := world_of p;
        invoked := invoked p
                   ++ map (Callback kind) (seq i (length callbacks)) |}).
Proof.
  intros Hc. revert i p.
  induction Hc as [|c callbacks Hc _ IH]; intros i p; simpl.
  - unfold sret. rewrite app_nil_r. now destruct p.
  - unfold sbind. rewrite (invoke_contained _ _ _ Hc), IH.
    unfold record_call. simpl. now rewrite <- app_assoc.
Qed.

Lemma run_callbacks_contained (kind : callback_kind)
    (callbacks : list (result unit)) (p : process) :
  Forall contained callbacks ->
  run_callbacks kind callbacks p
  = (Ok tt,
     {| world_of := world_of p;
        invoked := invoked p ++ callback_calls kind callbacks |}).
Proof. apply run_callbacks_from_contained. Qed.

(** The first two steps of [finalize] make none of the recorded calls,
    and return when every link is found. *)
Lemma store_links_and_fields_ok (ti : RuntimeTaskInstance) (fin : Finalizers)
    (p : process) :
  Forall (fun oe => exists link, snd oe = Ok link) (operator_extra_links fin) ->
  exists w',
    store_links_and_fields ti fin p
    = (Ok tt, {| world_of := w'; invoked := invoked p |}).
Proof.
  intros Hl. unfold store_links_and_fields, sbind at 1.
  assert (Hloop : forall p0, invoked p0 = invoked p -> exists w',
             sfor_each (operator_extra_links fin)
               (fun oe => sbind (scall (snd oe))
                            (fun link => lift (_xcom_push_to_db ti (fst oe)
                                                 link))) p0
             = (Ok tt, {| world_of := w'; invoked := invoked p |})).
  { induction Hl as [|oe links [link Hoe] _ IH]; intros p0 Hp0; simpl.
    - exists (world_of p0). unfold sret. rewrite <- Hp0. now destruct p0.
    - unfold sbind at 1, sbind at 1, scall. rewrite Hoe.
      unfold lift at 1. simpl. apply IH. exact Hp0. }
  destruct (Hloop p eq_refl) as (w1 & ->).
  destruct (overwrite_rtif_after_execution fin);
    [|now exists w1].
  destruct (template_fields fin) as [|f fields]; [now exists w1|].
  eexists. reflexivity.
Qed.

Lemma run_finalizers_contained (state : TIState) (error : option exn)
    (fin : Finalizers) (subject content err : string) (p : process) :
  contained_finalizers fin ->
  (forall e flag,
     error = Some e -> wants_email error flag (email fin) = true ->
     _get_email_subject_content fin e = Ok (subject, content, err)
     /\ send_email fin (email fin) subject content = Ok tt) ->
  run_finalizers state error fin p
  = (Ok tt,
     {| world_of := world_of p;
        invoked := invoked p
                   ++ finalizer_calls state error fin
                        [SendEmail (email fin) subject content] |}).
Proof.
  intros (_ & Hs & Hk & Hr & Hf & Hls & Hlf & _) Hmail.
  assert (Hsend : forall flag p0,
    match error with
    | Some e =>
        if wants_email error flag (email fin)
        then _send_task_error_email fin (email fin) e
        else sret tt
    | None => sret tt
    end p0
    = (Ok tt,
       {| world_of := world_of p0;
          invoked := invoked p0
                     ++ (if wants_email error flag (email fin)
                         then [SendEmail (email fin) subject content]
                         else []) |})).
  { intros flag p0. destruct error as [e|].
    - destruct (wants_email (Some e) flag (email fin)) eqn:Hw.
      + destruct (Hmail e flag eq_refl Hw) as [Hg Hse].
        unfold _send_task_error_email, sbind, scall, invoke.
        rewrite Hg, Hse. reflexivity.
      + unfold sret. rewrite app_nil_r. now destruct p0.
    - unfold sret. simpl. rewrite app_nil_r. now destruct p0. }
  unfold run_finalizers, finalizer_calls.
  destruct state as [[| |]|[| |]]; unfold sbind.
  - rewrite (run_callbacks_contained _ _ _ Hs), (invoke_contained _ _ _ Hls).
    unfold record_call. simpl. now rewrite <- app_assoc.
  - rewrite (run_callbacks_contained _ _ _ Hf), (invoke_contained _ _ _ Hlf).
    rewrite Hsend. unfold record_call. simpl.
    now rewrite <- !app_assoc.
  - now rewrite (run_callbacks_contained _ _ _ Hk).
  - rewrite (run_callbacks_contained _ _ _ Hr), (invoke_contained _ _ _ Hlf).
    rewrite Hsend. unfold record_call. simpl.
    now rewrite <- !app_assoc.
  - unfold sret. rewrite app_nil_r. now destruct p.
  - unfold sret. rewrite app_nil_r. now destruct p.
Qed.

(** What [finalize] calls, and that it returns, when nothing escapes. *)
Lemma finalize_calls_shape (ti : RuntimeTaskInstance) (state : TIState)
    (error : option exn) (fin : Finalizers) (subject content err : string)
    (p : process) :
  contained_finalizers fin ->
  (forall e flag,
     error = Some e -> wants_email error flag (email fin) = true ->
     _get_email_subject_content fin e = Ok (subject, content, err)
     /\ send_email fin (email fin) subject content = Ok tt) ->
  exists w',
    finalize ti state error fin p
    = (Ok tt,
       {| world_of := w';
          invoked := invoked p
                     ++ finalizer_calls state error fin
                          [SendEmail (email fin) subject content]
                     ++ [ListenerHook "before_stopping"] |}).
Proof.
  intros Hc Hmail.
  destruct (store_links_and_fields_ok ti fin p (proj1 Hc)) as (w' & Hstore).
  exists w'. unfold finalize, sbind at 1. rewrite Hstore.
  unfold sbind at 1.
  rewrite (run_finalizers_contained state error fin subject content err _
             Hc Hmail).
  assert (Hb : contained (before_stopping fin)) by apply Hc.
  rewrite (invoke_contained _ _ _ Hb). unfold record_call. simpl.
  now rewrite <- app_assoc.
Qed.

(** X20: what [finalize] calls, when every link is found, callbacks and
    listener hooks raise at most an [Exception] and, whenever a mail is
    due, [_get_email_subject_content] returns the subject and content and
    the first [send_email] succeeds.  It runs all the callbacks of the
    outcome, in order, although some may raise, then the listener hook of
    the outcome, then sends the error mail if there is an error, the task
    asks for mail on that outcome and has recipients, and last notifies
    [before_stopping].  [DEFERRED] and [UP_FOR_RESCHEDULE] have no
    callbacks, [SKIPPED] no listener hook, and mail is sent on [FAILED]
    and [UP_FOR_RETRY] only.  [finalize] then returns. *)
Theorem finalize_calls (ti : RuntimeTaskInstance) (state : TIState)
    (error : option exn) (fin : Finalizers) (subject content err : string)
    (p : process) :
  contained_finalizers fin ->
  (forall e flag,
     error = Some e -> wants_email error flag (email fin) = true ->
     _get_email_subject_content fin e = Ok (subject, content, err)
     /\ send_email fin (email fin) subject content = Ok tt) ->
  exists w',
    finalize ti state error fin p
    = (Ok tt,
       {| world_of := w';
          invoked := invoked p
                     ++ finalizer_calls state error fin
                          [SendEmail (email fin) subject content]
                     ++ [ListenerHook "before_stopping"] |}).
Proof. apply finalize_calls_shape. Qed.

Lemma finalize_calls_witness :
  let fin := {|
    operator_extra_links := [("_link_docs", Ok (VStr "https://example.org"))];
    overwrite_rtif_after_execution := false;
    template_fields := [];
    on_success := [Ok tt];
    on_skipped := [];
    on_retry := [];
    on_failure := [Raise (UserException "ValueError"); Ok tt];
    on_task_instance_success := Ok tt;
    on_task_instance_failed := Raise (UserException "ListenerError");
    before_stopping := Ok tt;
    email := ["ops@example.org"];
    email_on_retry := false;
    email_on_failure := true;
    _get_email_subject_content := fun _ => Ok ("subject", "content", "err");
    send_email := fun _ _ _ => Ok tt;
  |} in
  exists w',
    finalize (Sample.instance Sample.operator false) (Terminal FAILED)
      (Some AirflowException) fin
      {| world_of := Sample.start []; invoked := [] |}
    = (Ok tt,
       {| world_of := w';
          invoked := [Callback on_failure_callback 0;
                      Callback on_failure_callback 1;
                      ListenerHook "on_task_instance_failed";
                      SendEmail ["ops@example.org"] "subject" "content";
                      ListenerHook "before_stopping"] |}).
Proof.
  intros fin.
  apply (finalize_calls (Sample.instance Sample.operator false)
           (Terminal FAILED) (Some AirflowException) fin "subject" "content"
           "err" {| world_of := Sample.start []; invoked := [] |}).
  - unfold contained_finalizers. simpl.
    repeat split; repeat constructor. now exists (VStr "https://example.org").
  - intros e flag _ _. split; reflexivity.
Defined.

(** X21: when sending the error mail raises an [Exception], the mail is
    sent once more with the fallback content, and that second attempt is
    not guarded: how it ends - an error included - is how
    [_send_task_error_email] ends. *)
Theorem error_email_falls_back (fin : Finalizers) (to : list string)
    (exception e1 : exn) (subject content err : string) (p : process) :
  _get_email_subject_content fin exception = Ok (subject, content, err) ->
  send_email fin to subject content = Raise e1 ->
  isinstance e1 Cls.Exception = true ->
  _send_task_error_email fin to exception p
  = (send_email fin to subject err,
     {| world_of := world_of p;
        invoked := invoked p ++ [SendEmail to subject content;
                                 SendEmail to subject err] |}).
Proof.
  intros Hg Hs He.
  unfold _send_task_error_email, sbind, scall, invoke.
  rewrite Hg, Hs. simpl. rewrite He. now rewrite <- app_assoc.
Qed.

Lemma error_email_falls_back_witness :
  let fin := {|
    operator_extra_links := [];
    overwrite_rtif_after_execution := false;
    template_fields := [];
    on_success := []; on_skipped := []; on_retry := []; on_failure := [];
    on_task_instance_success := Ok tt;
    on_task_instance_failed := Ok tt;
    before_stopping := Ok tt;
    email := ["ops@example.org"];
    email_on_retry := false;
    email_on_failure := true;
    _get_email_subject_content := fun _ => Ok ("subject", "content", "err");
    send_email := fun _ _ _ => Raise (UserException "SMTPException");
  |} in
  fst (_send_task_error_email fin ["ops@example.org"] AirflowException
         {| world_of := Sample.start []; invoked := [] |})
  = Raise (UserException "SMTPException").
Proof.
  intros fin.
  rewrite (error_email_falls_back fin ["ops@example.org"] AirflowException
             (UserException "SMTPException") "subject" "content" "err"
             {| world_of := Sample.start []; invoked := [] |}
             eq_refl eq_refl eq_refl).
  reflexivity.
Defined.

(** ** [main] *)

(** X22: the outcome of the task does not show in how [main] ends.  When
    [startup] and [run] return - whatever the outcome, [FAILED] included -
    and the finalizers let nothing escape, [main] returns, after the calls
    of [finalize]. *)
Theorem main_returns_whatever_the_outcome (ti : RuntimeTaskInstance)
    (context : Context) (fin : Finalizers) (p : process) (state : TIState)
    (msg : option ToSupervisor) (error : option exn) (w' : world)
    (subject content err : string) :
  run ti context (world_of p) = (Ok (state, msg, error), w') ->
  contained_finalizers fin ->
  (forall e flag,
     error = Some e -> wants_email error flag (email fin) = true ->
     _get_email_subject_content fin e = Ok (subject, content, err)
     /\ send_email fin (email fin) subject content = Ok tt) ->
  fst (main (Ok (ti, context)) fin p) = Returned
  /\ invoked (snd (main (Ok (ti, context)) fin p))
     = invoked p
       ++ finalizer_calls state error fin
            [SendEmail (email fin) subject content]
       ++ [ListenerHook "before_stopping"].
Proof.
  intros Hrun Hc Hmail.
  destruct (finalize_calls_shape ti state error fin subject content err
              {| world_of := w'; invoked := invoked p |} Hc Hmail)
    as (w2 & Hfin).
  assert (Hmain : main (Ok (ti, context)) fin p
                  = (Returned,
                     {| world_of := w2;
                        invoked := invoked p
                                   ++ finalizer_calls state error fin
                                        [SendEmail (email fin) subject content]
                                   ++ [ListenerHook "before_stopping"] |})).
  { unfold main, sbind, scall, lift. cbn [fst snd]. rewrite Hrun.
    cbn [fst snd]. now rewrite Hfin. }
  rewrite Hmain. split; reflexivity.
Qed.

Lemma main_returns_whatever_the_outcome_witness :
  fst (main (Ok (Sample.instance
                   (Sample.with_body (Raise AirflowException) Sample.operator)
                   false, Sample.context))
         no_finalizers {| world_of := Sample.start []; invoked := [] |})
  = Returned.
Proof.
  apply (main_returns_whatever_the_outcome
           (Sample.instance
              (Sample.with_body (Raise AirflowException) Sample.operator)
              false)
           Sample.context no_finalizers
           {| world_of := Sample.start []; invoked := [] |}
           (Terminal FAILED) (Some (TaskState FAILED 105))
           (Some AirflowException)
           (set_sent [TaskState FAILED 105]
              (set_clock 105 (set_body_calls 1 (Sample.start []))))
           "subject" "content" "err" eq_refl).
  - unfold contained_finalizers. simpl. repeat split; constructor.
  - intros e flag _ Hw. destruct flag; discriminate Hw.
Defined.

(** X23: how [main] ends on an error.  When [startup] raises, nothing else
    is run; when [run] raises, [finalize] is not run.  Either way [main]
    ends by the class of the error: it exits with code 2 on a keyboard
    interrupt and with code 1 on any [Exception], and does not catch
    anything else.  This holds whichever constructors, writes and
    serializations fail. *)
Theorem main_exit_codes (f : Faults) (fin : Finalizers) (p : process) :
  (forall e,
     Faulty.main f (Raise e) fin p
     = (if isinstance e Cls.KeyboardInterrupt then Exit 2
        else if isinstance e Cls.Exception then Exit 1
        else Uncaught e, p))
  /\ (forall ti context e w',
        Faulty.run f ti context (world_of p) = (Raise e, w') ->
        Faulty.main f (Ok (ti, context)) fin p
        = (if isinstance e Cls.KeyboardInterrupt then Exit 2
           else if isinstance e Cls.Exception then Exit 1
           else Uncaught e, {| world_of := w'; invoked := invoked p |})).
Proof.
  split.
  - intros e. unfold Faulty.main, sbind, scall.
    destruct (isinstance e Cls.KeyboardInterrupt);
      [reflexivity|destruct (isinstance e Cls.Exception); reflexivity].
  - intros ti context e w' Hrun.
    unfold Faulty.main, sbind, scall, lift. cbn [fst snd]. rewrite Hrun.
    cbn [fst snd].
    destruct (isinstance e Cls.KeyboardInterrupt);
      [reflexivity|destruct (isinstance e Cls.Exception); reflexivity].
Qed.

Lemma main_exit_codes_witness :
  let p := {| world_of := Sample.start []; invoked := [] |} in
  let interrupted := {|
    build_error := fun _ => None;
    write_error := fun _ => Some KeyboardInterrupt;
    serialize_error := fun _ => None |} in
  fst (main (Ok (Sample.instance
                   (Sample.with_body
                      (Raise (DagRunTriggerException
                                (Sample.trigger false true)))
                      Sample.operator) true, Sample.context))
         no_finalizers p)
  = Exit 1
  /\ fst (Faulty.main interrupted
            (Ok (Sample.instance Sample.operator true, Sample.context))
            no_finalizers p)
     = Exit 2.
Proof.
  intros p interrupted. split.
  - destruct (main_exit_codes no_faults no_finalizers p) as [_ H].
    change main with (Faulty.main no_faults).
    rewrite (H (Sample.instance
                  (Sample.with_body
                     (Raise (DagRunTriggerException
                               (Sample.trigger false true)))
                     Sample.operator) true)
               Sample.context ValidationError
               (set_sent [TriggerDagRun "target" "manual_1" None VNone false]
                  (set_clock 105 (set_body_calls 1 (Sample.start []))))
               eq_refl).
    reflexivity.
  - destruct (main_exit_codes interrupted no_finalizers p) as [_ H].
    rewrite (H (Sample.instance Sample.operator true) Sample.context
               KeyboardInterrupt
               (snd (Faulty.run interrupted
                       (Sample.instance Sample.operator true) Sample.context
                       (Sample.start [])))
               eq_refl).
    reflexivity.
Defined.

(** ** Composition *)



(** X25: the result of a successful attempt reaches the tasks downstream.
    When the task is prepared, its body returns a value other than
    [None], and the task pushes its result without multiple outputs and
    returns something that can be mapped over if a mapped task depends on
    it, [run] reports [SUCCESS], and pulling the task's [return_value] at
    its map index, from any task instance of the same run, gives the
    value back. *)
Theorem result_reaches_downstream (ti other : RuntimeTaskInstance)
    (context : Context) (w w1 w2 : world) (v default : value) :
  prepared ti context w = (Ok None, w1) ->
  _execute_task context ti w1 = (Ok v, w2) ->
  is_None v = false ->
  do_xcom_push (task ti) = true ->
  multiple_outputs (task ti) = false ->
  is_mapped_or_has_dependants (task ti) && negb (is_mappable_value v)
  = false ->
  dag_id other = dag_id ti ->
  run_id other = run_id ti ->
  exists m w',
    run ti context w = (Ok (Terminal SUCCESS, Some m, None), w')
    /\ reported_state m = Some (Terminal SUCCESS)
    /\ fst (xcom_pull other (TaskIdsStr (task_id ti)) None "return_value"
              false (MapIndexInt (map_index ti)) default None w')
       = Ok v.
Proof.
  intros Hp Hex Hv Hpush Hmulti Hmap Hdag Hrun.
  assert (Htry : run_try ti context w
                 = (Ok (Some (SucceedTask (clock w2)
                                (_build_asset_profiles (outlets (task ti)))
                                (outlet_events context)), Terminal SUCCESS),
                    set_xcoms (<[own_key ti "return_value" :=
                                   (v, mapped_length_of ti v)]> (xcoms w2))
                      w2)).
  { rewrite run_try_prepared, Hp. unfold bind at 1. rewrite Hex.
    unfold bind at 1.
    rewrite (push_result_eq ti w2 v Hpush Hv), Hmap, Hmulti. reflexivity. }
  eexists _, _. split; [|split].
  - unfold run. rewrite Htry. reflexivity.
  - reflexivity.
  - unfold xcom_pull, xcom_pull_from, pull_one, XCom.get_one. simpl.
    rewrite Hdag, Hrun. unfold own_key.
    rewrite lookup_insert_eq. now rewrite Hv.
Qed.

Lemma result_reaches_downstream_witness :
  exists m w',
    run (Sample.instance Sample.operator true) Sample.context (Sample.start [])
    = (Ok (Terminal SUCCESS, Some m, None), w')
    /\ fst (xcom_pull (Sample.instance Sample.operator false)
              (TaskIdsStr "task") None "return_value" false
              (MapIndexInt (-1)) VNone None w')
       = Ok (VInt 42).
Proof.
  destruct (result_reaches_downstream
              (Sample.instance Sample.operator true)
              (Sample.instance Sample.operator false) Sample.context
              (Sample.start []) (Sample.start [])
              (set_clock 105 (set_body_calls 1 (Sample.start [])))
              (VInt 42) VNone eq_refl eq_refl eq_refl eq_refl eq_refl eq_refl
              eq_refl eq_refl) as (m & w' & Hrun & _ & Hpull).
  exists m, w'. split; assumption.
Defined.
